(** * LibreLPP daemon: a shallow embedding of [src/lpp_daemon.py]

    The daemon keeps one BLE link to the cooling device, stores the
    fan and pump settings, and answers line-delimited JSON requests on
    a Unix socket.  The Python object [LPPDaemon], the transport and
    the state file are modelled by one record threaded through a small
    state-and-exception monad.  Each coroutine is given twice: run from
    its call to its return, as it behaves when no other task gets a
    turn, and cut at every [await], the pieces being the steps of a
    transition system in which the tasks of the daemon interleave as
    asyncio lets them.  [shutdown] is not modelled. *)

From Stdlib Require Import ZArith List String Ascii Bool Lia.
From Stdlib Require Import Strings.Byte.
Import ListNotations.

Local Open Scope string_scope.
Local Open Scope list_scope.
Local Open Scope Z_scope.

Set Warnings "-register-all".

(** ** Python values

    What [json.loads] / [json.load] hand to the daemon.  A float is
    kept as its literal: the daemon never computes with one.  A dict is
    the association list of its items (keys pairwise distinct), in
    insertion order. *)

Inductive json : Type :=
| JNull
| JBool (b : bool)
| JInt (z : Z)
| JFloat (lit : string)
| JStr (s : string)
| JList (l : list json)
| JDict (kv : list (string * json)).

(** Exceptions the modelled code can raise.  All of them derive from
    [Exception]; only [JSONDecodeError] is caught by name. *)
Inductive exn : Type :=
| AttributeError
| TypeError
| ValueError
| UnicodeDecodeError
| JSONDecodeError
| OSError
| BleakError
| RecursionError.

(** [dict.get(key, default)] on the items of a dict. *)
Fixpoint dict_get (kv : list (string * json)) (key : string) (default : json) : json :=
  match kv with
  | [] => default
  | (k, v) :: rest => if String.eqb k key then v else dict_get rest key default
  end.

(** [isinstance(v, int)] together with the integer [v] stands for:
    Python's [bool] is a subclass of [int], [True == 1]. *)
Definition as_int (v : json) : option Z :=
  match v with
  | JInt z => Some z
  | JBool true => Some 1
  | JBool false => Some 0
  | _ => None
  end.

(** [isinstance(value, int) and lo <= value <= hi], the guard of
    [process_request]. *)
Definition int_between (lo hi : Z) (value : json) : bool :=
  match as_int value with
  | Some z => (lo <=? z) && (z <=? hi)
  | None => false
  end.

(** The values that pass that guard: what Python counts as an integer
    in [lo, hi], the JSON booleans as 1 and 0 included. *)
Definition in_range (lo hi : Z) (v : json) : Prop :=
  exists z, as_int v = Some z /\ lo <= z <= hi.

(** The specification's reading of "an integer in [lo, hi]": a JSON
    number without fraction; [true] and [false] are not numbers. *)
Definition whole_in (lo hi : Z) (v : json) : Prop :=
  exists z, v = JInt z /\ lo <= z <= hi.

(** [cmd == 'literal'] for a value taken from a request. *)
Definition str_is (v : json) (literal : string) : bool :=
  match v with
  | JStr s => String.eqb s literal
  | _ => false
  end.

(** ** Command codec *)

Module Codec.

(** One element of the iterable given to [bytes(...)]: a non-integer
    raises [TypeError], an integer outside [range(256)] raises
    [ValueError]. *)
Definition byte_of (v : json) : exn + byte :=
  match as_int v with
  | None => inl TypeError
  | Some z =>
      if (0 <=? z) && (z <? 256) then
        match Byte.of_N (Z.to_N z) with
        | Some b => inr b
        | None => inl ValueError
        end
      else inl ValueError
  end.

(** [bytes([v0, v1, ...])]. *)
Fixpoint py_bytes (vs : list json) : exn + list byte :=
  match vs with
  | [] => inr []
  | v :: rest =>
      match byte_of v with
      | inl e => inl e
      | inr b =>
          match py_bytes rest with
          | inl e => inl e
          | inr bs => inr (b :: bs)
          end
      end
  end.

(** [bytes([0xfe, 0x1b, 0x01, speed, 0x00, 0x00, 0x00, 0xef])] *)
Definition fan_frame (speed : json) : exn + list byte :=
  py_bytes [JInt 254; JInt 27; JInt 1; speed; JInt 0; JInt 0; JInt 0; JInt 239].

(** [bytes([0xfe, 0x1c, 0x01, 0x3c, mode, 0x00, 0x00, 0xef])] *)
Definition pump_frame (mode : json) : exn + list byte :=
  py_bytes [JInt 254; JInt 28; JInt 1; JInt 60; mode; JInt 0; JInt 0; JInt 239].

(** The sync frame of the keepalive loop. *)
Definition sync_frame : list byte := [xfe; x33; x00; x00; x00; x00; x00; xef].

(** [init_cmds] of [init_device]; the last one is [b"sw"]. *)
Definition init_cmds : list (list byte) :=
  [ [xfe; x1c; x01; x3c; x03; x00; x00; xef];
    [xfe; x1b; x01; x3c; x00; x00; x00; xef];
    [xfe; x1e; x01; x00; xb8; xff; x00; xef];
    sync_frame;
    [x73; x77] ].

(** Every frame [init_device] hands to [send_command], in order: the
    whole list, then [init_cmds[:-1]]. *)
Definition init_sequence : list (list byte) :=
  init_cmds ++ removelast init_cmds.

End Codec.

(** ** The daemon and its surroundings *)

(** A scan result ([BLEDevice]): [address] and the advertised [name],
    which may be [None]. *)
Record Device : Type := mkDevice {
  address : string;
  name : option string
}.

(** The file at [STATE_PATH] as [_load_state] meets it: absent, present
    but [open] / [json.load] raises, or present with a JSON value. *)
Inductive file : Type :=
| Missing
| Unreadable
| Stored (content : json).

(** How one run of the [try] block of [_save_state] ends: it completes;
    [mkdir] or [open] raises, and the file is as it was; or [json.dump]
    or the flush at the end of the [with] raises, after [open(..., 'w')]
    has truncated the file. *)
Inductive save_outcome : Type :=
| Saved
| OpenFails
| WriteFails.

(** Who handed a frame to [send_command].  The tag is bookkeeping of
    the model: the device sees the bytes only. *)
Inductive origin : Type :=
| Handshake   (* init_device *)
| Resync      (* connect_ble re-applying fan / pump *)
| FromClient  (* process_request *)
| Keepalive.  (* keepalive_loop *)

(** The attributes of [LPPDaemon] the modelled methods use, followed by
    the outside world: [link] lists the frames [write_gatt_char]
    accepted on the current [self.client], oldest first; [disk] is the
    state file; [write_script] gives the outcome of the next transport
    writes ([false]: the call raises) and [save_script] that of the next
    state-file writes, and once a script is used up every call
    succeeds. *)
Record Daemon : Type := mkDaemon {
  client : option string;
  connected : bool;
  running : bool;
  reconnect_delay : Z;
  reconnect_task : bool;
  keepalive_task : bool;
  fan_speed : json;
  pump_mode : json;
  link : list (origin * list byte);
  disk : file;
  write_script : list bool;
  save_script : list save_outcome
}.

Definition set_client v (s : Daemon) : Daemon :=
  mkDaemon v (connected s) (running s) (reconnect_delay s) (reconnect_task s)
    (keepalive_task s) (fan_speed s) (pump_mode s) (link s) (disk s)
    (write_script s) (save_script s).
Definition set_connected v (s : Daemon) : Daemon :=
  mkDaemon (client s) v (running s) (reconnect_delay s) (reconnect_task s)
    (keepalive_task s) (fan_speed s) (pump_mode s) (link s) (disk s)
    (write_script s) (save_script s).
Definition set_reconnect_delay v (s : Daemon) : Daemon :=
  mkDaemon (client s) (connected s) (running s) v (reconnect_task s)
    (keepalive_task s) (fan_speed s) (pump_mode s) (link s) (disk s)
    (write_script s) (save_script s).
Definition set_reconnect_task v (s : Daemon) : Daemon :=
  mkDaemon (client s) (connected s) (running s) (reconnect_delay s) v
    (keepalive_task s) (fan_speed s) (pump_mode s) (link s) (disk s)
    (write_script s) (save_script s).
Definition set_keepalive_task v (s : Daemon) : Daemon :=
  mkDaemon (client s) (connected s) (running s) (reconnect_delay s) (reconnect_task s)
    v (fan_speed s) (pump_mode s) (link s) (disk s)
    (write_script s) (save_script s).
Definition set_fan_speed v (s : Daemon) : Daemon :=
  mkDaemon (client s) (connected s) (running s) (reconnect_delay s) (reconnect_task s)
    (keepalive_task s) v (pump_mode s) (link s) (disk s)
    (write_script s) (save_script s).
Definition set_pump_mode v (s : Daemon) : Daemon :=
  mkDaemon (client s) (connected s) (running s) (reconnect_delay s) (reconnect_task s)
    (keepalive_task s) (fan_speed s) v (link s) (disk s)
    (write_script s) (save_script s).
Definition set_link v (s : Daemon) : Daemon :=
  mkDaemon (client s) (connected s) (running s) (reconnect_delay s) (reconnect_task s)
    (keepalive_task s) (fan_speed s) (pump_mode s) v (disk s)
    (write_script s) (save_script s).
Definition set_disk v (s : Daemon) : Daemon :=
  mkDaemon (client s) (connected s) (running s) (reconnect_delay s) (reconnect_task s)
    (keepalive_task s) (fan_speed s) (pump_mode s) (link s) v
    (write_script s) (save_script s).
Definition set_write_script v (s : Daemon) : Daemon :=
  mkDaemon (client s) (connected s) (running s) (reconnect_delay s) (reconnect_task s)
    (keepalive_task s) (fan_speed s) (pump_mode s) (link s) (disk s)
    v (save_script s).
Definition set_save_script v (s : Daemon) : Daemon :=
  mkDaemon (client s) (connected s) (running s) (reconnect_delay s) (reconnect_task s)
    (keepalive_task s) (fan_speed s) (pump_mode s) (link s) (disk s)
    (write_script s) v.

(** ** A state monad with Python exceptions

    A raised exception keeps the assignments made before it. *)

Definition M (A : Type) : Type := Daemon -> (exn + A) * Daemon.

Definition ret {A} (a : A) : M A := fun s => (inr a, s).
Definition raise {A} (e : exn) : M A := fun s => (inl e, s).
Definition bind {A B} (m : M A) (k : A -> M B) : M B :=
  fun s =>
    match m s with
    | (inl e, s') => (inl e, s')
    | (inr a, s') => k a s'
    end.
Definition get : M Daemon := fun s => (inr s, s).
Definition modify (f : Daemon -> Daemon) : M unit := fun s => (inr tt, f s).

(** [try: m  except Exception: h] *)
Definition try_except {A} (m : M A) (h : exn -> M A) : M A :=
  fun s =>
    match m s with
    | (inl e, s') => h e s'
    | (inr a, s') => (inr a, s')
    end.

Declare Scope py_scope.
Delimit Scope py_scope with py.
Notation "x <- m ;; k" := (bind m (fun x => k))
  (at level 61, m at next level, right associativity) : py_scope.
Notation "m ;; k" := (bind m (fun _ => k))
  (at level 61, right associativity) : py_scope.
Local Open Scope py_scope.

(** Module constants.  The delays are the floats 1.0 and 60.0 in the
    source; every delay the daemon computes is one of 1, 2, 4, 8, 16, 32
    and 60, which floats hold exactly, so integers stand for them. *)
Definition RECONNECT_MIN_DELAY : Z := 1.
Definition RECONNECT_MAX_DELAY : Z := 60.
Definition DEVICE_NAME : string := "CoolingSystem".

Definition lift {A} (r : exn + A) : M A :=
  match r with
  | inl e => raise e
  | inr a => ret a
  end.

(** [obj.get(key, default)]: only a dict has the method. *)
Definition py_get (obj : json) (key : string) (default : json) : M json :=
  match obj with
  | JDict kv => ret (dict_get kv key default)
  | _ => raise AttributeError
  end.

(** ** State store *)

(** [_load_state]: any exception is logged and swallowed. *)
Definition _load_state : M unit :=
  try_except
    (s <- get ;;
     match disk s with
     | Missing => ret tt
     | Unreadable => raise OSError
     | Stored state =>
         fan <- py_get state "fan" (JInt 60) ;;
         modify (set_fan_speed fan) ;;
         pump <- py_get state "pump" (JInt 0) ;;
         modify (set_pump_mode pump)
     end)
    (fun _ => ret tt).

(** [LPPDaemon.__init__] in front of a state file and the scripted
    outcomes of the writes to come. *)
Definition LPPDaemon (f : file) (writes : list bool) (saves : list save_outcome) : Daemon :=
  snd (_load_state
         (mkDaemon None false true RECONNECT_MIN_DELAY false false
                   (JInt 60) (JInt 0) [] f writes saves)).

(** [_save_state]: [json.dump({'fan': ..., 'pump': ...}, f)].  Every
    exception is logged and swallowed.  When [mkdir] or [open] raises
    the file stays as it was; when the write raises, [open] has already
    truncated the file, and what is left (nothing, or the beginning of
    the text) is no JSON text: the next [json.load] raises. *)
Definition _save_state : M unit :=
  fun s =>
    let saved := Stored (JDict [("fan", fan_speed s); ("pump", pump_mode s)]) in
    match save_script s with
    | [] => (inr tt, set_disk saved s)
    | Saved :: rest => (inr tt, set_disk saved (set_save_script rest s))
    | OpenFails :: rest => (inr tt, set_save_script rest s)
    | WriteFails :: rest => (inr tt, set_disk Unreadable (set_save_script rest s))
    end.

(** ** Connection manager *)

(** [_schedule_reconnect]: the flag stands for "a reconnect task exists
    and is not done". *)
Definition _schedule_reconnect : M unit :=
  s <- get ;;
  if negb (running s) then ret tt
  else if reconnect_task s then ret tt
  else modify (set_reconnect_task true).

(** [self.client.write_gatt_char(NUS_TX_CHAR_UUID, data, response=False)] *)
Definition write_gatt_char (who : origin) (data : list byte) : M unit :=
  fun s =>
    match write_script s with
    | false :: rest => (inl BleakError, set_write_script rest s)
    | true :: rest =>
        (inr tt, set_link (link s ++ [(who, data)]) (set_write_script rest s))
    | [] => (inr tt, set_link (link s ++ [(who, data)]) s)
    end.

Definition is_none {A} (o : option A) : bool :=
  match o with
  | None => true
  | Some _ => false
  end.

(** [send_command] *)
Definition send_command (who : origin) (data : list byte) : M bool :=
  s <- get ;;
  if negb (connected s) || is_none (client s) then ret false
  else
    try_except
      (write_gatt_char who data ;; ret true)
      (fun _ =>
         modify (set_connected false) ;;
         _schedule_reconnect ;;
         ret false).

(** [send_fan_speed(speed, save)] *)
Definition send_fan_speed (who : origin) (speed : json) (save : bool) : M bool :=
  cmd <- lift (Codec.fan_frame speed) ;;
  ok <- send_command who cmd ;;
  if ok then
    modify (set_fan_speed speed) ;;
    (if save then _save_state else ret tt) ;;
    ret true
  else ret false.

(** [send_pump_mode(mode, save)] *)
Definition send_pump_mode (who : origin) (mode : json) (save : bool) : M bool :=
  cmd <- lift (Codec.pump_frame mode) ;;
  ok <- send_command who cmd ;;
  if ok then
    modify (set_pump_mode mode) ;;
    (if save then _save_state else ret tt) ;;
    ret true
  else ret false.

(** [_start_keepalive] / [_stop_keepalive]: the flag stands for "a
    keepalive task exists and is not done". *)
Definition _start_keepalive : M unit :=
  s <- get ;;
  if keepalive_task s then ret tt else modify (set_keepalive_task true).

Definition _stop_keepalive : M unit := modify (set_keepalive_task false).

(** One wake-up of [keepalive_loop] after its [sleep(30)], up to the
    next test of the loop condition. *)
Definition keepalive_wake : M unit :=
  s <- get ;;
  (if connected s then send_command Keepalive Codec.sync_frame ;; ret tt else ret tt) ;;
  s' <- get ;;
  if running s' && connected s' then ret tt else modify (set_keepalive_task false).

(** [_on_disconnect] *)
Definition _on_disconnect : M unit :=
  modify (set_connected false) ;;
  _stop_keepalive ;;
  _schedule_reconnect.

(** ** Link session: discovery and the connect coroutine *)

(** [str.lower()] and [needle in haystack].  A string of the model is
    ASCII text, as the addresses of BLE devices and [DEVICE_NAME] are;
    on such text [str.lower()] changes the letters A-Z only.  A device
    name with letters beyond ASCII is outside the model. *)
Definition lower_ascii (c : ascii) : ascii :=
  let n := nat_of_ascii c in
  if (65 <=? n)%nat && (n <=? 90)%nat then ascii_of_nat (n + 32) else c.

Fixpoint lower (s : string) : string :=
  match s with
  | EmptyString => EmptyString
  | String c rest => String (lower_ascii c) (lower rest)
  end.

Fixpoint contains (needle haystack : string) : bool :=
  String.prefix needle haystack
  || match haystack with
     | EmptyString => false
     | String _ rest => contains needle rest
     end.

Definition truthy (s : string) : bool := negb (String.eqb s "").

(** The [for d in devices] loop of [connect_ble]; [None] is the initial
    [address = None] surviving the loop. *)
Fixpoint select_device (DEVICE_ADDRESS : string) (devices : list Device) : option string :=
  match devices with
  | [] => None
  | d :: rest =>
      if truthy DEVICE_ADDRESS && String.eqb (lower DEVICE_ADDRESS) (lower (address d))
      then Some (address d)
      else
        match name d with
        | Some n =>
            if truthy n && contains (lower DEVICE_NAME) (lower n)
            then Some (address d)
            else select_device DEVICE_ADDRESS rest
        | None => select_device DEVICE_ADDRESS rest
        end
  end.

(** What the transport does during one call of [connect_ble]:
    [BleakScanner.discover] ([None]: it raises), [client.connect()] and
    [client.start_notify(...)] ([false]: the call raises). *)
Record ConnEnv : Type := mkConnEnv {
  scan : option (list Device);
  connect_ok : bool;
  notify_ok : bool
}.

(** A stretch of a coroutine between two suspensions.  [Some b]: the
    coroutine returns [b]; [None]: it suspends and goes on with the
    next segment. *)
Definition Segment : Type := M (option bool).

Definition going (m : M unit) : Segment := m ;; ret None.

(** [self.client = BleakClient(address, ...)]: from here on [link] is the
    log of the new client. *)
Definition open_client (a : string) : M unit :=
  modify (set_client (Some a)) ;; modify (set_link []).

Definition transport_call (ok : bool) : M unit :=
  if ok then ret tt else raise BleakError.

(** Lines 169-173: [start_notify] returns, then
    [self.connected = True; self.reconnect_delay = RECONNECT_MIN_DELAY]. *)
Definition mark_connected (env : ConnEnv) : M unit :=
  transport_call (notify_ok env) ;;
  modify (set_connected true) ;;
  modify (set_reconnect_delay RECONNECT_MIN_DELAY).

(** [init_device]: one segment per [send_command] and the [sleep] after
    it. *)
Definition handshake_segment (cmd : list byte) : Segment :=
  going (send_command Handshake cmd ;; ret tt).

Definition init_device_segments : list Segment :=
  map handshake_segment Codec.init_sequence.

(** [m] runs in front of the first segment, with no suspension between. *)
Definition prepend (m : M unit) (segs : list Segment) : list Segment :=
  match segs with
  | [] => [going m]
  | seg :: rest => (m ;; seg) :: rest
  end.

(** Lines 179-187. *)
Definition resync_fan : Segment :=
  going (s <- get ;; send_fan_speed Resync (fan_speed s) false ;; ret tt).

Definition resync_pump_and_finish : Segment :=
  s <- get ;;
  send_pump_mode Resync (pump_mode s) false ;;
  _start_keepalive ;;
  ret (Some true).

(** The body of the [try] of [connect_ble], cut at its suspensions. *)
Definition connect_segments (DEVICE_ADDRESS : string) (env : ConnEnv) : list Segment :=
  match scan env with
  | None => [raise BleakError]
  | Some devices =>
      match select_device DEVICE_ADDRESS devices with
      | None => [ret (Some false)]
      | Some a =>
          if negb (truthy a) then [ret (Some false)]
          else
            going (open_client a)
            :: going (transport_call (connect_ok env))
            :: prepend (mark_connected env) init_device_segments
               ++ [resync_fan; resync_pump_and_finish]
      end
  end.

(** The segments run back to back. *)
Fixpoint run_segments (segs : list Segment) : M bool :=
  match segs with
  | [] => ret false
  | seg :: rest =>
      r <- seg ;;
      match r with
      | Some b => ret b
      | None => run_segments rest
      end
  end.

(** The [except Exception] of [connect_ble]. *)
Definition connect_failed : M bool :=
  modify (set_connected false) ;; ret false.

(** [connect_ble] with no other task running in between. *)
Definition connect_ble (DEVICE_ADDRESS : string) (env : ConnEnv) : M bool :=
  try_except (run_segments (connect_segments DEVICE_ADDRESS env))
             (fun _ => connect_failed).

(** The coroutine [reconnect()], the body of the reconnect task, with
    one transport behaviour per attempt and no other task running in
    between; it yields the delays it slept, in order.  When the loop
    ends the task is done, which is what clears the flag
    [reconnect_task]; the list bounds the number of attempts looked at,
    and where it runs out the task is still asleep. *)
Fixpoint reconnect (DEVICE_ADDRESS : string) (envs : list ConnEnv) : M (list Z) :=
  match envs with
  | [] => ret []
  | env :: rest =>
      s <- get ;;
      if running s && negb (connected s) then
        let slept := reconnect_delay s in
        ok <- connect_ble DEVICE_ADDRESS env ;;
        if ok then modify (set_reconnect_task false) ;; ret [slept]
        else
          modify (fun s' =>
                    set_reconnect_delay
                      (Z.min (reconnect_delay s' * 2) RECONNECT_MAX_DELAY) s') ;;
          delays <- reconnect DEVICE_ADDRESS rest ;;
          ret (slept :: delays)
      else modify (set_reconnect_task false) ;; ret []
  end.

(** ** Request dispatcher and IPC server *)

(** The dicts [process_request] and [handle_client] answer with:
    [{"ok", "connected", "fan", "pump"}], [{"ok": False, "error": msg}],
    [{"ok": False, "error": f"Unknown command: {cmd}"}] and
    [{"ok": True, "connected": False, "message": "Reconnection scheduled"}]. *)
Inductive response : Type :=
| Report (ok conn : bool) (fan pump : json)
| Failure (error : string)
| UnknownCommand (cmd : json)
| Scheduled.

Definition ok_field (r : response) : bool :=
  match r with
  | Report ok _ _ _ => ok
  | Failure _ => false
  | UnknownCommand _ => false
  | Scheduled => true
  end.

Definition report (success : bool) : M response :=
  s <- get ;;
  ret (Report success (connected s) (fan_speed s) (pump_mode s)).

(** [process_request] *)
Definition process_request (request : json) : M response :=
  cmd <- py_get request "cmd" (JStr "") ;;
  if str_is cmd "status" then report true
  else if str_is cmd "fan" then
    value <- py_get request "value" JNull ;;
    if negb (int_between 0 100 value) then ret (Failure "Fan value must be 0-100")
    else
      s <- get ;;
      if negb (connected s) then ret (Failure "Not connected to device")
      else
        success <- send_fan_speed FromClient value true ;;
        report success
  else if str_is cmd "pump" then
    value <- py_get request "value" JNull ;;
    if negb (int_between 0 3 value) then ret (Failure "Pump mode must be 0-3")
    else
      s <- get ;;
      if negb (connected s) then ret (Failure "Not connected to device")
      else
        success <- send_pump_mode FromClient value true ;;
        report success
  else if str_is cmd "reconnect" then
    s <- get ;;
    if connected s then ret (Report true true (fan_speed s) (pump_mode s))
    else _schedule_reconnect ;; ret Scheduled
  else ret (UnknownCommand cmd).

(** What a client sends up to one newline, by what the daemon makes of
    it: more than the stream's limit of 64 KiB, for which [readline]
    raises [ValueError]; bytes for which [data.decode()] raises; a text
    for which [json.loads] raises [JSONDecodeError]; a text with an
    integer of more than 4300 digits, for which it raises [ValueError];
    a text with brackets nested beyond the recursion limit, for which it
    raises [RecursionError]; or a JSON text. *)
Inductive line : Type :=
| Overlong
| Undecodable
| Unparsable
| HugeNumber
| TooDeep
| Parsed (request : json).

(** [await reader.readline()] *)
Definition readline (l : line) : M line :=
  match l with
  | Overlong => raise ValueError
  | _ => ret l
  end.

(** [json.loads(data.decode())] on what [readline] returned. *)
Definition json_loads (data : line) : M json :=
  match data with
  | Overlong => raise ValueError
  | Undecodable => raise UnicodeDecodeError
  | Unparsable => raise JSONDecodeError
  | HugeNumber => raise ValueError
  | TooDeep => raise RecursionError
  | Parsed request => ret request
  end.

(** One turn of the loop of [handle_client] from [readline] on: the
    inner [try] catches [json.JSONDecodeError] only, and the outer one
    [ConnectionResetError], which nothing here raises. *)
Definition answer (l : line) : M response :=
  fun s =>
    match (data <- readline l ;;
           request <- json_loads data ;;
           process_request request) s with
    | (inl JSONDecodeError, s') => (inr (Failure "Invalid JSON"), s')
    | other => other
    end.

(** How a client connection ended: the peer closed its side (or the
    daemon stopped running), or an exception left the handler; in both
    cases the [finally] closes the writer. *)
Inductive closing : Type :=
| PeerClosed
| Aborted (e : exn).

(** [handle_client] over the lines a client sends before closing: the
    responses written to it, in order, and how the connection ended. *)
Fixpoint handle_client (lines : list line) (s : Daemon) : list response * closing * Daemon :=
  match lines with
  | [] => ([], PeerClosed, s)
  | l :: rest =>
      if negb (running s) then ([], PeerClosed, s)
      else
        match answer l s with
        | (inl e, s') => ([], Aborted e, s')
        | (inr r, s') =>
            let '(rs, c, s'') := handle_client rest s' in
            (r :: rs, c, s'')
        end
  end.

Definition exec {A} (m : M A) (s : Daemon) : Daemon := snd (m s).

(** ** The coroutines cut at their suspensions

    asyncio runs one task at a time and switches at an [await] only.
    The definitions above run a coroutine from its call to its return;
    the ones below stop where it suspends, so that other tasks can run
    in between.  Two suspensions with nothing between them (two sleeps
    in a row, [drain] and the next [readline]) count as one. *)

(** How far [send_command] got before it had to wait: its guard sent it
    back at once, or it called [write_gatt_char] and awaits it; [ok]
    tells what the call will do, return ([true]) or raise ([false]). *)
Inductive sent : Type :=
| Skipped
| Pending (ok : bool).

(** [send_command] up to the [await] of line 94.  The transport decides
    about the frame when it is handed over. *)
Definition hand_over (who : origin) (data : list byte) : M sent :=
  s <- get ;;
  if negb (connected s) || is_none (client s) then ret Skipped
  else
    fun s1 =>
      match write_gatt_char who data s1 with
      | (inr _, s2) => (inr (Pending true), s2)
      | (inl _, s2) => (inr (Pending false), s2)
      end.

(** [send_command] from the [await] on: [return True], or the [except]
    branch. *)
Definition settle (ok : bool) : M bool :=
  if ok then ret true
  else
    modify (set_connected false) ;;
    _schedule_reconnect ;;
    ret false.

(** [send_fan_speed] and [send_pump_mode] on either side of that
    [await]. *)
Definition begin_fan (who : origin) (speed : json) : M sent :=
  cmd <- lift (Codec.fan_frame speed) ;;
  hand_over who cmd.

Definition finish_fan (speed : json) (save ok : bool) : M bool :=
  sent_ok <- settle ok ;;
  if sent_ok then
    modify (set_fan_speed speed) ;;
    (if save then _save_state else ret tt) ;;
    ret true
  else ret false.

Definition begin_pump (who : origin) (mode : json) : M sent :=
  cmd <- lift (Codec.pump_frame mode) ;;
  hand_over who cmd.

Definition finish_pump (mode : json) (save ok : bool) : M bool :=
  sent_ok <- settle ok ;;
  if sent_ok then
    modify (set_pump_mode mode) ;;
    (if save then _save_state else ret tt) ;;
    ret true
  else ret false.

(** Where a suspended [connect_ble] stands.  [todo] lists the frames
    [init_device] has still to send, [speed] and [mode] are the
    arguments of the pending [send_fan_speed] and [send_pump_mode]. *)
Inductive attempt : Type :=
| Scanning (env : ConnEnv)                          (* line 148 *)
| Connecting (env : ConnEnv)                        (* line 167 *)
| Subscribing (env : ConnEnv)                       (* line 169 *)
| ShakeWrite (ok : bool) (todo : list (list byte))  (* line 94 under init_device *)
| ShakeSleep (todo : list (list byte))              (* lines 137, 138, 141, 178 *)
| FanWrite (ok : bool) (speed : json)               (* line 94 under line 179 *)
| FanSleep                                          (* line 180 *)
| PumpWrite (ok : bool) (mode : json).              (* line 94 under line 181 *)

(** The next [send_command] of [init_device], or, the sequence sent,
    line 179 of [connect_ble]. *)
Definition next_send (todo : list (list byte)) : M (attempt + bool) :=
  match todo with
  | cmd :: rest =>
      p <- hand_over Handshake cmd ;;
      match p with
      | Skipped => ret (inl (ShakeSleep rest))
      | Pending ok => ret (inl (ShakeWrite ok rest))
      end
  | [] =>
      s <- get ;;
      p <- begin_fan Resync (fan_speed s) ;;
      match p with
      | Skipped => ret (inl FanSleep)
      | Pending ok => ret (inl (FanWrite ok (fan_speed s)))
      end
  end.

(** Lines 184-187. *)
Definition finish_connect : M (attempt + bool) :=
  _start_keepalive ;; ret (inr true).

(** The [try] body of [connect_ble] from one suspension to the next:
    the point it reaches, or the value it returns. *)
Definition attempt_body (DEVICE_ADDRESS : string) (a : attempt) : M (attempt + bool) :=
  match a with
  | Scanning env =>
      match scan env with
      | None => raise BleakError
      | Some devices =>
          match select_device DEVICE_ADDRESS devices with
          | None => ret (inr false)
          | Some a =>
              if negb (truthy a) then ret (inr false)
              else open_client a ;; ret (inl (Connecting env))
          end
      end
  | Connecting env =>
      transport_call (connect_ok env) ;; ret (inl (Subscribing env))
  | Subscribing env =>
      mark_connected env ;; next_send Codec.init_sequence
  | ShakeWrite ok todo =>
      settle ok ;; ret (inl (ShakeSleep todo))
  | ShakeSleep todo => next_send todo
  | FanWrite ok speed =>
      finish_fan speed false ok ;; ret (inl FanSleep)
  | FanSleep =>
      s <- get ;;
      p <- begin_pump Resync (pump_mode s) ;;
      match p with
      | Skipped => finish_connect
      | Pending ok => ret (inl (PumpWrite ok (pump_mode s)))
      end
  | PumpWrite ok mode =>
      finish_pump mode false ok ;; finish_connect
  end.

(** The same under the [except Exception] of [connect_ble]. *)
Definition attempt_resume (DEVICE_ADDRESS : string) (a : attempt) : M (attempt + bool) :=
  try_except (attempt_body DEVICE_ADDRESS a)
             (fun _ => connect_failed ;; ret (inr false)).

(** A suspended [connect_ble] run to its return with no other task in
    between; [fuel] bounds the suspensions passed. *)
Fixpoint run_attempt (fuel : nat) (DEVICE_ADDRESS : string) (a : attempt) : M bool :=
  match fuel with
  | O => ret false
  | S fuel' =>
      x <- attempt_resume DEVICE_ADDRESS a ;;
      match x with
      | inl a' => run_attempt fuel' DEVICE_ADDRESS a'
      | inr b => ret b
      end
  end.

(** Where a client handler stands between [readline] and its response:
    in the write of a fan or of a pump request. *)
Inductive request_pt : Type :=
| FanPending (ok : bool) (value : json)
| PumpPending (ok : bool) (value : json).

(** [process_request] up to its first suspension: the point reached, or
    the response. *)
Definition begin_process (request : json) : M (request_pt + response) :=
  cmd <- py_get request "cmd" (JStr "") ;;
  if str_is cmd "status" then r <- report true ;; ret (inr r)
  else if str_is cmd "fan" then
    value <- py_get request "value" JNull ;;
    if negb (int_between 0 100 value) then ret (inr (Failure "Fan value must be 0-100"))
    else
      s <- get ;;
      if negb (connected s) then ret (inr (Failure "Not connected to device"))
      else
        p <- begin_fan FromClient value ;;
        match p with
        | Skipped => r <- report false ;; ret (inr r)
        | Pending ok => ret (inl (FanPending ok value))
        end
  else if str_is cmd "pump" then
    value <- py_get request "value" JNull ;;
    if negb (int_between 0 3 value) then ret (inr (Failure "Pump mode must be 0-3"))
    else
      s <- get ;;
      if negb (connected s) then ret (inr (Failure "Not connected to device"))
      else
        p <- begin_pump FromClient value ;;
        match p with
        | Skipped => r <- report false ;; ret (inr r)
        | Pending ok => ret (inl (PumpPending ok value))
        end
  else if str_is cmd "reconnect" then
    s <- get ;;
    if connected s then ret (inr (Report true true (fan_speed s) (pump_mode s)))
    else _schedule_reconnect ;; ret (inr Scheduled)
  else ret (inr (UnknownCommand cmd)).

(** [process_request] from that suspension on. *)
Definition finish_process (p : request_pt) : M response :=
  match p with
  | FanPending ok value => success <- finish_fan value true ok ;; report success
  | PumpPending ok value => success <- finish_pump value true ok ;; report success
  end.

(** One turn of the loop of [handle_client] from [readline] to the first
    suspension. *)
Definition begin_answer (l : line) : M (request_pt + response) :=
  fun s =>
    match (data <- readline l ;;
           request <- json_loads data ;;
           begin_process request) s with
    | (inl JSONDecodeError, s') => (inr (inr (Failure "Invalid JSON")), s')
    | other => other
    end.

(** Where the keepalive task stands: created and not yet run, in its
    [sleep(30)], or in the write of the sync frame. *)
Inductive keepalive_pt : Type :=
| KStarting
| KSleeping
| KWriting (ok : bool).

(** The test of [while self.running and self.connected]; when it fails
    the task is done. *)
Definition keepalive_loop : M (option keepalive_pt) :=
  s <- get ;;
  if running s && connected s then ret (Some KSleeping)
  else modify (set_keepalive_task false) ;; ret None.

Definition keepalive_resume (k : keepalive_pt) : M (option keepalive_pt) :=
  match k with
  | KStarting => keepalive_loop
  | KSleeping =>
      s <- get ;;
      if connected s then
        p <- hand_over Keepalive Codec.sync_frame ;;
        match p with
        | Skipped => keepalive_loop
        | Pending ok => ret (Some (KWriting ok))
        end
      else keepalive_loop
  | KWriting ok => settle ok ;; keepalive_loop
  end.

(** Where the reconnect task stands: created and not yet run, in its
    [sleep(self.reconnect_delay)], or inside [connect_ble]. *)
Inductive reconnect_pt : Type :=
| RStarting
| RSleeping
| RAttempt (a : attempt).

(** The test of [while self.running and not self.connected]; when it
    fails the task is done. *)
Definition reconnect_loop : M (option reconnect_pt) :=
  s <- get ;;
  if running s && negb (connected s) then ret (Some RSleeping)
  else modify (set_reconnect_task false) ;; ret None.

(** [env]: what the transport does in the attempt that starts when the
    sleep ends. *)
Definition reconnect_resume (DEVICE_ADDRESS : string) (env : ConnEnv) (r : reconnect_pt)
  : M (option reconnect_pt) :=
  match r with
  | RStarting => reconnect_loop
  | RSleeping => ret (Some (RAttempt (Scanning env)))
  | RAttempt a =>
      x <- attempt_resume DEVICE_ADDRESS a ;;
      match x with
      | inl a' => ret (Some (RAttempt a'))
      | inr true => modify (set_reconnect_task false) ;; ret None
      | inr false =>
          modify (fun s =>
                    set_reconnect_delay
                      (Z.min (reconnect_delay s * 2) RECONNECT_MAX_DELAY) s) ;;
          reconnect_loop
      end
  end.

(** Lines 332-333 of [run]: the attempt it awaits, then
    [_schedule_reconnect] if it returned False. *)
Definition startup_resume (DEVICE_ADDRESS : string) (a : attempt) : M (option attempt) :=
  x <- attempt_resume DEVICE_ADDRESS a ;;
  match x with
  | inl a' => ret (Some a')
  | inr true => ret None
  | inr false => _schedule_reconnect ;; ret None
  end.

(** ** The daemon as a transition system

    The state of the daemon while it serves, from the moment [run] has
    suspended in its first [connect_ble] until [shutdown]: the object,
    and the tasks with the point each stands at.  The reconnect and the
    keepalive task exist while their flag is set; a task that is created
    starts from its first line, and a keepalive task that is cancelled
    is gone with its flag.  Any number of clients may be connected; a
    handler counts only while it waits inside a request. *)

Record System : Type := mkSystem {
  daemon : Daemon;
  startup : option attempt;
  reconnecting : reconnect_pt;
  keepalive : keepalive_pt;
  requests : list request_pt
}.

Inductive event : Type :=
| StartupStep                     (* the connect_ble of run() resumes *)
| ReconnectStep (env : ConnEnv)   (* the reconnect task resumes *)
| KeepaliveStep                   (* the keepalive task resumes *)
| Request (l : line)              (* a handler's readline returns *)
| RequestStep (i : nat)           (* the i-th waiting handler resumes *)
| Disconnected.                   (* disconnected_callback *)

(** A task whose flag is down starts over when it is created again. *)
Definition tidy (sys : System) : System :=
  mkSystem (daemon sys) (startup sys)
           (if reconnect_task (daemon sys) then reconnecting sys else RStarting)
           (if keepalive_task (daemon sys) then keepalive sys else KStarting)
           (requests sys).

Fixpoint remove_nth {A} (i : nat) (l : list A) : list A :=
  match l, i with
  | [], _ => []
  | _ :: rest, O => rest
  | x :: rest, S j => x :: remove_nth j rest
  end.

Definition step (DEVICE_ADDRESS : string) (ev : event) (sys : System) : option System :=
  let d := daemon sys in
  match ev with
  | StartupStep =>
      match startup sys with
      | None => None
      | Some a =>
          match startup_resume DEVICE_ADDRESS a d with
          | (inr a', d') =>
              Some (tidy (mkSystem d' a' (reconnecting sys) (keepalive sys) (requests sys)))
          | (inl _, _) => None
          end
      end
  | ReconnectStep env =>
      if reconnect_task d then
        match reconnect_resume DEVICE_ADDRESS env (reconnecting sys) d with
        | (inr (Some r), d') =>
            Some (tidy (mkSystem d' (startup sys) r (keepalive sys) (requests sys)))
        | (inr None, d') =>
            Some (tidy (mkSystem d' (startup sys) RStarting (keepalive sys) (requests sys)))
        | (inl _, _) => None
        end
      else None
  | KeepaliveStep =>
      if keepalive_task d then
        match keepalive_resume (keepalive sys) d with
        | (inr (Some k), d') =>
            Some (tidy (mkSystem d' (startup sys) (reconnecting sys) k (requests sys)))
        | (inr None, d') =>
            Some (tidy (mkSystem d' (startup sys) (reconnecting sys) KStarting (requests sys)))
        | (inl _, _) => None
        end
      else None
  | Request l =>
      match begin_answer l d with
      | (inr (inl p), d') =>
          Some (tidy (mkSystem d' (startup sys) (reconnecting sys) (keepalive sys)
                               (requests sys ++ [p])))
      | (_, d') =>
          Some (tidy (mkSystem d' (startup sys) (reconnecting sys) (keepalive sys)
                               (requests sys)))
      end
  | RequestStep i =>
      match nth_error (requests sys) i with
      | None => None
      | Some p =>
          Some (tidy (mkSystem (exec (finish_process p) d) (startup sys)
                               (reconnecting sys) (keepalive sys)
                               (remove_nth i (requests sys))))
      end
  | Disconnected =>
      Some (tidy (mkSystem (exec _on_disconnect d) (startup sys)
                           (reconnecting sys) (keepalive sys) (requests sys)))
  end.

Fixpoint run_events (DEVICE_ADDRESS : string) (evs : list event) (sys : System) : option System :=
  match evs with
  | [] => Some sys
  | ev :: rest =>
      match step DEVICE_ADDRESS ev sys with
      | Some sys' => run_events DEVICE_ADDRESS rest sys'
      | None => None
      end
  end.

(** [run] in its first suspension: the socket listens, [connect_ble]
    waits for the scan, no other task exists. *)
Definition boot (s0 : Daemon) (env : ConnEnv) : System :=
  mkSystem s0 (Some (Scanning env)) RStarting KStarting [].

(** The states the daemon can be in after starting as [s0], and after
    starting in front of any state file. *)
Definition reachable_from (s0 : Daemon) (DEVICE_ADDRESS : string) (sys : System) : Prop :=
  exists env evs, run_events DEVICE_ADDRESS evs (boot s0 env) = Some sys.

Definition reachable (DEVICE_ADDRESS : string) (sys : System) : Prop :=
  exists f writes saves, reachable_from (LPPDaemon f writes saves) DEVICE_ADDRESS sys.

(** The [connect_ble] in flight, if one is. *)
Definition in_flight (sys : System) : list attempt :=
  match startup sys with
  | Some a => [a]
  | None => []
  end
  ++ match reconnecting sys with
     | RAttempt a => if reconnect_task (daemon sys) then [a] else []
     | _ => []
     end.

(** The step keeps the calls of [connect_ble] apart: the reconnect task
    leaves its sleep, and so enters [connect_ble], only when the attempt
    of [run] has returned and the daemon is not marked connected. *)
Definition apart (ev : event) (sys : System) : bool :=
  match ev, reconnecting sys with
  | ReconnectStep _, RSleeping =>
      is_none (startup sys) && negb (connected (daemon sys))
  | _, _ => true
  end.

Fixpoint run_apart (DEVICE_ADDRESS : string) (evs : list event) (sys : System) : option System :=
  match evs with
  | [] => Some sys
  | ev :: rest =>
      if apart ev sys then
        match step DEVICE_ADDRESS ev sys with
        | Some sys' => run_apart DEVICE_ADDRESS rest sys'
        | None => None
        end
      else None
  end.

(** The states the daemon can reach while its calls of [connect_ble] do
    not overlap. *)
Definition reachable_apart (DEVICE_ADDRESS : string) (sys : System) : Prop :=
  exists f writes saves env evs,
    run_apart DEVICE_ADDRESS evs (boot (LPPDaemon f writes saves) env) = Some sys.

(** ** Start-up *)


(** ** Notions used in the statements *)

(** The next call governed by a script succeeds. *)
Definition next_ok (script : list bool) : bool :=
  match script with
  | false :: _ => false
  | _ => true
  end.

(** The next state-file write completes. *)
Definition next_saved (script : list save_outcome) : bool :=
  match script with
  | [] | Saved :: _ => true
  | _ => false
  end.

(** The request is a JSON object. *)
Definition is_object (j : json) : bool :=
  match j with
  | JDict _ => true
  | _ => false
  end.

(** [cmd] is one of the four commands [process_request] knows. *)
Definition known_command (cmd : json) : bool :=
  str_is cmd "status" || str_is cmd "fan" || str_is cmd "pump" || str_is cmd "reconnect".

(** A line that asks for a fan or pump change. *)
Definition mutating (l : line) : bool :=
  match l with
  | Parsed (JDict kv) =>
      str_is (dict_get kv "cmd" (JStr "")) "fan"
      || str_is (dict_get kv "cmd" (JStr "")) "pump"
  | _ => false
  end.

(** Every run of [m] takes a state to one related by [R]. *)
Definition effect (R : Daemon -> Daemon -> Prop) {A} (m : M A) : Prop :=
  forall s, R s (snd (m s)).

(** Nothing of the state store moved between [s] and [s']: the settings
    in memory, the state file, and the number of writes tried on it. *)
Definition same_store (s s' : Daemon) : Prop :=
  fan_speed s' = fan_speed s /\
  pump_mode s' = pump_mode s /\
  disk s' = disk s /\
  save_script s' = save_script s.

(** Both stored settings pass the guard of [process_request]. *)
Definition settings_ok (s : Daemon) : Prop :=
  in_range 0 100 (fan_speed s) /\ in_range 0 3 (pump_mode s).

(** What [_load_state] can read from the file passes that guard. *)
Definition file_ok (f : file) : Prop :=
  match f with
  | Stored (JDict kv) =>
      in_range 0 100 (dict_get kv "fan" (JInt 60)) /\
      in_range 0 3 (dict_get kv "pump" (JInt 0))
  | _ => True
  end.



(** The frames of one complete connection as the link sees them: the
    initialization sequence, then the fan and the pump frame. *)
Definition tagged (who : origin) (frames : list (list byte)) : list (origin * list byte) :=
  map (fun frame => (who, frame)) frames.

Definition session_frames (ff pf : list byte) : list (origin * list byte) :=
  tagged Handshake Codec.init_sequence ++ [(Resync, ff); (Resync, pf)].

(** The frames on a link that [connect_ble] itself sent. *)
Definition own (entry : origin * list byte) : bool :=
  match fst entry with
  | Handshake | Resync => true
  | FromClient | Keepalive => false
  end.

Definition is_handshake (entry : origin * list byte) : bool :=
  match fst entry with
  | Handshake => true
  | _ => false
  end.

Definition handshake_payloads (l : list (origin * list byte)) : list (list byte) :=
  map snd (filter is_handshake l).

(** The ordering the specification asks for: wherever a client frame
    stands in the log of a link, the whole initialization sequence
    stands in front of it. *)
Definition client_waits_for_handshake (l : list (origin * list byte)) : Prop :=
  forall l1 frame l2,
    l = l1 ++ (FromClient, frame) :: l2 ->
    handshake_payloads l1 = Codec.init_sequence.

(** What [connect_ble] itself has written on the current link is a
    leading part of the frames of a session, for the frames of some fan
    and some pump value. *)
Definition own_prefix (d : Daemon) : Prop :=
  exists speed mode ff pf k,
    Codec.fan_frame speed = inr ff /\
    Codec.pump_frame mode = inr pf /\
    filter own (link d) = firstn k (session_frames ff pf).

(** It has written all of them. *)
Definition own_whole (d : Daemon) : Prop :=
  exists speed mode ff pf,
    Codec.fan_frame speed = inr ff /\
    Codec.pump_frame mode = inr pf /\
    filter own (link d) = session_frames ff pf.

(** What a [connect_ble] suspended at [a] has written on the link, point
    by point.  Before [self.connected = True] the daemon is not marked
    connected, and once the client is replaced the log of the new link
    is empty.  From then on, and for as long as the daemon stays marked
    connected: in the write of a handshake frame, the frames before it,
    and the frame itself if the transport took it; in a sleep of
    [init_device], the frames sent so far; in the write of the fan
    frame, the whole sequence, and the frame of [speed] if the transport
    took it; and so on for the pump frame. *)
Definition attempt_ok (a : attempt) (d : Daemon) : Prop :=
  match a with
  | Scanning _ => connected d = false
  | Connecting _ | Subscribing _ => connected d = false /\ link d = []
  | ShakeWrite ok todo =>
      exists done cmd,
        Codec.init_sequence = done ++ cmd :: todo /\
        (connected d = true ->
         filter own (link d) = tagged Handshake (if ok then done ++ [cmd] else done))
  | ShakeSleep todo =>
      exists done,
        Codec.init_sequence = done ++ todo /\
        (connected d = true -> filter own (link d) = tagged Handshake done)
  | FanWrite ok speed =>
      connected d = true ->
      exists ff,
        Codec.fan_frame speed = inr ff /\
        filter own (link d)
        = tagged Handshake Codec.init_sequence ++ (if ok then [(Resync, ff)] else [])
  | FanSleep =>
      connected d = true ->
      exists speed ff,
        Codec.fan_frame speed = inr ff /\
        filter own (link d) = tagged Handshake Codec.init_sequence ++ [(Resync, ff)]
  | PumpWrite ok mode =>
      connected d = true ->
      exists speed ff pf,
        Codec.fan_frame speed = inr ff /\
        Codec.pump_frame mode = inr pf /\
        filter own (link d)
        = tagged Handshake Codec.init_sequence
          ++ (Resync, ff) :: (if ok then [(Resync, pf)] else [])
  end.

(** What a task other than [connect_ble] may do to the link: it never
    marks the daemon connected, never replaces the client, and adds
    frames of its own only, and none while the daemon is not marked
    connected. *)
Definition bystander (s s' : Daemon) : Prop :=
  client s' = client s /\
  (connected s' = true -> connected s = true) /\
  exists extra,
    link s' = link s ++ extra /\
    filter own extra = [] /\
    (connected s = false -> extra = []).

(** The value a suspended [send_fan_speed] or [send_pump_mode] will
    store when it resumes passes the guard of [process_request]. *)
Definition attempt_values_ok (a : attempt) : Prop :=
  match a with
  | FanWrite _ speed => in_range 0 100 speed
  | PumpWrite _ mode => in_range 0 3 mode
  | _ => True
  end.

Definition request_values_ok (p : request_pt) : Prop :=
  match p with
  | FanPending _ value => in_range 0 100 value
  | PumpPending _ value => in_range 0 3 value
  end.

(** What the daemon keeps about its settings from step to step: the
    stored ones pass the guard, and so does every value a suspended
    task is about to store. *)
Definition settings_inv (sys : System) : Prop :=
  settings_ok (daemon sys) /\
  match startup sys with
  | Some a => attempt_values_ok a
  | None => True
  end /\
  match reconnecting sys with
  | RAttempt a => attempt_values_ok a
  | _ => True
  end /\
  Forall request_values_ok (requests sys).

(** [connect_ble] has passed line 166, [self.client = BleakClient(...)]. *)
Definition opened (a : attempt) : bool :=
  match a with
  | Scanning _ => false
  | _ => true
  end.

Definition has_client (d : Daemon) : Prop := client d <> None.

(** What the daemon keeps about its client: there is one whenever the
    daemon is marked connected and whenever a [connect_ble] in flight
    has passed line 166. *)
Definition client_inv (sys : System) : Prop :=
  (connected (daemon sys) = true -> has_client (daemon sys)) /\
  (forall a, startup sys = Some a -> opened a = true -> has_client (daemon sys)) /\
  (forall a, reconnecting sys = RAttempt a -> opened a = true -> has_client (daemon sys)).

(** What every step of a task keeps: a client once set stays set, and
    the daemon is marked connected only with a client. *)
Definition keeps_client (d d' : Daemon) : Prop :=
  (has_client d -> has_client d') /\
  ((connected d = true -> has_client d) -> connected d' = true -> has_client d').

(** What the daemon keeps while its calls of [connect_ble] do not
    overlap: at most one is in flight, the link is as far as that one
    has come, and with none in flight a daemon marked connected has the
    frames of a whole session on its link. *)
Definition apart_inv (sys : System) : Prop :=
  client_inv sys /\
  own_prefix (daemon sys) /\
  (forall a, reconnecting sys = RAttempt a -> reconnect_task (daemon sys) = true) /\
  match startup sys, reconnecting sys with
  | Some _, RAttempt _ => False
  | Some a, _ => attempt_ok a (daemon sys)
  | None, RAttempt a => attempt_ok a (daemon sys)
  | None, _ => connected (daemon sys) = true -> own_whole (daemon sys)
  end.

(** The exception that ends the handler at a line it does not answer. *)
Definition abort_reason (l : line) : exn :=
  match l with
  | Overlong | HugeNumber => ValueError
  | Undecodable => UnicodeDecodeError
  | TooDeep => RecursionError
  | _ => AttributeError
  end.

(** A line the daemon answers: a text within the limits of [readline]
    and [json.loads] that does not parse, or a JSON object. *)
Definition answerable (l : line) : bool :=
  match l with
  | Unparsable => true
  | Parsed (JDict _) => true
  | _ => false
  end.

(** Every scripted call succeeds. *)
Definition all_ok (script : list bool) : bool := forallb (fun b => b) script.

(** The test the selection loop applies to one scanned device. *)
Definition candidate (DEVICE_ADDRESS : string) (d : Device) : bool :=
  (truthy DEVICE_ADDRESS && String.eqb (lower DEVICE_ADDRESS) (lower (address d)))
  || match name d with
     | Some n => truthy n && contains (lower DEVICE_NAME) (lower n)
     | None => false
     end.


(** ** Sample inputs *)

(** A freshly started daemon with no state file. *)
Definition idle : Daemon := LPPDaemon Missing [] [].

(** A scan that finds the cooler, with a transport that works. *)
Definition cooler_found : ConnEnv :=
  mkConnEnv (Some [mkDevice "11:22:33:44:55:66" (Some "LPP CoolingSystem")]) true true.

(** A scan that finds nothing. *)
Definition nothing_found : ConnEnv := mkConnEnv (Some []) true true.

(** Two coolers in range; the second one has the configured address. *)
Definition two_coolers : list Device :=
  [ mkDevice "11:22:33:44:55:66" (Some "CoolingSystem");
    mkDevice "AA:BB:CC:DD:EE:FF" (Some "CoolingSystem") ].

(** A state file holding a fan value no frame can carry. *)
Definition overdriven : file := Stored (JDict [("fan", JInt 500); ("pump", JInt 0)]).

(** A daemon that has connected to the cooler and whose state file
    cannot be opened for writing the next time. *)
Definition linked_readonly : Daemon :=
  exec (connect_ble "" cooler_found) (LPPDaemon Missing [] [OpenFails]).

(** The same in front of a state file, saved earlier, on a disk that is
    full: the next write raises after the file was opened. *)
Definition linked_diskfull : Daemon :=
  exec (connect_ble "" cooler_found)
       (LPPDaemon (Stored (JDict [("fan", JInt 80); ("pump", JInt 2)])) [] [WriteFails]).

(** A daemon connected to the cooler, every write to come succeeding. *)
Definition linked : Daemon := exec (connect_ble "" cooler_found) idle.

(** A daemon connected to the cooler whose next link write raises. *)
Definition linked_flaky : Daemon :=
  exec (connect_ble "" cooler_found) (LPPDaemon Missing (repeat true 11 ++ [false]) []).

(** A connected daemon after [shutdown] has cleared [running]. *)
Definition stopped : Daemon :=
  mkDaemon (client linked) (connected linked) false (reconnect_delay linked)
           false false (fan_speed linked) (pump_mode linked) (link linked)
           (disk linked) [] [].

(** A daemon in front of a cooler whose second link write raises. *)
Definition flaky_start : Daemon := LPPDaemon Missing [true; false] [].

(** The requests of the bundled client. *)
Definition fan_request (value : json) : json :=
  JDict [("cmd", JStr "fan"); ("value", value)].

Definition pump_request (value : json) : json :=
  JDict [("cmd", JStr "pump"); ("value", value)].

Definition status_request : json := JDict [("cmd", JStr "status")].

Definition reconnect_request : json := JDict [("cmd", JStr "reconnect")].

(** The daemon after [evs], started with no state file in front of the
    cooler. *)
Definition after (evs : list event) : System :=
  match run_events "" evs (boot idle cooler_found) with
  | Some sys => sys
  | None => boot idle cooler_found
  end.

(** The scan, the connect and the subscription return and the first
    frame of the handshake is handed to the link; then a client asks
    for fan 50. *)
Definition early_fan_request : list event :=
  [ StartupStep; StartupStep; StartupStep;
    Request (Parsed (fan_request (JInt 50))) ].

(** A client asks for a reconnect while [run] still scans; the reconnect
    task sleeps and enters [connect_ble] as well.  The attempt of [run]
    marks the daemon connected, the attempt of the task then replaces
    the client, and a client asks for fan 50. *)
Definition overlapping_attempts : list event :=
  [ Request (Parsed reconnect_request);
    ReconnectStep cooler_found; ReconnectStep cooler_found;
    StartupStep; StartupStep; StartupStep;
    ReconnectStep cooler_found;
    Request (Parsed (fan_request (JInt 50))) ].

(** ** The client library ([src/lpp_client.py]) *)

Module Client.

(** [self.sock]: a connected socket ([true]) or [None]. *)
Record LPPClient : Type := mkClient {
  sock : bool
}.

(** What the socket does during one exchange: it carries request and
    response, or [sendall] raises, or [recv] raises (a timeout, say)
    after the daemon has read the request; [msg] is [str(e)]. *)
Inductive wire : Type :=
| Works
| SendFails (msg : string)
| RecvFails (msg : string).

(** The dict a method returns: the daemon's response, decoded, or the
    [{"ok": False, "error": ...}] the client builds itself. *)
Inductive result : Type :=
| Answer (r : response)
| Refused (error : string).

(** [result.get("ok", False)] *)
Definition ok_of (res : result) : bool :=
  match res with
  | Answer r => ok_field r
  | Refused _ => false
  end.

(** [connect]; [listening]: the daemon's socket accepts. *)
Definition connect (listening : bool) (c : LPPClient) : bool * LPPClient :=
  if sock c then (true, c)
  else if listening then (true, mkClient true)
  else (false, mkClient false).

(** [disconnect] *)
Definition disconnect (c : LPPClient) : LPPClient := mkClient false.

(** [_send_request] against the daemon's handler of this connection.
    The request travels as one JSON line; a handler that ends without
    writing makes [recv] return nothing, which the client raises as
    [ConnectionError("Daemon closed connection")]. *)
Definition _send_request (request : json) (w : wire) (c : LPPClient) (d : Daemon)
  : result * LPPClient * Daemon :=
  if negb (sock c) then (Refused "Not connected to daemon", c, d)
  else
    match w with
    | SendFails msg => (Refused msg, disconnect c, d)
    | RecvFails msg =>
        let '(_, _, d') := handle_client [Parsed request] d in
        (Refused msg, disconnect c, d')
    | Works =>
        match handle_client [Parsed request] d with
        | (r :: _, _, d') => (Answer r, c, d')
        | ([], _, d') => (Refused "Daemon closed connection", disconnect c, d')
        end
    end.

Definition get_status := _send_request (JDict [("cmd", JStr "status")]).

Definition set_fan (speed : json) :=
  _send_request (JDict [("cmd", JStr "fan"); ("value", speed)]).

Definition set_pump (mode : json) :=
  _send_request (JDict [("cmd", JStr "pump"); ("value", mode)]).


(** [daemon_running]: a fresh client, entered and left by [with]. *)
Definition daemon_running (listening : bool) (w : wire) (d : Daemon) : bool * Daemon :=
  let '(_, c) := connect listening (mkClient false) in
  if negb (sock c) then (false, d)
  else
    let '(res, _, d') := get_status w c d in
    (ok_of res, d').

End Client.

(** ** The keyboard actions of the control panel ([src/lpp_tui.py]) *)

Module TUI.

(** [action_fan_up] / [action_fan_down]: the new slider value. *)
Definition action_fan_up (value : Z) : Z := Z.min 100 (value + 5).

Definition action_fan_down (value : Z) : Z := Z.max 0 (value - 5).

(** [on_fan_slider_changed]: [speed = int(event.value)], sent when the
    panel believes the daemon is there; [None]: nothing was sent. *)
Definition on_fan_slider_changed
           (value : Z) (daemon_connected : bool)
           (w : Client.wire) (c : Client.LPPClient) (d : Daemon)
  : option Client.result * Client.LPPClient * Daemon :=
  if daemon_connected then
    let '(res, c', d') := Client.set_fan (JInt value) w c d in
    (Some res, c', d')
  else (None, c, d).

(** [_set_pump], the body shared by the four pump buttons and keys. *)
Definition _set_pump
           (mode : Z) (daemon_connected : bool)
           (w : Client.wire) (c : Client.LPPClient) (d : Daemon)
  : option Client.result * Client.LPPClient * Daemon :=
  if daemon_connected then
    let '(res, c', d') := Client.set_pump (JInt mode) w c d in
    (Some res, c', d')
  else (None, c, d).

Definition on_pump_high := _set_pump 0.
Definition on_pump_max := _set_pump 1.
Definition on_pump_low := _set_pump 2.
Definition on_pump_med := _set_pump 3.

(** The handlers behind the pump buttons and keys. *)
Definition pump_handlers := [on_pump_high; on_pump_max; on_pump_low; on_pump_med].

End TUI.

(** * Properties *)

(** ** Codec *)

Lemma byte_of_int (z : Z) :
  0 <= z < 256 ->
  exists b, Codec.byte_of (JInt z) = inr b /\ Byte.to_N b = Z.to_N z.
Proof.
  intros H. unfold Codec.byte_of. cbn [as_int].
  replace ((0 <=? z) && (z <? 256)) with true.
  - destruct (Byte.of_N (Z.to_N z)) as [b|] eqn:E.
    + exists b. split; [reflexivity | now apply Byte.to_of_N].
    + apply Byte.of_N_None_iff in E. lia.
  - symmetry. apply andb_true_iff. split; [apply Z.leb_le | apply Z.ltb_lt]; lia.
Qed.

(** C8. For a speed in [0,100] the fan frame is the eight bytes
    fe 1b 01 speed 00 00 00 ef, and for a mode in 0..3 the pump frame is
    fe 1c 01 3c mode 00 00 ef: header, opcode, the value at a fixed
    offset, trailer. *)
Theorem frames_encoded (speed mode : Z) :
  0 <= speed <= 100 ->
  0 <= mode <= 3 ->
  exists bs bm,
    Byte.to_N bs = Z.to_N speed /\
    Byte.to_N bm = Z.to_N mode /\
    Codec.fan_frame (JInt speed) = inr [xfe; x1b; x01; bs; x00; x00; x00; xef] /\
    Codec.pump_frame (JInt mode) = inr [xfe; x1c; x01; x3c; bm; x00; x00; xef].
Proof.
  intros Hs Hm.
  destruct (byte_of_int speed) as (bs & Es & Ns); [lia|].
  destruct (byte_of_int mode) as (bm & Em & Nm); [lia|].
  exists bs, bm. repeat split; trivial.
  - unfold Codec.fan_frame. cbn [Codec.py_bytes]. rewrite Es. reflexivity.
  - unfold Codec.pump_frame. cbn [Codec.py_bytes]. rewrite Em. reflexivity.
Qed.

Lemma frames_encoded_witness :
  exists bs bm,
    Byte.to_N bs = Z.to_N 60 /\
    Byte.to_N bm = Z.to_N 3 /\
    Codec.fan_frame (JInt 60) = inr [xfe; x1b; x01; bs; x00; x00; x00; xef] /\
    Codec.pump_frame (JInt 3) = inr [xfe; x1c; x01; x3c; bm; x00; x00; xef].
Proof. apply (frames_encoded 60 3); lia. Defined.

(** ** Request validation *)

Lemma int_between_spec (lo hi : Z) (v : json) :
  int_between lo hi v = true <-> in_range lo hi v.
Proof.
  unfold int_between, in_range. destruct (as_int v) as [z|].
  - rewrite andb_true_iff, !Z.leb_le. split.
    + intros H. exists z. auto.
    + intros (z' & E & H). injection E as ->. exact H.
  - split; [discriminate | intros (z & E & _); discriminate].
Qed.

Lemma int_between_false (lo hi : Z) (v : json) :
  ~ in_range lo hi v -> int_between lo hi v = false.
Proof.
  intros H. destruct (int_between lo hi v) eqn:E; [|reflexivity].
  apply int_between_spec in E. contradiction.
Qed.

Ltac run_request :=
  unfold process_request, py_get, report, bind, ret, get; cbn.

(** What Python counts as an integer in a range is a JSON integer in
    the range, or a JSON boolean whose value as a number is. *)
Lemma in_range_whole (lo hi : Z) (v : json) :
  in_range lo hi v <->
  whole_in lo hi v \/ (exists b, v = JBool b /\ lo <= (if b then 1 else 0) <= hi).
Proof.
  unfold in_range, whole_in. split.
  - intros (z & E & H). destruct v as [|[|]|z'| | | |]; try discriminate;
      injection E as <-; [right; exists true | right; exists false | left; exists z'];
      split; trivial.
  - intros [(z & -> & H) | (b & -> & H)]; [exists z | exists (if b then 1 else 0)];
      split; trivial. destruct b; reflexivity.
Qed.

(** What the guard of [process_request] rejects.  A fan request whose
    value is not what Python counts as an integer in [0,100], and a pump
    request whose value is not one in 0..3, is answered with ok=false
    and an error string, and the daemon -- connection flag, stored
    settings, link log, state file -- is exactly as before, whether
    connected or not. *)
Lemma out_of_range_rejected (kv : list (string * json)) (s : Daemon) :
  (dict_get kv "cmd" (JStr "") = JStr "fan" /\
   ~ in_range 0 100 (dict_get kv "value" JNull))
  \/ (dict_get kv "cmd" (JStr "") = JStr "pump" /\
      ~ in_range 0 3 (dict_get kv "value" JNull)) ->
  exists r, process_request (JDict kv) s = (inr r, s) /\
            ok_field r = false /\
            (r = Failure "Fan value must be 0-100" \/ r = Failure "Pump mode must be 0-3").
Proof.
  intros [[Hcmd Hval] | [Hcmd Hval]]; apply int_between_false in Hval.
  - exists (Failure "Fan value must be 0-100"). repeat split; [|now left].
    run_request. rewrite Hcmd. cbn. rewrite Hval. reflexivity.
  - exists (Failure "Pump mode must be 0-3"). repeat split; [|now right].
    run_request. rewrite Hcmd. cbn. rewrite Hval. reflexivity.
Qed.

(** C3 (as stated) fails for the JSON booleans.  [true] and [false] are
    no integers of [0,100] or of 0..3, yet [isinstance(value, int)]
    accepts them: on a connected daemon a fan or pump request with such
    a value is answered ok=true, a frame carrying 1 or 0 is written to
    the link, and the boolean itself becomes the stored setting, in
    memory and in the state file. *)
Theorem boolean_value_accepted (b : bool) (s : Daemon) :
  connected s = true ->
  client s <> None ->
  next_ok (write_script s) = true ->
  next_saved (save_script s) = true ->
  ~ whole_in 0 100 (JBool b) /\ ~ whole_in 0 3 (JBool b) /\
  (exists s',
     process_request (fan_request (JBool b)) s
     = (inr (Report true true (JBool b) (pump_mode s)), s') /\
     link s' = link s ++ [(FromClient, [xfe; x1b; x01; if b then x01 else x00;
                                        x00; x00; x00; xef])] /\
     fan_speed s' = JBool b /\
     disk s' = Stored (JDict [("fan", JBool b); ("pump", pump_mode s)])) /\
  (exists s',
     process_request (pump_request (JBool b)) s
     = (inr (Report true true (fan_speed s) (JBool b)), s') /\
     link s' = link s ++ [(FromClient, [xfe; x1c; x01; x3c; if b then x01 else x00;
                                        x00; x00; xef])] /\
     pump_mode s' = JBool b /\
     disk s' = Stored (JDict [("fan", fan_speed s); ("pump", JBool b)])).
Proof.
  intros Hc Hcl Hw Hs.
  split; [intros (z & E & _); discriminate|].
  split; [intros (z & E & _); discriminate|].
  destruct s as [cl co ru rd rt kt fs pm lk dk ws ss]. cbn in Hc, Hcl, Hw, Hs. subst co.
  destruct cl as [a|]; [|congruence].
  split.
  - destruct ss as [|[| |] ss]; try discriminate;
      destruct ws as [|[|] ws]; try discriminate;
      destruct b; eexists; (split; [reflexivity|]); cbn; repeat split.
  - destruct ss as [|[| |] ss]; try discriminate;
      destruct ws as [|[|] ws]; try discriminate;
      destruct b; eexists; (split; [reflexivity|]); cbn; repeat split.
Qed.

Lemma boolean_value_accepted_witness :
  exists s',
    process_request (pump_request (JBool true)) linked
    = (inr (Report true true (JInt 60) (JBool true)), s') /\
    pump_mode s' = JBool true /\
    disk s' = Stored (JDict [("fan", JInt 60); ("pump", JBool true)]).
Proof.
  destruct (boolean_value_accepted true linked) as (_ & _ & _ & s' & E & _ & Hp & Hd).
  - vm_compute. reflexivity.
  - vm_compute. discriminate.
  - vm_compute. reflexivity.
  - vm_compute. reflexivity.
  - exists s'. split; [exact E|]. split; [exact Hp | exact Hd].
Defined.

(** C4. A fan or pump request with an in-range value, received while the
    daemon is not connected, is answered with ok=false and "Not
    connected to device"; nothing is written to the link and the stored
    settings, in memory and on disk, stay as they were. *)
Theorem not_connected_rejected (kv : list (string * json)) (s : Daemon) :
  connected s = false ->
  (dict_get kv "cmd" (JStr "") = JStr "fan" /\ in_range 0 100 (dict_get kv "value" JNull))
  \/ (dict_get kv "cmd" (JStr "") = JStr "pump" /\ in_range 0 3 (dict_get kv "value" JNull)) ->
  exists r, process_request (JDict kv) s = (inr r, s) /\
            r = Failure "Not connected to device" /\ ok_field r = false.
Proof.
  intros Hc [[Hcmd Hval] | [Hcmd Hval]]; apply int_between_spec in Hval;
    eexists; (split; [|split; reflexivity]);
    run_request; rewrite Hcmd; cbn; rewrite Hval; cbn; rewrite Hc; reflexivity.
Qed.

Lemma not_connected_rejected_witness :
  exists r, process_request (JDict [("cmd", JStr "pump"); ("value", JInt 2)]) idle
            = (inr r, idle) /\
            r = Failure "Not connected to device" /\ ok_field r = false.
Proof.
  apply (not_connected_rejected [("cmd", JStr "pump"); ("value", JInt 2)] idle).
  - reflexivity.
  - right. split; [reflexivity|]. exists 2. split; [reflexivity | lia].
Defined.

(** ** Storage failures *)

Lemma byte_of_in_range (v : json) :
  in_range 0 255 v -> exists b, Codec.byte_of v = inr b.
Proof.
  intros (z & E & H). unfold Codec.byte_of. rewrite E.
  replace ((0 <=? z) && (z <? 256)) with true.
  - destruct (Byte.of_N (Z.to_N z)) as [b|] eqn:Eb; [now exists b|].
    apply Byte.of_N_None_iff in Eb. lia.
  - symmetry. apply andb_true_iff. split; [apply Z.leb_le | apply Z.ltb_lt]; lia.
Qed.

Lemma in_range_weaken (lo hi lo' hi' : Z) (v : json) :
  lo' <= lo -> hi <= hi' -> in_range lo hi v -> in_range lo' hi' v.
Proof. intros Hl Hh (z & E & H). exists z. split; [exact E | lia]. Qed.

Lemma fan_frame_in_range (v : json) :
  in_range 0 255 v -> exists frame, Codec.fan_frame v = inr frame.
Proof.
  intros H. destruct (byte_of_in_range v H) as (b & E).
  unfold Codec.fan_frame. cbn [Codec.py_bytes]. rewrite E. eexists. reflexivity.
Qed.

Lemma pump_frame_in_range (v : json) :
  in_range 0 255 v -> exists frame, Codec.pump_frame v = inr frame.
Proof.
  intros H. destruct (byte_of_in_range v H) as (b & E).
  unfold Codec.pump_frame. cbn [Codec.py_bytes]. rewrite E. eexists. reflexivity.
Qed.

(** C9. When the frame of a fan or pump request is written to the device
    and the state-file write that follows fails, the setting in memory
    is the requested one and the response reports ok=true.  The file is
    left as it was when [mkdir] or [open] raised, and left truncated,
    so that the next start cannot read it, when the write raised after
    [open]. *)
Theorem storage_failure_not_surfaced (kv : list (string * json)) (s : Daemon) :
  connected s = true ->
  client s <> None ->
  next_ok (write_script s) = true ->
  next_saved (save_script s) = false ->
  (dict_get kv "cmd" (JStr "") = JStr "fan" /\ in_range 0 100 (dict_get kv "value" JNull))
  \/ (dict_get kv "cmd" (JStr "") = JStr "pump" /\ in_range 0 3 (dict_get kv "value" JNull)) ->
  exists s' frame,
    process_request (JDict kv) s
    = (inr (Report true true (fan_speed s') (pump_mode s')), s') /\
    link s' = link s ++ [(FromClient, frame)] /\
    (hd Saved (save_script s) = OpenFails -> disk s' = disk s) /\
    (hd Saved (save_script s) = WriteFails -> disk s' = Unreadable) /\
    (dict_get kv "cmd" (JStr "") = JStr "fan" ->
     fan_speed s' = dict_get kv "value" JNull /\ pump_mode s' = pump_mode s) /\
    (dict_get kv "cmd" (JStr "") = JStr "pump" ->
     pump_mode s' = dict_get kv "value" JNull /\ fan_speed s' = fan_speed s).
Proof.
  intros Hc Hcl Hw Hs [[Hcmd Hval] | [Hcmd Hval]].
  - destruct (fan_frame_in_range (dict_get kv "value" JNull)) as (frame & Ef);
      [revert Hval; apply in_range_weaken; lia|].
    apply int_between_spec in Hval.
    destruct s as [cl co ru rd rt kt fs pm lk dk ws ss]. cbn in Hc, Hcl, Hw, Hs. subst co.
    destruct cl as [a|]; [|congruence].
    destruct ss as [|[| |] ss]; try discriminate;
      (run_request; rewrite Hcmd; cbn; rewrite Hval; cbn;
       unfold send_fan_speed, bind; rewrite Ef; cbn;
       destruct ws as [|[|] ws]; try discriminate; cbn;
       match goal with
       | |- exists s' _, (_, ?S) = _ /\ _ => exists S, frame
       end; cbn; repeat split; trivial; intros; congruence).
  - destruct (pump_frame_in_range (dict_get kv "value" JNull)) as (frame & Ef);
      [revert Hval; apply in_range_weaken; lia|].
    apply int_between_spec in Hval.
    destruct s as [cl co ru rd rt kt fs pm lk dk ws ss]. cbn in Hc, Hcl, Hw, Hs. subst co.
    destruct cl as [a|]; [|congruence].
    destruct ss as [|[| |] ss]; try discriminate;
      (run_request; rewrite Hcmd; cbn; rewrite Hval; cbn;
       unfold send_pump_mode, bind; rewrite Ef; cbn;
       destruct ws as [|[|] ws]; try discriminate; cbn;
       match goal with
       | |- exists s' _, (_, ?S) = _ /\ _ => exists S, frame
       end; cbn; repeat split; trivial; intros; congruence).
Qed.

Lemma storage_failure_not_surfaced_witness :
  exists s',
    process_request (JDict [("cmd", JStr "fan"); ("value", JInt 35)]) linked_diskfull
    = (inr (Report true true (JInt 35) (JInt 2)), s') /\
    fan_speed s' = JInt 35 /\
    disk linked_diskfull = Stored (JDict [("fan", JInt 80); ("pump", JInt 2)]) /\
    disk s' = Unreadable.
Proof.
  destruct (storage_failure_not_surfaced
              [("cmd", JStr "fan"); ("value", JInt 35)] linked_diskfull)
    as (s' & frame & E & _ & _ & Hd & Hfan & _).
  - vm_compute. reflexivity.
  - vm_compute. discriminate.
  - vm_compute. reflexivity.
  - vm_compute. reflexivity.
  - left. split; [reflexivity|]. exists 35. split; [reflexivity | lia].
  - destruct (Hfan eq_refl) as (Hf & Hp). exists s'.
    rewrite E, Hf, Hp, Hd; [|vm_compute; reflexivity]. repeat split.
Defined.

(** ** Lines that are not JSON objects *)

(** C10. A client line that is a JSON text but not an object makes
    [process_request] raise [AttributeError], which nothing in
    [handle_client] catches: no response is written for it, the
    connection is closed and the lines behind it are never read.  An
    unparsable line and an unknown command are answered with an ok=false
    response instead, and the connection goes on. *)
Theorem non_object_line_aborts (request : json) (rest : list line) (s : Daemon) :
  running s = true ->
  is_object request = false ->
  handle_client (Parsed request :: rest) s = ([], Aborted AttributeError, s)
  /\ (exists rs c s',
        handle_client rest s = (rs, c, s') /\
        handle_client (Unparsable :: rest) s = (Failure "Invalid JSON" :: rs, c, s') /\
        forall kv,
          known_command (dict_get kv "cmd" (JStr "")) = false ->
          handle_client (Parsed (JDict kv) :: rest) s
          = (UnknownCommand (dict_get kv "cmd" (JStr "")) :: rs, c, s') /\
          ok_field (UnknownCommand (dict_get kv "cmd" (JStr ""))) = false)
  /\ ok_field (Failure "Invalid JSON") = false.
Proof.
  intros Hrun Hobj. split; [|split; [|reflexivity]].
  - cbn [handle_client]. rewrite Hrun. cbn [negb].
    destruct request; try discriminate; reflexivity.
  - destruct (handle_client rest s) as [[rs c] s'] eqn:E.
    exists rs, c, s'. split; [reflexivity|]. split.
    + cbn [handle_client]. rewrite Hrun. cbn. rewrite E. reflexivity.
    + intros kv Hk. split; [|reflexivity].
      unfold known_command in Hk. rewrite !orb_false_iff in Hk.
      destruct Hk as (((H1 & H2) & H3) & H4).
      cbn [handle_client]. rewrite Hrun. cbn [negb].
      assert (A : answer (Parsed (JDict kv)) s
                  = (inr (UnknownCommand (dict_get kv "cmd" (JStr ""))), s)).
      { unfold answer, json_loads. run_request. rewrite H1, H2, H3, H4. reflexivity. }
      rewrite A, E. reflexivity.
Qed.

Lemma non_object_line_aborts_witness :
  handle_client [Parsed (JList [JStr "fan"; JInt 50]); Parsed (JDict [("cmd", JStr "status")])] idle
  = ([], Aborted AttributeError, idle).
Proof.
  apply (non_object_line_aborts (JList [JStr "fan"; JInt 50])
           [Parsed (JDict [("cmd", JStr "status")])] idle); reflexivity.
Defined.

(** ** What one call of [send_command] does *)

Ltac open_daemon s :=
  destruct s as [cl co ru rd rt kt fs pm lk dk ws ss]; cbn in *.

Lemma send_command_spec (who : origin) (data : list byte) (s : Daemon) :
  exists r s',
    send_command who data s = (inr r, s') /\
    client s' = client s /\
    reconnect_delay s' = reconnect_delay s /\
    running s' = running s /\
    keepalive_task s' = keepalive_task s /\
    same_store s s' /\
    (connected s = false -> r = false /\ s' = s) /\
    (connected s = true -> client s <> None ->
     (r = true /\ connected s' = true /\ link s' = link s ++ [(who, data)])
     \/ (r = false /\ connected s' = false /\ link s' = link s)) /\
    (connected s = true -> client s = None -> r = false /\ s' = s).
Proof.
  unfold send_command, same_store, bind, get, try_except.
  open_daemon s.
  destruct co; cbn.
  - destruct cl as [a|]; cbn.
    + unfold write_gatt_char, _schedule_reconnect, modify, bind, get, ret. cbn.
      destruct ws as [|[|] ws]; cbn.
      * do 2 eexists. split; [reflexivity|]. cbn. intuition (try discriminate).
      * do 2 eexists. split; [reflexivity|]. cbn. intuition (try discriminate).
      * destruct ru; cbn; [destruct rt; cbn|];
          (do 2 eexists; split; [reflexivity|]; cbn; intuition (try discriminate)).
    + do 2 eexists. split; [reflexivity|]. cbn. intuition (try discriminate).
  - do 2 eexists. split; [reflexivity|]. cbn. intuition (try discriminate).
Qed.

(** ** The connect coroutine, run without interruption *)

Lemma same_store_refl (s : Daemon) : same_store s s.
Proof. repeat split. Qed.

Lemma same_store_trans (s1 s2 s3 : Daemon) :
  same_store s1 s2 -> same_store s2 s3 -> same_store s1 s3.
Proof. unfold same_store. intuition congruence. Qed.

Lemma run_going (m : M unit) (rest : list Segment) (s s1 : Daemon) :
  m s = (inr tt, s1) ->
  run_segments (going m :: rest) s = run_segments rest s1.
Proof.
  intros E. cbn [run_segments]. unfold going, bind, ret. rewrite E. reflexivity.
Qed.

(** The sends of [init_device] from a daemon that is marked connected:
    they never raise, and the log grows by the frames sent until the
    first failing write. *)
Lemma handshake_run (frames : list (list byte)) (rest : list Segment) (s : Daemon) :
  client s <> None ->
  exists s1 k,
    run_segments (map handshake_segment frames ++ rest) s = run_segments rest s1 /\
    client s1 = client s /\
    reconnect_delay s1 = reconnect_delay s /\
    same_store s s1 /\
    link s1 = link s ++ tagged Handshake (firstn k frames) /\
    (connected s1 = true -> connected s = true /\ (List.length frames <= k)%nat) /\
    (connected s = false -> s1 = s).
Proof.
  revert s. induction frames as [|f frames IH]; intros s Hcl.
  - exists s, 0%nat. cbn. rewrite app_nil_r. repeat split; trivial.
  - destruct (send_command_spec Handshake f s)
      as (r & s0 & E & Hc & Hd & _ & _ & Hst & Hdown & Hup & _).
    assert (Hcl0 : client s0 <> None) by (rewrite Hc; exact Hcl).
    destruct (IH s0 Hcl0) as (s1 & k & E1 & Hc1 & Hd1 & Hst1 & Hl1 & Hup1 & Hdown1).
    assert (Erun : run_segments (map handshake_segment (f :: frames) ++ rest) s
                   = run_segments rest s1).
    { cbn [map app]. unfold handshake_segment at 1.
      rewrite (run_going _ _ s s0); [exact E1|].
      unfold bind, ret. rewrite E. reflexivity. }
    unfold same_store in *.
    destruct (connected s) eqn:Hco.
    + destruct (Hup eq_refl Hcl) as [(_ & Hco0 & Hl0) | (_ & Hco0 & Hl0)].
      * exists s1, (S k). split; [exact Erun|].
        repeat split; try (intuition congruence).
        -- rewrite Hl1, Hl0. cbn. rewrite <- app_assoc. reflexivity.
        -- cbn. apply Hup1 in H. lia.
      * exists s1, 0%nat. split; [exact Erun|].
        specialize (Hdown1 Hco0). subst s1.
        repeat split; try (intuition congruence).
        cbn. rewrite app_nil_r. exact Hl0.
    + destruct (Hdown eq_refl) as (_ & ->).
      specialize (Hdown1 Hco). subst s1.
      exists s, 0%nat. split; [exact Erun|].
      repeat split; try (intuition congruence).
      cbn. now rewrite app_nil_r.
Qed.

Lemma send_fan_speed_run (who : origin) (speed : json) (s s1 : Daemon)
      (frame : list byte) (r : bool) :
  Codec.fan_frame speed = inr frame ->
  send_command who frame s = (inr r, s1) ->
  send_fan_speed who speed false s = (inr r, if r then set_fan_speed speed s1 else s1).
Proof.
  intros Ef E. unfold send_fan_speed, bind. rewrite Ef. unfold lift, ret at 1.
  rewrite E. destruct r; reflexivity.
Qed.

Lemma send_pump_mode_run (who : origin) (mode : json) (s s1 : Daemon)
      (frame : list byte) (r : bool) :
  Codec.pump_frame mode = inr frame ->
  send_command who frame s = (inr r, s1) ->
  send_pump_mode who mode false s = (inr r, if r then set_pump_mode mode s1 else s1).
Proof.
  intros Ef E. unfold send_pump_mode, bind. rewrite Ef. unfold lift, ret at 1.
  rewrite E. destruct r; reflexivity.
Qed.






(** The re-application of the stored settings that ends [connect_ble]. *)
Lemma resync_run (s : Daemon) (ff pf : list byte) :
  client s <> None ->
  Codec.fan_frame (fan_speed s) = inr ff ->
  Codec.pump_frame (pump_mode s) = inr pf ->
  exists s' k,
    run_segments [resync_fan; resync_pump_and_finish] s = (inr true, s') /\
    same_store s s' /\
    reconnect_delay s' = reconnect_delay s /\
    client s' = client s /\
    link s' = link s ++ firstn k [(Resync, ff); (Resync, pf)] /\
    (connected s' = true -> connected s = true /\ (2 <= k)%nat) /\
    (connected s = false -> k = 0%nat).
Proof.
  intros Hcl Ef Ep.
  destruct (send_command_spec Resync ff s)
    as (r1 & s1 & E1 & Hc1 & Hd1 & _ & _ & Hst1 & Hdown1 & Hup1 & _).
  set (s2 := if r1 then set_fan_speed (fan_speed s) s1 else s1).
  assert (Hs2 : fan_speed s2 = fan_speed s /\ pump_mode s2 = pump_mode s /\
                disk s2 = disk s /\ save_script s2 = save_script s /\
                client s2 = client s1 /\ connected s2 = connected s1 /\
                link s2 = link s1 /\ reconnect_delay s2 = reconnect_delay s1).
  { unfold same_store in Hst1. subst s2. destruct r1; cbn; intuition congruence. }
  destruct Hs2 as (Hf2 & Hp2 & Hdk2 & Hss2 & Hcl2 & Hco2 & Hl2 & Hd2).
  destruct (send_command_spec Resync pf s2)
    as (r3 & s3 & E3 & Hc3 & Hd3 & _ & _ & Hst3 & Hdown3 & Hup3 & _).
  set (s4 := if r3 then set_pump_mode (pump_mode s2) s3 else s3).
  assert (Hs4 : fan_speed s4 = fan_speed s /\ pump_mode s4 = pump_mode s /\
                disk s4 = disk s /\ save_script s4 = save_script s /\
                client s4 = client s3 /\ connected s4 = connected s3 /\
                link s4 = link s3 /\ reconnect_delay s4 = reconnect_delay s3).
  { unfold same_store in Hst3. subst s4. destruct r3; cbn; intuition congruence. }
  destruct Hs4 as (Hf4 & Hp4 & Hdk4 & Hss4 & Hcl4 & Hco4 & Hl4 & Hd4).
  set (s5 := if keepalive_task s4 then s4 else set_keepalive_task true s4).
  assert (Hs5 : fan_speed s5 = fan_speed s4 /\ pump_mode s5 = pump_mode s4 /\
                disk s5 = disk s4 /\ save_script s5 = save_script s4 /\
                client s5 = client s4 /\ connected s5 = connected s4 /\
                link s5 = link s4 /\ reconnect_delay s5 = reconnect_delay s4).
  { subst s5. destruct (keepalive_task s4); cbn; intuition congruence. }
  destruct Hs5 as (Hf5 & Hp5 & Hdk5 & Hss5 & Hcl5 & Hco5 & Hl5 & Hd5).
  assert (Erun : run_segments [resync_fan; resync_pump_and_finish] s = (inr true, s5)).
  { assert (Ep2 : Codec.pump_frame (pump_mode s2) = inr pf) by (rewrite Hp2; exact Ep).
    assert (A : resync_fan s = (inr None, s2)).
    { unfold resync_fan, going, bind, get.
      rewrite (send_fan_speed_run _ _ _ _ _ _ Ef E1). reflexivity. }
    assert (B : resync_pump_and_finish s2 = (inr (Some true), s5)).
    { unfold resync_pump_and_finish, bind, get.
      rewrite (send_pump_mode_run _ _ _ _ _ _ Ep2 E3). fold s4.
      unfold _start_keepalive, bind, get, modify, ret. subst s5.
      destruct (keepalive_task s4); reflexivity. }
    cbn [run_segments]. unfold bind at 1. rewrite A.
    unfold bind at 1. rewrite B. reflexivity. }
  assert (Hcl2' : client s2 <> None) by congruence.
  destruct (connected s) eqn:Hco.
  - destruct (Hup1 eq_refl Hcl) as [(_ & Hco1 & Hl1) | (_ & Hco1 & Hl1)].
    + assert (Hco2' : connected s2 = true) by congruence.
      destruct (Hup3 Hco2' Hcl2') as [(_ & Hco3 & Hl3) | (_ & Hco3 & Hl3)].
      * exists s5, 2%nat. split; [exact Erun|]. unfold same_store.
        repeat split; try congruence; try lia.
        cbn. rewrite Hl5, Hl4, Hl3, Hl2, Hl1, <- app_assoc. reflexivity.
      * exists s5, 1%nat. split; [exact Erun|]. unfold same_store.
        repeat split; try congruence.
        cbn. rewrite Hl5, Hl4, Hl3, Hl2, Hl1. reflexivity.
    + assert (Hco2' : connected s2 = false) by congruence.
      destruct (Hdown3 Hco2') as (_ & ->).
      exists s5, 0%nat. split; [exact Erun|]. unfold same_store.
      repeat split; try congruence.
      cbn. rewrite Hl5, Hl4, Hl2, Hl1, app_nil_r. reflexivity.
  - destruct (Hdown1 eq_refl) as (_ & ->).
    assert (Hco2' : connected s2 = false) by congruence.
    destruct (Hdown3 Hco2') as (_ & ->).
    exists s5, 0%nat. split; [exact Erun|]. unfold same_store.
    repeat split; try congruence.
    cbn. rewrite Hl5, Hl4, Hl2, app_nil_r. reflexivity.
Qed.

Lemma resync_raises (s : Daemon) :
  (exists e, Codec.fan_frame (fan_speed s) = inl e)
  \/ (exists e, Codec.pump_frame (pump_mode s) = inl e) ->
  exists e s',
    run_segments [resync_fan; resync_pump_and_finish] s = (inl e, s') /\
    same_store s s'.
Proof.
  intros H.
  destruct (Codec.fan_frame (fan_speed s)) as [e|ff] eqn:Ef.
  - exists e, s. split; [|apply same_store_refl].
    cbn [run_segments]. unfold resync_fan, send_fan_speed, going, bind, get.
    rewrite Ef. reflexivity.
  - destruct H as [(e & H) | (e & Ep)]; [discriminate|].
    destruct (send_command_spec Resync ff s)
      as (r1 & s1 & E1 & _ & _ & _ & _ & Hst1 & _).
    set (s2 := if r1 then set_fan_speed (fan_speed s) s1 else s1).
    assert (Hs2 : same_store s s2).
    { unfold same_store in *. subst s2. destruct r1; cbn; intuition congruence. }
    exists e, s2. split; [|exact Hs2].
    assert (A : resync_fan s = (inr None, s2)).
    { unfold resync_fan, going, bind, get.
      rewrite (send_fan_speed_run _ _ _ _ _ _ Ef E1). reflexivity. }
    cbn [run_segments]. unfold bind at 1. rewrite A.
    unfold bind at 1, resync_pump_and_finish, send_pump_mode, bind, get.
    replace (pump_mode s2) with (pump_mode s) by (symmetry; apply Hs2).
    rewrite Ep. reflexivity.
Qed.

Lemma run_prepend (m : M unit) (seg : Segment) (segs : list Segment) (s s1 : Daemon) :
  m s = (inr tt, s1) ->
  run_segments (prepend m (seg :: segs)) s = run_segments (seg :: segs) s1.
Proof.
  intros E. cbn [prepend run_segments]. unfold bind. rewrite E. reflexivity.
Qed.

(** Every outcome of one uninterrupted [connect_ble]: it never raises and
    never touches the state store; when it returns [False] the backoff
    delay is the one it found, unless a stored setting could not be
    encoded; when it returns [True] the delay is the floor and the link
    holds the frames of the session up to the first failed write. *)
Lemma connect_ble_cases (DEVICE_ADDRESS : string) (env : ConnEnv) (s : Daemon) :
  exists b s',
    connect_ble DEVICE_ADDRESS env s = (inr b, s') /\
    same_store s s' /\
    ((b = false /\ connected s' = false /\
      (reconnect_delay s' = reconnect_delay s
       \/ ((exists e, Codec.fan_frame (fan_speed s) = inl e)
           \/ (exists e, Codec.pump_frame (pump_mode s) = inl e))))
     \/ (b = false /\ s' = s)
     \/ (b = true /\ reconnect_delay s' = RECONNECT_MIN_DELAY /\
         exists ff pf k,
           Codec.fan_frame (fan_speed s) = inr ff /\
           Codec.pump_frame (pump_mode s) = inr pf /\
           link s' = firstn k (session_frames ff pf) /\
           (connected s' = true -> (11 <= k)%nat))).
Proof.
  unfold connect_ble, connect_segments, try_except.
  destruct (scan env) as [devices|].
  2:{ exists false, (set_connected false s). split; [reflexivity|].
      split; [repeat split|]. left. repeat split. now left. }
  destruct (select_device DEVICE_ADDRESS devices) as [a|].
  2:{ exists false, s. split; [reflexivity|]. split; [apply same_store_refl|].
      right. left. split; reflexivity. }
  destruct (truthy a); cbn [negb].
  2:{ exists false, s. split; [reflexivity|]. split; [apply same_store_refl|].
      right. left. split; reflexivity. }
  set (s0 := set_link [] (set_client (Some a) s)).
  rewrite (run_going _ _ s s0) by reflexivity.
  destruct (connect_ok env).
  2:{ exists false, (set_connected false s0). split; [reflexivity|].
      split; [repeat split|]. left. repeat split. now left. }
  rewrite (run_going _ _ s0 s0) by reflexivity.
  unfold init_device_segments.
  change Codec.init_sequence
    with (hd [] Codec.init_sequence :: tl Codec.init_sequence).
  cbn [map app].
  destruct (notify_ok env) eqn:En.
  2:{ exists false, (set_connected false s0). split.
      - cbn [prepend run_segments]. unfold mark_connected, transport_call, bind.
        rewrite En. reflexivity.
      - split; [repeat split|]. left. repeat split. now left. }
  set (s1 := set_reconnect_delay RECONNECT_MIN_DELAY (set_connected true s0)).
  change (prepend (mark_connected env)
            (handshake_segment (hd [] Codec.init_sequence)
             :: map handshake_segment (tl Codec.init_sequence))
          ++ [resync_fan; resync_pump_and_finish])
    with (prepend (mark_connected env)
            (handshake_segment (hd [] Codec.init_sequence)
             :: map handshake_segment (tl Codec.init_sequence)
                ++ [resync_fan; resync_pump_and_finish])).
  rewrite (run_prepend _ _ _ s0 s1)
    by (unfold mark_connected, transport_call, bind; rewrite En; reflexivity).
  change (handshake_segment (hd [] Codec.init_sequence)
          :: map handshake_segment (tl Codec.init_sequence)
             ++ [resync_fan; resync_pump_and_finish])
    with (map handshake_segment Codec.init_sequence
          ++ [resync_fan; resync_pump_and_finish]).
  destruct (handshake_run Codec.init_sequence [resync_fan; resync_pump_and_finish] s1)
    as (s2 & k & E2 & Hc2 & Hd2 & Hst2 & Hl2 & Hup2 & _); [discriminate|].
  rewrite E2.
  assert (Hst02 : same_store s s2).
  { unfold same_store in *. subst s1 s0. cbn in Hst2. exact Hst2. }
  assert (Hcl2 : client s2 <> None) by (rewrite Hc2; discriminate).
  destruct (Codec.fan_frame (fan_speed s)) as [e|ff] eqn:Ef.
  { destruct (resync_raises s2) as (e' & s3 & E3 & Hst3).
    { left. exists e. replace (fan_speed s2) with (fan_speed s) by (symmetry; apply Hst02).
      exact Ef. }
    rewrite E3. exists false, (set_connected false s3). split; [reflexivity|].
    split.
    - unfold same_store in *. cbn. intuition congruence.
    - left. repeat split. right. left. now exists e. }
  destruct (Codec.pump_frame (pump_mode s)) as [e|pf] eqn:Ep.
  { destruct (resync_raises s2) as (e' & s3 & E3 & Hst3).
    { right. exists e. replace (pump_mode s2) with (pump_mode s) by (symmetry; apply Hst02).
      exact Ep. }
    rewrite E3. exists false, (set_connected false s3). split; [reflexivity|].
    split.
    - unfold same_store in *. cbn. intuition congruence.
    - left. repeat split. right. right. now exists e. }
  destruct (resync_run s2 ff pf Hcl2) as (s3 & j & E3 & Hst3 & Hd3 & _ & Hl3 & Hup3 & Hdown3).
  { replace (fan_speed s2) with (fan_speed s) by (symmetry; apply Hst02). exact Ef. }
  { replace (pump_mode s2) with (pump_mode s) by (symmetry; apply Hst02). exact Ep. }
  rewrite E3. exists true, s3. split; [reflexivity|].
  split; [eapply same_store_trans; eassumption|].
  right. right. split; [reflexivity|]. split; [rewrite Hd3, Hd2; reflexivity|].
  exists ff, pf.
  assert (Hl : link s3 = tagged Handshake (firstn k Codec.init_sequence)
                         ++ firstn j [(Resync, ff); (Resync, pf)]).
  { rewrite Hl3, Hl2. reflexivity. }
  destruct (connected s2) eqn:Hco2.
  - destruct (Hup2 eq_refl) as (_ & Hk).
    exists (9 + j)%nat. repeat split; trivial.
    + rewrite Hl. rewrite firstn_all2 by exact Hk.
      unfold session_frames.
      change 9%nat with (List.length (tagged Handshake Codec.init_sequence)).
      rewrite firstn_app_2. reflexivity.
    + intros H. apply Hup3 in H. lia.
  - rewrite (Hdown3 eq_refl) in Hl. cbn [firstn] in Hl. rewrite app_nil_r in Hl.
    exists (Nat.min k 9). repeat split; trivial.
    + rewrite Hl. unfold session_frames, tagged.
      rewrite <- firstn_map.
      change 9%nat with (List.length (map (fun frame => (Handshake, frame)) Codec.init_sequence)).
      rewrite <- firstn_firstn, firstn_app, Nat.sub_diag. cbn [firstn].
      rewrite app_nil_r, firstn_all. reflexivity.
    + intros H. apply Hup3 in H. destruct H as (H & _). discriminate.
Qed.



Lemma on_disconnect_same_store (s : Daemon) : same_store s (exec _on_disconnect s).
Proof.
  unfold exec, _on_disconnect, _stop_keepalive, _schedule_reconnect, modify, bind, get, ret.
  cbn. destruct (running s); cbn; [destruct (reconnect_task s); cbn|]; repeat split.
Qed.



(** ** Backoff of the reconnect loop *)


Lemma same_store_settings_ok (s s' : Daemon) :
  same_store s s' -> settings_ok s -> settings_ok s'.
Proof. unfold same_store, settings_ok. intros (-> & -> & _) H. exact H. Qed.

(** A successful connect resets the delay to the floor. *)
Lemma connect_resets_backoff (DEVICE_ADDRESS : string) (env : ConnEnv) (s s' : Daemon) :
  connect_ble DEVICE_ADDRESS env s = (inr true, s') ->
  reconnect_delay s' = RECONNECT_MIN_DELAY.
Proof.
  intros E.
  destruct (connect_ble_cases DEVICE_ADDRESS env s) as (b & s0 & E0 & _ & Hcases).
  rewrite E in E0. injection E0 as <- <-.
  destruct Hcases as [(H & _) | [(H & _) | (_ & H & _)]]; try discriminate. exact H.
Qed.




(** C5 (evaluation at the failing input). Started on a state file with
    fan 500, the loop sleeps 1, 2, 4 and 8 while the scan finds nothing;
    the next attempt finds the cooler, resets the delay, fails to encode
    the fan frame and returns False, and the loop then sleeps 2. *)
Theorem backoff_drops_after_failed_resync :
  fst (reconnect ""
         [nothing_found; nothing_found; nothing_found; cooler_found; nothing_found]
         (LPPDaemon overdriven [] []))
  = inr [1; 2; 4; 8; 2].
Proof. vm_compute. reflexivity. Qed.

(** ** Discovery *)

(** With no address configured the first device whose name contains
    the device name, whatever the case, is the one selected. *)
Lemma select_by_name (devices : list Device) :
  select_device "" devices
  = option_map address
      (find (fun d => match name d with
                      | Some n => truthy n && contains (lower DEVICE_NAME) (lower n)
                      | None => false
                      end) devices).
Proof.
  induction devices as [|d devices IH]; [reflexivity|].
  cbn [select_device find]. cbn [truthy String.eqb negb andb].
  destruct (name d) as [n|]; [|exact IH].
  destruct (truthy n && contains (lower DEVICE_NAME) (lower n)); [reflexivity | exact IH].
Qed.

(** When the scan has no candidate the attempt fails and the daemon is
    as it was: no client is created, nothing is marked connected. *)
Lemma no_candidate_no_connection
      (DEVICE_ADDRESS : string) (env : ConnEnv) (devices : list Device) (s : Daemon) :
  scan env = Some devices ->
  select_device DEVICE_ADDRESS devices = None ->
  connect_ble DEVICE_ADDRESS env s = (inr false, s).
Proof.
  intros Hs Hn. unfold connect_ble, connect_segments, try_except.
  rewrite Hs, Hn. reflexivity.
Qed.

(** C6 (evaluation at the failing input). With an address configured, a
    scan that lists a device matching by name in front of the device
    with the configured address selects the former, and [connect_ble]
    connects to it. *)
Theorem name_match_overrides_configured_address :
  select_device "AA:BB:CC:DD:EE:FF" two_coolers = Some "11:22:33:44:55:66"
  /\ fst (connect_ble "AA:BB:CC:DD:EE:FF" (mkConnEnv (Some two_coolers) true true) idle)
     = inr true
  /\ client (exec (connect_ble "AA:BB:CC:DD:EE:FF" (mkConnEnv (Some two_coolers) true true))
                  idle)
     = Some "11:22:33:44:55:66".
Proof. vm_compute. repeat split; reflexivity. Qed.

(** ** Start-up load of the state file *)

(** A missing file, a file that cannot be read or parsed, and a JSON
    text that is not an object all leave the defaults in place. *)
Lemma load_state_defaults (f : file) (writes : list bool) (saves : list save_outcome) :
  match f with
  | Stored (JDict _) => False
  | _ => True
  end ->
  fan_speed (LPPDaemon f writes saves) = JInt 60 /\
  pump_mode (LPPDaemon f writes saves) = JInt 0.
Proof.
  intros H. destruct f as [| |content]; try (split; reflexivity).
  destruct content; try contradiction; split; reflexivity.
Qed.

(** C2 (evaluation at the failing input). A state file holding fan 500
    and pump 9 is loaded as it is: the daemon starts with a fan speed
    outside [0,100] and a pump mode outside 0..3. *)
Theorem load_state_unvalidated :
  fan_speed (LPPDaemon (Stored (JDict [("fan", JInt 500); ("pump", JInt 9)])) [] [])
  = JInt 500
  /\ pump_mode (LPPDaemon (Stored (JDict [("fan", JInt 500); ("pump", JInt 9)])) [] [])
     = JInt 9
  /\ ~ in_range 0 100 (JInt 500)
  /\ ~ in_range 0 3 (JInt 9).
Proof.
  repeat split; try reflexivity;
    intros (z & E & H); cbn in E; injection E as <-; lia.
Qed.

(** ** Effects of the tasks that run beside [connect_ble] *)

Section Effects.

Variable R : Daemon -> Daemon -> Prop.
Hypothesis R_refl : forall s, R s s.
Hypothesis R_trans : forall s1 s2 s3, R s1 s2 -> R s2 s3 -> R s1 s3.

Lemma effect_ret {A} (a : A) : effect R (ret a).
Proof. intros s. apply R_refl. Qed.

Lemma effect_raise {A} (e : exn) : effect R (@raise A e).
Proof. intros s. apply R_refl. Qed.

Lemma effect_get : effect R get.
Proof. intros s. apply R_refl. Qed.

Lemma effect_lift {A} (r : exn + A) : effect R (lift r).
Proof. destruct r; [apply effect_raise | apply effect_ret]. Qed.

Lemma effect_modify (f : Daemon -> Daemon) :
  (forall s, R s (f s)) -> effect R (modify f).
Proof. intros H s. apply H. Qed.

Lemma effect_bind {A B} (m : M A) (k : A -> M B) :
  effect R m -> (forall a, effect R (k a)) -> effect R (bind m k).
Proof.
  intros Hm Hk s. unfold bind. specialize (Hm s).
  destruct (m s) as [[e|a] s1]; cbn in *; [exact Hm|].
  eapply R_trans; [exact Hm | apply Hk].
Qed.

Lemma effect_try_except {A} (m : M A) (h : exn -> M A) :
  effect R m -> (forall e, effect R (h e)) -> effect R (try_except m h).
Proof.
  intros Hm Hh s. unfold try_except. specialize (Hm s).
  destruct (m s) as [[e|a] s1]; cbn in *; [|exact Hm].
  eapply R_trans; [exact Hm | apply Hh].
Qed.

End Effects.

(** * Further properties of the daemon *)

(** ** Fan and pump requests, step by step *)

Lemma save_state_fields (s : Daemon) :
  let s' := exec _save_state s in
  client s' = client s /\ connected s' = connected s /\ running s' = running s /\
  reconnect_task s' = reconnect_task s /\ keepalive_task s' = keepalive_task s /\
  fan_speed s' = fan_speed s /\ pump_mode s' = pump_mode s /\ link s' = link s /\
  write_script s' = write_script s /\
  (next_saved (save_script s) = true ->
   disk s' = Stored (JDict [("fan", fan_speed s); ("pump", pump_mode s)])) /\
  (next_saved (save_script s) = false ->
   disk s' = match hd Saved (save_script s) with
             | WriteFails => Unreadable
             | _ => disk s
             end).
Proof.
  unfold exec, _save_state.
  destruct (save_script s) as [|[| |] rest]; cbn; repeat split; trivial; discriminate.
Qed.

(** A fan request that passes validation on a connected daemon, in
    terms of what [send_command] does with its frame. *)
Lemma fan_request_sent (kv : list (string * json)) (s : Daemon) :
  dict_get kv "cmd" (JStr "") = JStr "fan" ->
  in_range 0 100 (dict_get kv "value" JNull) ->
  connected s = true ->
  exists frame r s1,
    Codec.fan_frame (dict_get kv "value" JNull) = inr frame /\
    send_command FromClient frame s = (inr r, s1) /\
    process_request (JDict kv) s
    = if r
      then (inr (Report true (connected s1) (dict_get kv "value" JNull) (pump_mode s1)),
            exec _save_state (set_fan_speed (dict_get kv "value" JNull) s1))
      else (inr (Report false (connected s1) (fan_speed s1) (pump_mode s1)), s1).
Proof.
  intros Hcmd Hval Hco.
  destruct (fan_frame_in_range (dict_get kv "value" JNull)) as (frame & Ef);
    [revert Hval; apply in_range_weaken; lia|].
  apply int_between_spec in Hval.
  destruct (send_command_spec FromClient frame s) as (r & s1 & E & _).
  exists frame, r, s1. split; [exact Ef|]. split; [exact E|].
  unfold process_request, py_get. unfold bind at 1, ret at 1.
  rewrite Hcmd. cbn [str_is String.eqb Ascii.eqb Bool.eqb].
  unfold bind at 1, ret at 1. rewrite Hval. cbn [negb].
  unfold bind at 1, get at 1. rewrite Hco. cbn [negb].
  unfold bind at 1, send_fan_speed. unfold bind at 1. rewrite Ef.
  unfold lift, ret at 1. unfold bind at 1. rewrite E.
  destruct r.
  - unfold bind, modify, ret, report, get, exec.
    destruct (save_state_fields (set_fan_speed (dict_get kv "value" JNull) s1))
      as (_ & Hc & _ & _ & _ & Hf & Hp & _).
    unfold exec in Hc, Hf, Hp.
    destruct (_save_state (set_fan_speed (dict_get kv "value" JNull) s1)) as [[e|[]] s2] eqn:Es;
      cbn [snd] in *.
    + unfold _save_state in Es.
      destruct (save_script _) as [|[| |] ?]; discriminate.
    + unfold bind, ret. rewrite Hc, Hf, Hp. reflexivity.
  - reflexivity.
Qed.

Lemma pump_request_sent (kv : list (string * json)) (s : Daemon) :
  dict_get kv "cmd" (JStr "") = JStr "pump" ->
  in_range 0 3 (dict_get kv "value" JNull) ->
  connected s = true ->
  exists frame r s1,
    Codec.pump_frame (dict_get kv "value" JNull) = inr frame /\
    send_command FromClient frame s = (inr r, s1) /\
    process_request (JDict kv) s
    = if r
      then (inr (Report true (connected s1) (fan_speed s1) (dict_get kv "value" JNull)),
            exec _save_state (set_pump_mode (dict_get kv "value" JNull) s1))
      else (inr (Report false (connected s1) (fan_speed s1) (pump_mode s1)), s1).
Proof.
  intros Hcmd Hval Hco.
  destruct (pump_frame_in_range (dict_get kv "value" JNull)) as (frame & Ef);
    [revert Hval; apply in_range_weaken; lia|].
  apply int_between_spec in Hval.
  destruct (send_command_spec FromClient frame s) as (r & s1 & E & _).
  exists frame, r, s1. split; [exact Ef|]. split; [exact E|].
  unfold process_request, py_get. unfold bind at 1, ret at 1.
  rewrite Hcmd. cbn [str_is String.eqb Ascii.eqb Bool.eqb].
  unfold bind at 1, ret at 1. rewrite Hval. cbn [negb].
  unfold bind at 1, get at 1. rewrite Hco. cbn [negb].
  unfold bind at 1, send_pump_mode. unfold bind at 1. rewrite Ef.
  unfold lift, ret at 1. unfold bind at 1. rewrite E.
  destruct r.
  - unfold bind, modify, ret, report, get, exec.
    destruct (save_state_fields (set_pump_mode (dict_get kv "value" JNull) s1))
      as (_ & Hc & _ & _ & _ & Hf & Hp & _).
    unfold exec in Hc, Hf, Hp.
    destruct (_save_state (set_pump_mode (dict_get kv "value" JNull) s1)) as [[e|[]] s2] eqn:Es;
      cbn [snd] in *.
    + unfold _save_state in Es.
      destruct (save_script _) as [|[| |] ?]; discriminate.
    + unfold bind, ret. rewrite Hc, Hf, Hp. reflexivity.
  - reflexivity.
Qed.

(** What a write that raises leaves behind. *)
Lemma send_command_failure (who : origin) (data : list byte) (s : Daemon) :
  connected s = true ->
  client s <> None ->
  next_ok (write_script s) = false ->
  exists s',
    send_command who data s = (inr false, s') /\
    connected s' = false /\
    reconnect_task s' = (running s || reconnect_task s) /\
    link s' = link s /\
    client s' = client s /\
    same_store s s' /\
    running s' = running s /\
    keepalive_task s' = keepalive_task s /\
    write_script s' = tl (write_script s).
Proof.
  intros Hco Hcl Hw. unfold send_command, bind, get, try_except.
  open_daemon s. subst co. destruct cl as [a|]; [|congruence].
  destruct ws as [|[|] ws]; try discriminate. cbn.
  unfold write_gatt_char, _schedule_reconnect, modify, bind, get, ret. cbn.
  destruct ru; cbn; [destruct rt; cbn|];
    (eexists; split; [reflexivity|]; cbn; repeat split).
Qed.

Lemma send_command_success (who : origin) (data : list byte) (s : Daemon) :
  connected s = true ->
  client s <> None ->
  next_ok (write_script s) = true ->
  exists s',
    send_command who data s = (inr true, s') /\
    connected s' = true /\
    link s' = link s ++ [(who, data)] /\
    client s' = client s /\
    same_store s s' /\
    running s' = running s /\
    reconnect_task s' = reconnect_task s /\
    keepalive_task s' = keepalive_task s /\
    reconnect_delay s' = reconnect_delay s /\
    write_script s' = tl (write_script s).
Proof.
  intros Hco Hcl Hw. unfold send_command, bind, get, try_except.
  open_daemon s. subst co. destruct cl as [a|]; [|congruence].
  destruct ws as [|[|] ws]; try discriminate; cbn;
    (eexists; split; [reflexivity|]; cbn; repeat split).
Qed.

(** X1. A fan or pump request with a value in range, on a connected
    daemon whose link write and state-file write succeed, is answered
    ok=true with the new settings; the frame of the value is the one
    frame added to the link, the other setting is untouched, the state
    file holds both settings, and a status request right after reports
    them. *)
Theorem setting_applied_and_reported (value : json) (s : Daemon) :
  connected s = true ->
  client s <> None ->
  next_ok (write_script s) = true ->
  next_saved (save_script s) = true ->
  (in_range 0 100 value ->
   exists s' frame,
     process_request (fan_request value) s
     = (inr (Report true true value (pump_mode s)), s') /\
     Codec.fan_frame value = inr frame /\
     link s' = link s ++ [(FromClient, frame)] /\
     fan_speed s' = value /\ pump_mode s' = pump_mode s /\
     disk s' = Stored (JDict [("fan", value); ("pump", pump_mode s)]) /\
     process_request status_request s'
     = (inr (Report true true value (pump_mode s)), s'))
  /\
  (in_range 0 3 value ->
   exists s' frame,
     process_request (pump_request value) s
     = (inr (Report true true (fan_speed s) value), s') /\
     Codec.pump_frame value = inr frame /\
     link s' = link s ++ [(FromClient, frame)] /\
     pump_mode s' = value /\ fan_speed s' = fan_speed s /\
     disk s' = Stored (JDict [("fan", fan_speed s); ("pump", value)]) /\
     process_request status_request s'
     = (inr (Report true true (fan_speed s) value), s')).
Proof.
  intros Hco Hcl Hw Hs. split; intros Hval.
  - destruct (fan_request_sent [("cmd", JStr "fan"); ("value", value)] s eq_refl Hval Hco)
      as (frame & r & s1 & Ef & E & Hreq).
    cbn [dict_get String.eqb Ascii.eqb Bool.eqb] in *.
    destruct (send_command_success FromClient frame s Hco Hcl Hw)
      as (s1' & E' & Hco1 & Hl1 & _ & (Hf1 & Hp1 & Hd1 & Hss1) & _).
    rewrite E in E'. injection E' as -> <-.
    set (s2 := exec _save_state (set_fan_speed value s1)) in *.
    destruct (save_state_fields (set_fan_speed value s1))
      as (_ & Hc2 & _ & _ & _ & Hf2 & Hp2 & Hl2 & _ & Hdisk & _).
    fold s2 in Hc2, Hf2, Hp2, Hl2, Hdisk. cbn in Hc2, Hf2, Hp2, Hl2, Hdisk.
    exists s2, frame. unfold fan_request. rewrite Hreq, Hco1, Hp1.
    repeat split; try congruence.
    + rewrite Hdisk, Hp1; [reflexivity|]. rewrite Hss1. exact Hs.
    + unfold status_request, process_request, py_get, report, bind, ret, get. cbn.
      rewrite Hc2, Hf2, Hp2, Hco1, Hp1. reflexivity.
  - destruct (pump_request_sent [("cmd", JStr "pump"); ("value", value)] s eq_refl Hval Hco)
      as (frame & r & s1 & Ef & E & Hreq).
    cbn [dict_get String.eqb Ascii.eqb Bool.eqb] in *.
    destruct (send_command_success FromClient frame s Hco Hcl Hw)
      as (s1' & E' & Hco1 & Hl1 & _ & (Hf1 & Hp1 & Hd1 & Hss1) & _).
    rewrite E in E'. injection E' as -> <-.
    set (s2 := exec _save_state (set_pump_mode value s1)) in *.
    destruct (save_state_fields (set_pump_mode value s1))
      as (_ & Hc2 & _ & _ & _ & Hf2 & Hp2 & Hl2 & _ & Hdisk & _).
    fold s2 in Hc2, Hf2, Hp2, Hl2, Hdisk. cbn in Hc2, Hf2, Hp2, Hl2, Hdisk.
    exists s2, frame. unfold pump_request. rewrite Hreq, Hco1, Hf1.
    repeat split; try congruence.
    + rewrite Hdisk, Hf1; [reflexivity|]. rewrite Hss1. exact Hs.
    + unfold status_request, process_request, py_get, report, bind, ret, get. cbn.
      rewrite Hc2, Hf2, Hp2, Hco1, Hf1. reflexivity.
Qed.

Lemma setting_applied_and_reported_witness :
  exists s',
    process_request (fan_request (JInt 85)) linked
    = (inr (Report true true (JInt 85) (JInt 0)), s') /\
    disk s' = Stored (JDict [("fan", JInt 85); ("pump", JInt 0)]).
Proof.
  destruct (setting_applied_and_reported (JInt 85) linked) as (Hfan & _).
  - vm_compute. reflexivity.
  - vm_compute. discriminate.
  - vm_compute. reflexivity.
  - vm_compute. reflexivity.
  - destruct Hfan as (s' & frame & E & _ & _ & _ & _ & Hd & _).
    + exists 85. split; [reflexivity | lia].
    + exists s'. split; [exact E | exact Hd].
Defined.

(** ** The state file across a restart *)

(** X2. The state file across a restart, for each way [_save_state] can
    end.  After a save that completes, a daemon started on the file has
    the fan speed and pump mode that were saved and answers its first
    status request with them and connected=false.  After a save whose
    [mkdir] or [open] raised, a restart sees the file as it was before.
    After a save whose write raised, the file is truncated and a restart
    comes up with the defaults 60 and 0, whatever the file held before
    and whatever the daemon had in memory. *)
Theorem state_survives_restart (s : Daemon) (writes : list bool) (saves : list save_outcome) :
  (next_saved (save_script s) = true ->
   fan_speed (LPPDaemon (disk (exec _save_state s)) writes saves) = fan_speed s /\
   pump_mode (LPPDaemon (disk (exec _save_state s)) writes saves) = pump_mode s /\
   fst (process_request status_request
          (LPPDaemon (disk (exec _save_state s)) writes saves))
   = inr (Report true false (fan_speed s) (pump_mode s)))
  /\
  (hd Saved (save_script s) = OpenFails ->
   LPPDaemon (disk (exec _save_state s)) writes saves = LPPDaemon (disk s) writes saves)
  /\
  (hd Saved (save_script s) = WriteFails ->
   fan_speed (LPPDaemon (disk (exec _save_state s)) writes saves) = JInt 60 /\
   pump_mode (LPPDaemon (disk (exec _save_state s)) writes saves) = JInt 0 /\
   fst (process_request status_request
          (LPPDaemon (disk (exec _save_state s)) writes saves))
   = inr (Report true false (JInt 60) (JInt 0))).
Proof.
  destruct (save_state_fields s) as (_ & _ & _ & _ & _ & _ & _ & _ & _ & Hok & Hfail).
  cbn zeta in Hok, Hfail. split; [|split]; intros H.
  - rewrite (Hok H). repeat split.
  - rewrite Hfail, H; [reflexivity|].
    destruct (save_script s) as [|[| |] ?]; try discriminate; reflexivity.
  - rewrite Hfail, H; [repeat split|].
    destruct (save_script s) as [|[| |] ?]; try discriminate; reflexivity.
Qed.

Lemma state_survives_restart_witness :
  disk linked_diskfull = Stored (JDict [("fan", JInt 80); ("pump", JInt 2)]) /\
  fan_speed linked_diskfull = JInt 80 /\
  fan_speed (LPPDaemon (disk (exec _save_state linked_diskfull)) [] []) = JInt 60 /\
  pump_mode (LPPDaemon (disk (exec _save_state linked)) [] []) = pump_mode linked.
Proof.
  destruct (state_survives_restart linked_diskfull [] []) as (_ & _ & H).
  destruct H as (Hf & _); [vm_compute; reflexivity|].
  destruct (state_survives_restart linked [] []) as (H & _).
  destruct H as (_ & Hp & _); [vm_compute; reflexivity|].
  split; [vm_compute; reflexivity|]. split; [vm_compute; reflexivity|].
  split; [exact Hf | exact Hp].
Defined.

(** ** A link write that fails under a request *)

Lemma request_when_down (value : json) (s : Daemon) :
  connected s = false ->
  (in_range 0 100 value ->
   process_request (fan_request value) s = (inr (Failure "Not connected to device"), s))
  /\
  (in_range 0 3 value ->
   process_request (pump_request value) s = (inr (Failure "Not connected to device"), s)).
Proof.
  intros Hco. split; intros Hval; apply int_between_spec in Hval;
    unfold fan_request, pump_request; run_request; rewrite Hval; cbn;
    rewrite Hco; reflexivity.
Qed.

(** X3. When the link write of a valid fan or pump request raises, the
    response carries ok=false and connected=false with the old
    settings; nothing is added to the link, the stored settings and the
    state file stay as they were, a reconnect is scheduled if the daemon
    is running, and the next fan or pump request is answered "Not
    connected to device". *)
Theorem write_failure_reported (value : json) (s : Daemon) :
  connected s = true ->
  client s <> None ->
  next_ok (write_script s) = false ->
  exists s',
    connected s' = false /\
    link s' = link s /\
    same_store s s' /\
    reconnect_task s' = (running s || reconnect_task s) /\
    (in_range 0 100 value ->
     process_request (fan_request value) s
     = (inr (Report false false (fan_speed s) (pump_mode s)), s') /\
     process_request (fan_request value) s'
     = (inr (Failure "Not connected to device"), s')) /\
    (in_range 0 3 value ->
     process_request (pump_request value) s
     = (inr (Report false false (fan_speed s) (pump_mode s)), s') /\
     process_request (pump_request value) s'
     = (inr (Failure "Not connected to device"), s')).
Proof.
  intros Hco Hcl Hw.
  set (s' := exec _schedule_reconnect
               (set_connected false (set_write_script (tl (write_script s)) s))).
  assert (Hsend : forall who data, send_command who data s = (inr false, s')).
  { intros who data. subst s'. unfold send_command, bind, get, try_except, exec.
    open_daemon s. subst co. destruct cl as [a|]; [|congruence].
    destruct ws as [|[|] ws]; try discriminate. cbn.
    unfold write_gatt_char, _schedule_reconnect, modify, bind, get, ret. cbn.
    destruct ru; cbn; [destruct rt; cbn|]; reflexivity. }
  destruct (send_command_failure FromClient [] s Hco Hcl Hw)
    as (s0 & E0 & Hco' & Hrt & Hl & _ & Hst & _).
  rewrite Hsend in E0. injection E0 as <-.
  exists s'. repeat split; try apply Hst; trivial.
  - destruct (fan_request_sent [("cmd", JStr "fan"); ("value", value)] s eq_refl H Hco)
      as (frame & r & s1 & _ & E & Hreq).
    rewrite Hsend in E. injection E as <- <-.
    unfold fan_request. rewrite Hreq, Hco'.
    destruct Hst as (-> & -> & _). reflexivity.
  - now apply request_when_down.
  - destruct (pump_request_sent [("cmd", JStr "pump"); ("value", value)] s eq_refl H Hco)
      as (frame & r & s1 & _ & E & Hreq).
    rewrite Hsend in E. injection E as <- <-.
    unfold pump_request. rewrite Hreq, Hco'.
    destruct Hst as (-> & -> & _). reflexivity.
  - now apply request_when_down.
Qed.

Lemma write_failure_reported_witness :
  exists s',
    connected s' = false /\
    process_request (fan_request (JInt 40)) linked_flaky
    = (inr (Report false false (JInt 60) (JInt 0)), s').
Proof.
  destruct (write_failure_reported (JInt 40) linked_flaky)
    as (s' & Hco & _ & _ & _ & Hfan & _).
  - vm_compute. reflexivity.
  - vm_compute. discriminate.
  - vm_compute. reflexivity.
  - exists s'. split; [exact Hco|].
    destruct Hfan as (E & _); [exists 40; split; [reflexivity | lia]|].
    exact E.
Defined.

(** ** Scheduling a reconnect *)


(** X4. A reconnect request on a connected daemon changes nothing and
    reports the current settings; on a disconnected daemon it answers
    "Reconnection scheduled" at once, sets the reconnect task if the
    daemon is running and none is pending, touches nothing else, and
    asking again changes nothing more. *)
Theorem reconnect_request_idempotent (s : Daemon) :
  (connected s = true ->
   process_request reconnect_request s
   = (inr (Report true true (fan_speed s) (pump_mode s)), s))
  /\
  (connected s = false ->
   let s' := set_reconnect_task (running s || reconnect_task s) s in
   process_request reconnect_request s = (inr Scheduled, s') /\
   process_request reconnect_request s' = (inr Scheduled, s')).
Proof.
  split; intros Hco.
  - unfold reconnect_request. run_request. rewrite Hco. reflexivity.
  - assert (Hreq : forall d, connected d = false ->
               process_request reconnect_request d
               = (inr Scheduled, set_reconnect_task (running d || reconnect_task d) d)).
    { intros d Hd. unfold reconnect_request, process_request, py_get,
        _schedule_reconnect, bind, ret, get, modify.
      open_daemon d. subst co. destruct ru, rt; reflexivity. }
    cbn zeta. split; [now apply Hreq|].
    rewrite Hreq by exact Hco. f_equal.
    open_daemon s. destruct ru, rt; reflexivity.
Qed.

Lemma reconnect_request_idempotent_witness :
  process_request reconnect_request idle
  = (inr Scheduled, set_reconnect_task true idle).
Proof.
  destruct (reconnect_request_idempotent idle) as (_ & H).
  destruct H as (E & _); [reflexivity|]. exact E.
Defined.

(** X5. The disconnect callback leaves the daemon not connected, with no
    keepalive task and, if it is running, with a reconnect task; client,
    link log, settings, state file and backoff delay are untouched, and
    a second call changes nothing. *)
Theorem on_disconnect_effect (s : Daemon) :
  let s' := exec _on_disconnect s in
  connected s' = false /\
  keepalive_task s' = false /\
  reconnect_task s' = (running s || reconnect_task s) /\
  client s' = client s /\
  link s' = link s /\
  reconnect_delay s' = reconnect_delay s /\
  same_store s s' /\
  exec _on_disconnect s' = s'.
Proof.
  unfold exec, _on_disconnect, _stop_keepalive, _schedule_reconnect,
    same_store, bind, get, modify, ret.
  open_daemon s. destruct ru, rt; cbn; repeat split.
Qed.

(** ** What a request can and cannot do *)

Lemma str_is_eq (v : json) (literal : string) :
  str_is v literal = true -> v = JStr literal.
Proof.
  destruct v; try discriminate. cbn. intros H. apply String.eqb_eq in H. now subst.
Qed.

(** Every request that is a JSON object is answered, and it moves the
    daemon in a narrow way. *)
Lemma process_request_cases (kv : list (string * json)) (s : Daemon) :
  exists r s',
    process_request (JDict kv) s = (inr r, s') /\
    running s' = running s /\
    reconnect_delay s' = reconnect_delay s /\
    client s' = client s /\
    (connected s' = true -> connected s = true) /\
    (link s' = link s
     \/ (connected s = true /\
         exists frame,
           link s' = link s ++ [(FromClient, frame)] /\
           ((dict_get kv "cmd" (JStr "") = JStr "fan" /\
             in_range 0 100 (dict_get kv "value" JNull) /\
             Codec.fan_frame (dict_get kv "value" JNull) = inr frame)
            \/ (dict_get kv "cmd" (JStr "") = JStr "pump" /\
                in_range 0 3 (dict_get kv "value" JNull) /\
                Codec.pump_frame (dict_get kv "value" JNull) = inr frame)))).
Proof.
  assert (Hsame : forall r, process_request (JDict kv) s = (inr r, s) ->
            exists r0 s', process_request (JDict kv) s = (inr r0, s') /\
              running s' = running s /\ reconnect_delay s' = reconnect_delay s /\
              client s' = client s /\ (connected s' = true -> connected s = true) /\
              (link s' = link s
               \/ (connected s = true /\
                   exists frame,
                     link s' = link s ++ [(FromClient, frame)] /\
                     ((dict_get kv "cmd" (JStr "") = JStr "fan" /\
                       in_range 0 100 (dict_get kv "value" JNull) /\
                       Codec.fan_frame (dict_get kv "value" JNull) = inr frame)
                      \/ (dict_get kv "cmd" (JStr "") = JStr "pump" /\
                          in_range 0 3 (dict_get kv "value" JNull) /\
                          Codec.pump_frame (dict_get kv "value" JNull) = inr frame))))).
  { intros r E. exists r, s. repeat split; auto. }
  destruct (str_is (dict_get kv "cmd" (JStr "")) "status") eqn:Hstatus.
  { eapply Hsame. run_request. rewrite Hstatus. reflexivity. }
  destruct (str_is (dict_get kv "cmd" (JStr "")) "fan") eqn:Hfan.
  { pose proof (str_is_eq _ _ Hfan) as Hcmd.
    destruct (int_between 0 100 (dict_get kv "value" JNull)) eqn:Hval.
    2:{ eapply Hsame. run_request. rewrite Hstatus, Hfan. cbn. rewrite Hval. reflexivity. }
    destruct (connected s) eqn:Hco.
    2:{ eapply Hsame. run_request. rewrite Hstatus, Hfan. cbn. rewrite Hval. cbn.
        rewrite Hco. reflexivity. }
    pose proof Hval as Hin. apply int_between_spec in Hin.
    destruct (fan_request_sent kv s Hcmd Hin Hco) as (frame & r & s1 & Ef & E & Hreq).
    destruct (send_command_spec FromClient frame s)
      as (r' & s1' & E' & Hc & Hd & Hr & _ & _ & _ & Hup & Hnone).
    rewrite E in E'. injection E' as <- <-.
    destruct (save_state_fields (set_fan_speed (dict_get kv "value" JNull) s1))
      as (Hc2 & Hco2 & Hr2 & _ & _ & _ & _ & Hl2 & _).
    cbn zeta in *. cbn in Hc2, Hco2, Hr2, Hl2.
    assert (Hd2 : reconnect_delay
                    (exec _save_state (set_fan_speed (dict_get kv "value" JNull) s1))
                  = reconnect_delay s1).
    { unfold exec, _save_state. destruct (save_script _) as [|[| |] ?]; reflexivity. }
    rewrite Hreq. destruct r.
    - do 2 eexists. split; [reflexivity|]. repeat split; try congruence.
      destruct (client s) eqn:Hcl.
      + destruct Hup as [(_ & _ & Hl) | (Hr0 & _)]; trivial; try discriminate.
        right. split; [reflexivity|]. exists frame. split; [congruence|]. left. auto.
      + destruct Hnone as (Hr0 & _); trivial. discriminate.
    - do 2 eexists. split; [reflexivity|]. repeat split; try congruence.
      destruct (client s) eqn:Hcl.
      + destruct Hup as [(Hr0 & _) | (_ & _ & Hl)]; trivial; try discriminate. now left.
      + destruct Hnone as (_ & ->); trivial. now left. }
  destruct (str_is (dict_get kv "cmd" (JStr "")) "pump") eqn:Hpump.
  { pose proof (str_is_eq _ _ Hpump) as Hcmd.
    destruct (int_between 0 3 (dict_get kv "value" JNull)) eqn:Hval.
    2:{ eapply Hsame. run_request. rewrite Hstatus, Hfan, Hpump. cbn. rewrite Hval.
        reflexivity. }
    destruct (connected s) eqn:Hco.
    2:{ eapply Hsame. run_request. rewrite Hstatus, Hfan, Hpump. cbn. rewrite Hval. cbn.
        rewrite Hco. reflexivity. }
    pose proof Hval as Hin. apply int_between_spec in Hin.
    destruct (pump_request_sent kv s Hcmd Hin Hco) as (frame & r & s1 & Ef & E & Hreq).
    destruct (send_command_spec FromClient frame s)
      as (r' & s1' & E' & Hc & Hd & Hr & _ & _ & _ & Hup & Hnone).
    rewrite E in E'. injection E' as <- <-.
    destruct (save_state_fields (set_pump_mode (dict_get kv "value" JNull) s1))
      as (Hc2 & Hco2 & Hr2 & _ & _ & _ & _ & Hl2 & _).
    cbn zeta in *. cbn in Hc2, Hco2, Hr2, Hl2.
    assert (Hd2 : reconnect_delay
                    (exec _save_state (set_pump_mode (dict_get kv "value" JNull) s1))
                  = reconnect_delay s1).
    { unfold exec, _save_state. destruct (save_script _) as [|[| |] ?]; reflexivity. }
    rewrite Hreq. destruct r.
    - do 2 eexists. split; [reflexivity|]. repeat split; try congruence.
      destruct (client s) eqn:Hcl.
      + destruct Hup as [(_ & _ & Hl) | (Hr0 & _)]; trivial; try discriminate.
        right. split; [reflexivity|]. exists frame. split; [congruence|]. right. auto.
      + destruct Hnone as (Hr0 & _); trivial. discriminate.
    - do 2 eexists. split; [reflexivity|]. repeat split; try congruence.
      destruct (client s) eqn:Hcl.
      + destruct Hup as [(Hr0 & _) | (_ & _ & Hl)]; trivial; try discriminate. now left.
      + destruct Hnone as (_ & ->); trivial. now left. }
  destruct (str_is (dict_get kv "cmd" (JStr "")) "reconnect") eqn:Hrec.
  2:{ eapply Hsame. run_request. rewrite Hstatus, Hfan, Hpump, Hrec. reflexivity. }
  destruct (connected s) eqn:Hco.
  { eapply Hsame. run_request. rewrite Hstatus, Hfan, Hpump, Hrec, Hco. reflexivity. }
  exists Scheduled, (set_reconnect_task (running s || reconnect_task s) s).
  split.
  - unfold process_request, py_get, _schedule_reconnect, bind, ret, get, modify.
    rewrite Hstatus, Hfan, Hpump, Hrec, Hco.
    open_daemon s. destruct ru, rt; reflexivity.
  - repeat split; auto. cbn. congruence.
Qed.

Lemma py_bytes_length (vs : list json) (bs : list byte) :
  Codec.py_bytes vs = inr bs -> List.length bs = List.length vs.
Proof.
  revert bs. induction vs as [|v vs IH]; intros bs E; cbn in E.
  - injection E as <-. reflexivity.
  - destruct (Codec.byte_of v); [discriminate|].
    destruct (Codec.py_bytes vs) as [e|bs']; [discriminate|].
    injection E as <-. cbn. f_equal. now apply IH.
Qed.

Lemma answer_object (kv : list (string * json)) (s : Daemon) :
  answer (Parsed (JDict kv)) s = process_request (JDict kv) s.
Proof.
  destruct (process_request_cases kv s) as (r & s' & E & _).
  unfold answer, readline, json_loads, bind. unfold ret at 1. unfold ret at 1.
  rewrite E. reflexivity.
Qed.

(** X7. Whatever line a client sends, handling it never marks the daemon
    connected, never replaces the client, never stops the daemon and
    never moves the backoff delay; it adds nothing to the link, or --
    for a fan or pump request on a connected daemon -- exactly one
    eight-byte frame. *)
Theorem request_discipline (l : line) (s : Daemon) :
  let s' := exec (answer l) s in
  running s' = running s /\
  reconnect_delay s' = reconnect_delay s /\
  client s' = client s /\
  (connected s' = true -> connected s = true) /\
  (link s' = link s
   \/ (connected s = true /\ mutating l = true /\
       exists frame,
         link s' = link s ++ [(FromClient, frame)] /\ List.length frame = 8%nat)).
Proof.
  cbn zeta.
  assert (Hsame : exec (answer l) s = s ->
            running (exec (answer l) s) = running s /\
            reconnect_delay (exec (answer l) s) = reconnect_delay s /\
            client (exec (answer l) s) = client s /\
            (connected (exec (answer l) s) = true -> connected s = true) /\
            (link (exec (answer l) s) = link s
             \/ (connected s = true /\ mutating l = true /\
                 exists frame,
                   link (exec (answer l) s) = link s ++ [(FromClient, frame)] /\
                   List.length frame = 8%nat))).
  { intros ->. repeat split; auto. }
  destruct l as [| | | | |request]; try (apply Hsame; reflexivity).
  destruct request; try (apply Hsame; reflexivity).
  clear Hsame. unfold exec. rewrite answer_object.
  destruct (process_request_cases kv s) as (r & s' & E & Hr & Hd & Hc & Hco & Hl).
  rewrite E. cbn [snd]. repeat split; trivial.
  destruct Hl as [Hl | (Hcs & frame & Hl & Hkind)]; [now left|].
  right. split; [exact Hcs|]. split.
  - cbn. destruct Hkind as [(-> & _) | (-> & _)]; reflexivity.
  - exists frame. split; [exact Hl|].
    destruct Hkind as [(_ & _ & Ef) | (_ & _ & Ef)];
      apply py_bytes_length in Ef; exact Ef.
Qed.

(** X8. While the daemon is running, a client gets exactly one response
    for each line that is a JSON object, or a text within the limits
    that does not parse, in order, and the connection stays open until
    the client closes it.  The first line of any other kind -- over
    64 KiB, not UTF-8, holding an integer of more than 4300 digits,
    nested too deep, or a JSON text that is not an object -- ends the
    handler with an exception: that line and every line behind it go
    unanswered, and the daemon is as the lines before left it. *)
Theorem every_line_answered (lines : list line) (s : Daemon) :
  running s = true ->
  forallb answerable lines = true ->
  exists rs s',
    handle_client lines s = (rs, PeerClosed, s') /\
    List.length rs = List.length lines /\
    running s' = true /\
    forall l rest,
      answerable l = false ->
      handle_client (lines ++ l :: rest) s = (rs, Aborted (abort_reason l), s').
Proof.
  revert s. induction lines as [|l lines IH]; intros s Hrun Hall.
  - exists [], s. repeat split; trivial.
    intros l rest Hl. cbn [app handle_client]. rewrite Hrun. cbn [negb].
    destruct l as [| | | | |request]; try discriminate; try reflexivity.
    destruct request; try discriminate; reflexivity.
  - cbn [forallb] in Hall. apply andb_true_iff in Hall. destruct Hall as (Hl & Hall).
    assert (Hans : exists r s1, answer l s = (inr r, s1) /\ running s1 = true).
    { destruct l as [| | | | |request]; try discriminate.
      - exists (Failure "Invalid JSON"), s. split; [reflexivity | exact Hrun].
      - destruct request; try discriminate.
        destruct (process_request_cases kv s) as (r & s1 & E & Hr & _).
        exists r, s1. rewrite answer_object. split; [exact E | congruence]. }
    destruct Hans as (r & s1 & E & Hrun1).
    destruct (IH s1 Hrun1 Hall) as (rs & s' & Eh & Hlen & Hrun' & Hbad).
    exists (r :: rs), s'. cbn [handle_client]. rewrite Hrun. cbn [negb].
    rewrite E, Eh. repeat split; trivial.
    + cbn. now f_equal.
    + intros l' rest Hl'. cbn [app handle_client]. rewrite Hrun. cbn [negb].
      rewrite E, (Hbad l' rest Hl'). reflexivity.
Qed.

Lemma every_line_answered_witness :
  exists rs s',
    handle_client [Unparsable; Parsed status_request; Parsed (fan_request (JInt 30))] linked
    = (rs, PeerClosed, s') /\
    List.length rs = 3%nat /\
    handle_client [Unparsable; Parsed status_request; Parsed (fan_request (JInt 30));
                   Overlong; Parsed status_request] linked
    = (rs, Aborted ValueError, s').
Proof.
  destruct (every_line_answered
              [Unparsable; Parsed status_request; Parsed (fan_request (JInt 30))] linked)
    as (rs & s' & E & Hlen & _ & Hbad); [vm_compute; reflexivity ..|].
  exists rs, s'. split; [exact E|]. split; [exact Hlen|].
  apply (Hbad Overlong [Parsed status_request]). reflexivity.
Defined.

(** ** A connection attempt on a link that works *)






(** ** Backoff and stored settings on a sound state file *)



(** ** Selecting the device *)

(** X12. The selection loop returns the address of the first scanned
    device that matches the configured address or carries the device
    name; it returns nothing exactly when no scanned device does, and
    what it returns is always the address of a scanned device. *)
Theorem select_device_first_candidate (DEVICE_ADDRESS : string) (devices : list Device) :
  select_device DEVICE_ADDRESS devices
  = option_map address (find (candidate DEVICE_ADDRESS) devices)
  /\ (select_device DEVICE_ADDRESS devices = None <->
      forall d, In d devices -> candidate DEVICE_ADDRESS d = false)
  /\ (forall a, select_device DEVICE_ADDRESS devices = Some a ->
      exists d, In d devices /\ candidate DEVICE_ADDRESS d = true /\ address d = a).
Proof.
  assert (Hfind : select_device DEVICE_ADDRESS devices
                  = option_map address (find (candidate DEVICE_ADDRESS) devices)).
  { induction devices as [|d devices IH]; [reflexivity|].
    cbn [select_device find]. unfold candidate at 1.
    destruct (truthy DEVICE_ADDRESS
              && String.eqb (lower DEVICE_ADDRESS) (lower (address d))); [reflexivity|].
    cbn [orb]. destruct (name d) as [n|]; [|exact IH].
    destruct (truthy n && contains (lower DEVICE_NAME) (lower n)); [reflexivity | exact IH]. }
  split; [exact Hfind|]. rewrite Hfind. split; [split|].
  - intros H d Hin. destruct (find (candidate DEVICE_ADDRESS) devices) eqn:E; [discriminate|].
    now apply (find_none _ _ E).
  - intros H. destruct (find (candidate DEVICE_ADDRESS) devices) as [d|] eqn:E; [|reflexivity].
    apply find_some in E. destruct E as (Hin & Hc). rewrite (H d Hin) in Hc. discriminate.
  - intros a H. destruct (find (candidate DEVICE_ADDRESS) devices) as [d|] eqn:E;
      [|discriminate].
    apply find_some in E. destruct E as (Hin & Hc). injection H as <-. now exists d.
Qed.

Lemma lower_empty (s : string) : lower s = "" -> s = "".
Proof. destruct s; [reflexivity | discriminate]. Qed.

Lemma truthy_lower (a b : string) : lower a = lower b -> truthy a = truthy b.
Proof.
  intros H. unfold truthy. destruct a, b; try reflexivity; discriminate.
Qed.

(** X13. The letter case of the configured address does not matter: two
    configurations that are equal up to case select the same device
    from every scan. *)
Theorem configured_address_case_insensitive (a b : string) (devices : list Device) :
  lower a = lower b ->
  select_device a devices = select_device b devices.
Proof.
  intros H. induction devices as [|d devices IH]; [reflexivity|].
  cbn [select_device]. rewrite (truthy_lower a b H), H, IH. reflexivity.
Qed.

Lemma configured_address_case_insensitive_witness :
  select_device "aa:bb:cc:dd:ee:ff" (rev two_coolers)
  = select_device "AA:BB:CC:DD:EE:FF" (rev two_coolers).
Proof.
  apply (configured_address_case_insensitive
           "aa:bb:cc:dd:ee:ff" "AA:BB:CC:DD:EE:FF" (rev two_coolers)).
  reflexivity.
Defined.

(** ** Encoding a setting *)

Lemma py_bytes_frame (prefix suffix : list json) (v : json) (ps ss : list byte) :
  Codec.py_bytes prefix = inr ps ->
  Codec.py_bytes suffix = inr ss ->
  Codec.py_bytes (prefix ++ v :: suffix)
  = match Codec.byte_of v with
    | inl e => inl e
    | inr b => inr (ps ++ b :: ss)
    end.
Proof.
  revert ps. induction prefix as [|p prefix IH]; intros ps Hp Hs; cbn in *.
  - injection Hp as <-. rewrite Hs. destruct (Codec.byte_of v); reflexivity.
  - destruct (Codec.byte_of p); [discriminate|].
    destruct (Codec.py_bytes prefix) as [e|ps']; [discriminate|].
    injection Hp as <-. rewrite (IH ps' eq_refl Hs).
    destruct (Codec.byte_of v); reflexivity.
Qed.

Lemma byte_of_cases (v : json) :
  match as_int v with
  | None => Codec.byte_of v = inl TypeError
  | Some z =>
      if (0 <=? z) && (z <=? 255)
      then exists b, Codec.byte_of v = inr b /\ Byte.to_N b = Z.to_N z
      else Codec.byte_of v = inl ValueError
  end.
Proof.
  unfold Codec.byte_of. destruct (as_int v) as [z|]; [|reflexivity].
  destruct ((0 <=? z) && (z <=? 255)) eqn:Hr.
  - apply andb_true_iff in Hr. destruct Hr as (H0 & H1).
    apply Z.leb_le in H0. apply Z.leb_le in H1.
    replace ((0 <=? z) && (z <? 256)) with true
      by (symmetry; apply andb_true_iff; split; [apply Z.leb_le | apply Z.ltb_lt]; lia).
    destruct (Byte.of_N (Z.to_N z)) as [b|] eqn:E.
    + exists b. split; [reflexivity | now apply Byte.to_of_N].
    + apply Byte.of_N_None_iff in E. lia.
  - replace ((0 <=? z) && (z <? 256)) with false; [reflexivity|].
    symmetry. apply andb_false_iff. apply andb_false_iff in Hr.
    destruct Hr as [Hr | Hr]; [left; exact Hr | right].
    apply Z.leb_gt in Hr. apply Z.ltb_ge. lia.
Qed.

(** X14. Building a fan or pump frame raises TypeError for a value that
    is not an integer and ValueError for an integer outside 0..255; for
    every other value it yields the eight bytes with the value at its
    offset.  Two values that give the same frame are the same integer. *)
Theorem frame_encoding_total (v : json) :
  (as_int v = None ->
   Codec.fan_frame v = inl TypeError /\ Codec.pump_frame v = inl TypeError)
  /\
  (forall z, as_int v = Some z -> z < 0 \/ 255 < z ->
   Codec.fan_frame v = inl ValueError /\ Codec.pump_frame v = inl ValueError)
  /\
  (forall z, as_int v = Some z -> 0 <= z <= 255 ->
   exists b,
     Byte.to_N b = Z.to_N z /\
     Codec.fan_frame v = inr [xfe; x1b; x01; b; x00; x00; x00; xef] /\
     Codec.pump_frame v = inr [xfe; x1c; x01; x3c; b; x00; x00; xef])
  /\
  (forall w frame,
     (Codec.fan_frame v = inr frame /\ Codec.fan_frame w = inr frame)
     \/ (Codec.pump_frame v = inr frame /\ Codec.pump_frame w = inr frame) ->
     as_int v = as_int w).
Proof.
  assert (Hfan : forall u, Codec.fan_frame u
                 = match Codec.byte_of u with
                   | inl e => inl e
                   | inr b => inr ([xfe; x1b; x01] ++ b :: [x00; x00; x00; xef])
                   end).
  { intros u. apply (py_bytes_frame [JInt 254; JInt 27; JInt 1] [JInt 0; JInt 0; JInt 0; JInt 239]);
      reflexivity. }
  assert (Hpump : forall u, Codec.pump_frame u
                  = match Codec.byte_of u with
                    | inl e => inl e
                    | inr b => inr ([xfe; x1c; x01; x3c] ++ b :: [x00; x00; xef])
                    end).
  { intros u. apply (py_bytes_frame [JInt 254; JInt 28; JInt 1; JInt 60] [JInt 0; JInt 0; JInt 239]);
      reflexivity. }
  assert (Hinj : forall u w b, Codec.byte_of u = inr b -> Codec.byte_of w = inr b ->
                   as_int u = as_int w).
  { intros u w b Hu Hw.
    pose proof (byte_of_cases u) as Cu. pose proof (byte_of_cases w) as Cw.
    destruct (as_int u) as [zu|]; [|congruence].
    destruct (as_int w) as [zw|]; [|congruence].
    destruct ((0 <=? zu) && (zu <=? 255)) eqn:Ru; [|congruence].
    destruct ((0 <=? zw) && (zw <=? 255)) eqn:Rw; [|congruence].
    destruct Cu as (bu & Eu & Nu). destruct Cw as (bw & Ew & Nw).
    rewrite Hu in Eu. rewrite Hw in Ew. injection Eu as <-. injection Ew as <-.
    apply andb_true_iff in Ru. apply andb_true_iff in Rw.
    destruct Ru as (Ru & _). destruct Rw as (Rw & _).
    apply Z.leb_le in Ru. apply Z.leb_le in Rw.
    f_equal. apply Z2N.inj; trivial. congruence. }
  pose proof (byte_of_cases v) as Cv.
  split; [|split; [|split]].
  - intros Hn. rewrite Hn in Cv. rewrite Hfan, Hpump, Cv. split; reflexivity.
  - intros z Hz Hout. rewrite Hz in Cv.
    replace ((0 <=? z) && (z <=? 255)) with false in Cv.
    + rewrite Hfan, Hpump, Cv. split; reflexivity.
    + symmetry. apply andb_false_iff.
      destruct Hout; [left; apply Z.leb_gt | right; apply Z.leb_gt]; lia.
  - intros z Hz Hin. rewrite Hz in Cv.
    replace ((0 <=? z) && (z <=? 255)) with true in Cv
      by (symmetry; apply andb_true_iff; split; apply Z.leb_le; lia).
    destruct Cv as (b & Eb & Nb). exists b. rewrite Hfan, Hpump, Eb.
    repeat split; trivial.
  - intros w frame [(Ev & Ew) | (Ev & Ew)].
    + rewrite Hfan in Ev, Ew.
      destruct (Codec.byte_of v) as [|bv] eqn:Bv; [discriminate|].
      destruct (Codec.byte_of w) as [|bw] eqn:Bw; [discriminate|].
      rewrite <- Ew in Ev. injection Ev as ->. now apply (Hinj v w bw).
    + rewrite Hpump in Ev, Ew.
      destruct (Codec.byte_of v) as [|bv] eqn:Bv; [discriminate|].
      destruct (Codec.byte_of w) as [|bw] eqn:Bw; [discriminate|].
      rewrite <- Ew in Ev. injection Ev as ->. now apply (Hinj v w bw).
Qed.

Lemma frame_encoding_total_witness :
  Codec.fan_frame (JInt 256) = inl ValueError /\ Codec.pump_frame (JInt 256) = inl ValueError.
Proof.
  destruct (frame_encoding_total (JInt 256)) as (_ & H & _).
  apply (H 256); [reflexivity | lia].
Defined.

(** ** Keepalive *)

(** X15. A keepalive wake-up on a daemon that is not connected sends
    nothing and ends the task.  On a connected daemon it writes the sync
    frame and nothing else; if that write raises, the daemon is marked
    not connected, a reconnect is scheduled when the daemon is running,
    and the task ends. *)
Theorem keepalive_wake_effect (s : Daemon) :
  (connected s = false -> exec keepalive_wake s = set_keepalive_task false s)
  /\
  (connected s = true -> client s <> None -> next_ok (write_script s) = true ->
   link (exec keepalive_wake s) = link s ++ [(Keepalive, Codec.sync_frame)] /\
   connected (exec keepalive_wake s) = true /\
   keepalive_task (exec keepalive_wake s) = (running s && keepalive_task s) /\
   same_store s (exec keepalive_wake s))
  /\
  (connected s = true -> client s <> None -> next_ok (write_script s) = false ->
   link (exec keepalive_wake s) = link s /\
   connected (exec keepalive_wake s) = false /\
   keepalive_task (exec keepalive_wake s) = false /\
   reconnect_task (exec keepalive_wake s) = (running s || reconnect_task s) /\
   same_store s (exec keepalive_wake s)).
Proof.
  split; [|split].
  - intros Hco. unfold exec, keepalive_wake, bind, get, ret, modify.
    rewrite Hco. cbn. rewrite Hco, andb_false_r. reflexivity.
  - intros Hco Hcl Hw.
    destruct (send_command_success Keepalive Codec.sync_frame s Hco Hcl Hw)
      as (s1 & E & Hco1 & Hl1 & Hc1 & Hst1 & Hr1 & _ & Hk1 & _).
    assert (Ew : exec keepalive_wake s
                 = if running s1 && connected s1 then s1 else set_keepalive_task false s1).
    { unfold exec, keepalive_wake. unfold bind at 1, get at 1. rewrite Hco.
      unfold bind at 1. unfold bind at 1. rewrite E. unfold ret at 1.
      unfold bind, get, ret, modify.
      destruct (running s1 && connected s1); reflexivity. }
    rewrite Ew, Hco1, Hr1, andb_true_r.
    destruct (running s) eqn:Hr; cbn; repeat split; trivial; try apply Hst1.
  - intros Hco Hcl Hw.
    destruct (send_command_failure Keepalive Codec.sync_frame s Hco Hcl Hw)
      as (s1 & E & Hco1 & Hrt1 & Hl1 & Hc1 & Hst1 & Hr1 & _).
    assert (Ew : exec keepalive_wake s = set_keepalive_task false s1).
    { unfold exec, keepalive_wake. unfold bind at 1, get at 1. rewrite Hco.
      unfold bind at 1. unfold bind at 1. rewrite E. unfold ret at 1.
      unfold bind, get, ret, modify. rewrite Hco1, andb_false_r. reflexivity. }
    rewrite Ew. cbn. repeat split; trivial; apply Hst1.
Qed.

Lemma keepalive_wake_effect_witness :
  link (exec keepalive_wake linked) = link linked ++ [(Keepalive, Codec.sync_frame)].
Proof.
  destruct (keepalive_wake_effect linked) as (_ & H & _).
  assert (Hco : connected linked = true) by (vm_compute; reflexivity).
  assert (Hcl : client linked <> None) by (vm_compute; discriminate).
  assert (Hw : next_ok (write_script linked) = true) by (vm_compute; reflexivity).
  destruct (H Hco Hcl Hw) as (Hl & _). exact Hl.
Defined.

(** ** The reconnect loop and an attempt that returns True *)

Lemma all_ok_firstn_add (n m : nat) (script : list bool) :
  all_ok (firstn (n + m) script)
  = all_ok (firstn n script) && all_ok (firstn m (skipn n script)).
Proof.
  revert script. induction n as [|n IH]; intros script; [reflexivity|].
  destruct script as [|b script]; cbn.
  - rewrite firstn_nil. reflexivity.
  - unfold all_ok in *. cbn. rewrite IH, andb_assoc. reflexivity.
Qed.

(** The sends of [init_device] from a connected daemon, by the scripted
    outcomes of the writes: all succeed and the daemon is still
    connected, or one fails and the daemon is not. *)
Lemma handshake_run_script (frames : list (list byte)) (rest : list Segment) (s : Daemon) :
  client s <> None ->
  connected s = true ->
  exists s1,
    run_segments (map handshake_segment frames ++ rest) s = run_segments rest s1 /\
    client s1 = client s /\
    running s1 = running s /\
    same_store s s1 /\
    ((all_ok (firstn (List.length frames) (write_script s)) = true /\
      connected s1 = true /\
      write_script s1 = skipn (List.length frames) (write_script s))
     \/ (all_ok (firstn (List.length frames) (write_script s)) = false /\
         connected s1 = false)).
Proof.
  revert s. induction frames as [|f frames IH]; intros s Hcl Hco.
  - exists s. cbn. repeat split. left. repeat split. exact Hco.
  - destruct (next_ok (write_script s)) eqn:Hw.
    + destruct (send_command_success Handshake f s Hco Hcl Hw)
        as (s0 & E & Hco0 & _ & Hcl0 & Hst0 & Hr0 & _ & _ & _ & Hw0).
      destruct (IH s0) as (s1 & E1 & Hcl1 & Hr1 & Hst1 & Hcases);
        [rewrite Hcl0; exact Hcl | exact Hco0 |].
      exists s1. split.
      { cbn [map app]. unfold handshake_segment at 1.
        rewrite (run_going _ _ s s0); [exact E1|].
        unfold bind, ret. rewrite E. reflexivity. }
      split; [congruence|]. split; [congruence|].
      split; [eapply same_store_trans; eassumption|].
      rewrite Hw0 in Hcases.
      destruct (write_script s) as [|[|] ws]; try discriminate; cbn in *.
      * rewrite firstn_nil, skipn_nil in Hcases. exact Hcases.
      * exact Hcases.
    + destruct (send_command_failure Handshake f s Hco Hcl Hw)
        as (s0 & E & Hco0 & _ & _ & Hcl0 & Hst0 & Hr0 & _).
      destruct (handshake_run frames rest s0) as (s1 & k & E1 & _ & _ & _ & _ & _ & Hdown);
        [rewrite Hcl0; exact Hcl|].
      rewrite (Hdown Hco0) in E1.
      exists s0. split.
      { cbn [map app]. unfold handshake_segment at 1.
        rewrite (run_going _ _ s s0); [exact E1|].
        unfold bind, ret. rewrite E. reflexivity. }
      repeat split; trivial; try apply Hst0. right. split; [|exact Hco0].
      destruct (write_script s) as [|[|] ws]; try discriminate. reflexivity.
Qed.

(** The resync of [connect_ble] by the scripted outcomes of its two
    writes. *)
Lemma resync_run_script (s : Daemon) (ff pf : list byte) :
  client s <> None ->
  Codec.fan_frame (fan_speed s) = inr ff ->
  Codec.pump_frame (pump_mode s) = inr pf ->
  exists s',
    run_segments [resync_fan; resync_pump_and_finish] s = (inr true, s') /\
    client s' = client s /\
    running s' = running s /\
    same_store s s' /\
    (connected s' = true ->
     connected s = true /\ all_ok (firstn 2 (write_script s)) = true).
Proof.
  intros Hcl Ef Ep.
  assert (Hsend : forall who data t,
            client t <> None ->
            exists r t',
              send_command who data t = (inr r, t') /\
              client t' = client t /\ running t' = running t /\ same_store t t' /\
              (connected t' = true ->
               connected t = true /\ r = true /\ next_ok (write_script t) = true /\
               write_script t' = tl (write_script t)) /\
              (r = true -> connected t' = true)).
  { intros who data t Ht. destruct (connected t) eqn:Hco.
    - destruct (next_ok (write_script t)) eqn:Hw.
      + destruct (send_command_success who data t Hco Ht Hw)
          as (t' & E & Hco' & _ & Hc' & Hst' & Hr' & _ & _ & _ & Hw').
        exists true, t'. repeat split; trivial; apply Hst'.
      + destruct (send_command_failure who data t Hco Ht Hw)
          as (t' & E & Hco' & _ & _ & Hc' & Hst' & Hr' & _).
        exists false, t'. repeat split; trivial; try apply Hst'; congruence.
    - destruct (send_command_spec who data t) as (r & t' & E & _ & _ & _ & _ & _ & Hd & _).
      destruct (Hd Hco) as (-> & ->).
      exists false, t. repeat split; trivial; congruence. }
  destruct (Hsend Resync ff s Hcl) as (r1 & s1 & E1 & Hc1 & Hr1 & Hst1 & Hup1 & Hok1).
  set (s2 := if r1 then set_fan_speed (fan_speed s) s1 else s1).
  assert (H2 : client s2 = client s /\ running s2 = running s /\ same_store s s2 /\
               connected s2 = connected s1 /\ write_script s2 = write_script s1).
  { unfold same_store in *. subst s2. destruct r1; cbn; intuition congruence. }
  destruct H2 as (Hc2 & Hr2 & Hst2 & Hco2 & Hw2).
  assert (Ep2 : Codec.pump_frame (pump_mode s2) = inr pf).
  { replace (pump_mode s2) with (pump_mode s); [exact Ep|]. symmetry. apply Hst2. }
  destruct (Hsend Resync pf s2) as (r3 & s3 & E3 & Hc3 & Hr3 & Hst3 & Hup3 & Hok3);
    [rewrite Hc2; exact Hcl|].
  set (s4 := if r3 then set_pump_mode (pump_mode s2) s3 else s3).
  assert (H4 : client s4 = client s /\ running s4 = running s /\ same_store s s4 /\
               connected s4 = connected s3).
  { unfold same_store in *. subst s4. destruct r3; cbn; intuition congruence. }
  destruct H4 as (Hc4 & Hr4 & Hst4 & Hco4).
  exists (exec _start_keepalive s4). split.
  { assert (A : resync_fan s = (inr None, s2)).
    { unfold resync_fan, going, bind, get.
      rewrite (send_fan_speed_run _ _ _ _ _ _ Ef E1). reflexivity. }
    assert (B : resync_pump_and_finish s2 = (inr (Some true), exec _start_keepalive s4)).
    { unfold resync_pump_and_finish, bind, get.
      rewrite (send_pump_mode_run _ _ _ _ _ _ Ep2 E3). fold s4.
      unfold exec, _start_keepalive, bind, get, modify, ret.
      destruct (keepalive_task s4); reflexivity. }
    cbn [run_segments]. unfold bind at 1. rewrite A.
    unfold bind at 1. rewrite B. reflexivity. }
  assert (Hk : forall t, client (exec _start_keepalive t) = client t /\
                         running (exec _start_keepalive t) = running t /\
                         same_store t (exec _start_keepalive t) /\
                         connected (exec _start_keepalive t) = connected t).
  { intros t. unfold exec, _start_keepalive, bind, get, modify, ret, same_store.
    destruct (keepalive_task t); cbn; repeat split. }
  destruct (Hk s4) as (Hc5 & Hr5 & Hst5 & Hco5).
  split; [congruence|]. split; [congruence|].
  split; [eapply same_store_trans; eassumption|].
  intros Hup. rewrite Hco5, Hco4 in Hup.
  destruct (Hup3 Hup) as (Hco2' & _ & Hw3 & _).
  rewrite Hco2 in Hco2'. destruct (Hup1 Hco2') as (Hco0 & _ & Hw1 & Hw1').
  split; [exact Hco0|].
  rewrite Hw2, Hw1' in Hw3.
  destruct (write_script s) as [|[|] [|[|] ws]]; try discriminate; reflexivity.
Qed.

(** X16. The reconnect task can end with the link down and nothing
    pending.  When the scan finds the cooler, [connect] and
    [start_notify] return and the stored settings fit a frame, but one
    of the eleven link writes of the attempt raises, [connect_ble] still
    returns True: the loop breaks after this one attempt and the task is
    done, leaving a running daemon that is not connected and has no
    reconnect task, its state store untouched. *)
Theorem reconnect_can_strand
        (DEVICE_ADDRESS : string) (env : ConnEnv) (envs : list ConnEnv)
        (devices : list Device) (a : string) (ff pf : list byte) (s : Daemon) :
  running s = true ->
  connected s = false ->
  scan env = Some devices ->
  select_device DEVICE_ADDRESS devices = Some a ->
  truthy a = true ->
  connect_ok env = true ->
  notify_ok env = true ->
  Codec.fan_frame (fan_speed s) = inr ff ->
  Codec.pump_frame (pump_mode s) = inr pf ->
  all_ok (firstn 11 (write_script s)) = false ->
  exists s',
    reconnect DEVICE_ADDRESS (env :: envs) s = (inr [reconnect_delay s], s') /\
    running s' = true /\
    connected s' = false /\
    reconnect_task s' = false /\
    client s' = Some a /\
    same_store s s'.
Proof.
  intros Hrun Hdown Hscan Hsel Ha Hc Hn Ef Ep Hw.
  assert (Hconn : exists s1,
            connect_ble DEVICE_ADDRESS env s = (inr true, s1) /\
            running s1 = true /\ connected s1 = false /\ client s1 = Some a /\
            same_store s s1).
  { unfold connect_ble, connect_segments, try_except.
    rewrite Hscan, Hsel, Ha, Hc. cbn [negb].
    set (s0 := set_link [] (set_client (Some a) s)).
    rewrite (run_going _ _ s s0) by reflexivity.
    rewrite (run_going _ _ s0 s0) by reflexivity.
    unfold init_device_segments.
    change Codec.init_sequence
      with (hd [] Codec.init_sequence :: tl Codec.init_sequence) at 1.
    cbn [map].
    set (s1 := set_reconnect_delay RECONNECT_MIN_DELAY (set_connected true s0)).
    change (prepend (mark_connected env)
              (handshake_segment (hd [] Codec.init_sequence)
               :: map handshake_segment (tl Codec.init_sequence))
            ++ [resync_fan; resync_pump_and_finish])
      with (prepend (mark_connected env)
              (handshake_segment (hd [] Codec.init_sequence)
               :: map handshake_segment (tl Codec.init_sequence)
                  ++ [resync_fan; resync_pump_and_finish])).
    rewrite (run_prepend _ _ _ s0 s1)
      by (unfold mark_connected, transport_call, bind; rewrite Hn; reflexivity).
    change (handshake_segment (hd [] Codec.init_sequence)
            :: map handshake_segment (tl Codec.init_sequence)
               ++ [resync_fan; resync_pump_and_finish])
      with (map handshake_segment Codec.init_sequence
            ++ [resync_fan; resync_pump_and_finish]).
    destruct (handshake_run_script Codec.init_sequence
                [resync_fan; resync_pump_and_finish] s1)
      as (s2 & E2 & Hcl2 & Hr2 & Hst2 & Hcases); [discriminate | reflexivity |].
    rewrite E2.
    assert (Hst02 : same_store s s2).
    { unfold same_store in *. subst s1 s0. cbn in Hst2. exact Hst2. }
    destruct (resync_run_script s2 ff pf) as (s3 & E3 & Hcl3 & Hr3 & Hst3 & Hup3).
    { rewrite Hcl2. discriminate. }
    { replace (fan_speed s2) with (fan_speed s) by (symmetry; apply Hst02). exact Ef. }
    { replace (pump_mode s2) with (pump_mode s) by (symmetry; apply Hst02). exact Ep. }
    rewrite E3. exists s3. split; [reflexivity|].
    split; [rewrite Hr3, Hr2; exact Hrun|].
    split; [|split; [rewrite Hcl3, Hcl2; reflexivity
                    | eapply same_store_trans; eassumption]].
    destruct (connected s3) eqn:Hco3; [exfalso | reflexivity].
    destruct (Hup3 eq_refl) as (Hco2 & Hw2).
    destruct Hcases as [(Hw9 & _ & Hs2) | (_ & Hco2')]; [|congruence].
    change (write_script s1) with (write_script s) in Hw9, Hs2.
    change (List.length Codec.init_sequence) with 9%nat in Hw9, Hs2.
    change 11%nat with (9 + 2)%nat in Hw.
    rewrite all_ok_firstn_add, Hw9, <- Hs2, Hw2 in Hw. discriminate. }
  destruct Hconn as (s1 & E & Hr1 & Hco1 & Hcl1 & Hst1).
  exists (set_reconnect_task false s1). split.
  - cbn [reconnect]. unfold bind at 1, get.
    rewrite Hrun, Hdown. cbn [negb andb]. unfold bind at 1. rewrite E. reflexivity.
  - repeat split; trivial; apply Hst1.
Qed.

Lemma reconnect_can_strand_witness :
  exists s',
    reconnect "" [cooler_found; cooler_found; cooler_found] flaky_start = (inr [1], s') /\
    running s' = true /\ connected s' = false /\ reconnect_task s' = false.
Proof.
  destruct (reconnect_can_strand "" cooler_found [cooler_found; cooler_found]
              [mkDevice "11:22:33:44:55:66" (Some "LPP CoolingSystem")]
              "11:22:33:44:55:66"
              [xfe; x1b; x01; x3c; x00; x00; x00; xef]
              [xfe; x1c; x01; x3c; x00; x00; x00; xef]
              flaky_start)
    as (s' & E & Hr & Hc & Ht & _); try reflexivity.
  exists s'. repeat split; assumption.
Defined.

(** ** Start-up *)

(** X17. Whatever the state file holds, the daemon starts not connected,
    with no client, no task, an empty link log and the backoff delay at
    its floor, and loading leaves the file as it is.  The settings are
    60 and 0 (High) unless the file is a JSON object; then each of the
    keys "fan" and "pump" that is present replaces its default and a
    missing key keeps it.  The first status request reports these
    settings with connected=false. *)
Theorem startup_state (f : file) (writes : list bool) (saves : list save_outcome) :
  let d := LPPDaemon f writes saves in
  connected d = false /\ client d = None /\ running d = true /\
  reconnect_task d = false /\ keepalive_task d = false /\
  link d = [] /\ reconnect_delay d = RECONNECT_MIN_DELAY /\ disk d = f /\
  match f with
  | Stored (JDict kv) =>
      fan_speed d = dict_get kv "fan" (JInt 60) /\
      pump_mode d = dict_get kv "pump" (JInt 0)
  | _ => fan_speed d = JInt 60 /\ pump_mode d = JInt 0
  end /\
  process_request status_request d
  = (inr (Report true false (fan_speed d) (pump_mode d)), d).
Proof.
  cbn zeta. destruct f as [| |content]; try (repeat split; reflexivity).
  destruct content; repeat split; reflexivity.
Qed.









(** * The bundled client against the daemon *)

Lemma fan_request_outcomes (speed : json) (d : Daemon) :
  exists r d',
    process_request (fan_request speed) d = (inr r, d') /\
    running d' = running d /\
    ((r = Failure "Fan value must be 0-100" /\ d' = d /\ ~ in_range 0 100 speed)
     \/ (r = Failure "Not connected to device" /\ d' = d /\ in_range 0 100 speed)
     \/ (exists c, r = Report false c (fan_speed d) (pump_mode d) /\ same_store d d')
     \/ (r = Report true true speed (pump_mode d) /\
         fan_speed d' = speed /\ pump_mode d' = pump_mode d /\
         connected d' = true /\ in_range 0 100 speed)).
Proof.
  destruct (int_between 0 100 speed) eqn:Hval.
  2:{ exists (Failure "Fan value must be 0-100"), d. split; [|split; [reflexivity | left]].
      - unfold fan_request. run_request. rewrite Hval. reflexivity.
      - repeat split. intros H. apply int_between_spec in H. congruence. }
  pose proof Hval as Hin. apply int_between_spec in Hin.
  destruct (connected d) eqn:Hco.
  2:{ exists (Failure "Not connected to device"), d.
      split; [|split; [reflexivity | right; now left]].
      unfold fan_request. run_request. rewrite Hval. cbn. rewrite Hco. reflexivity. }
  destruct (fan_request_sent [("cmd", JStr "fan"); ("value", speed)] d eq_refl Hin Hco)
    as (frame & r & s1 & Ef & E & Hreq).
  cbn [dict_get String.eqb Ascii.eqb Bool.eqb] in *.
  destruct (send_command_spec FromClient frame d)
    as (r' & s1' & E' & _ & _ & Hr & _ & Hst & _ & Hup & Hnone).
  rewrite E in E'. injection E' as <- <-.
  unfold fan_request. rewrite Hreq. destruct r.
  - destruct (save_state_fields (set_fan_speed speed s1))
      as (_ & Hco2 & Hr2 & _ & _ & Hf2 & Hp2 & _).
    cbn zeta in *. cbn in Hco2, Hr2, Hf2, Hp2.
    assert (Hco1 : connected s1 = true).
    { destruct (client d) eqn:Hcl.
      - destruct Hup as [(_ & H & _) | (H & _)]; trivial; discriminate.
      - destruct Hnone as (H & _); trivial. discriminate. }
    do 2 eexists. split; [reflexivity|]. split; [congruence|].
    right. right. right. rewrite Hco1. destruct Hst as (_ & Hp & _). rewrite Hp.
    repeat split; trivial; congruence.
  - do 2 eexists. split; [reflexivity|]. split; [exact Hr|].
    right. right. left. exists (connected s1).
    destruct Hst as (Hf & Hp & Hrest). rewrite Hf, Hp. split; [reflexivity|].
    unfold same_store. tauto.
Qed.

Lemma pump_request_outcomes (mode : json) (d : Daemon) :
  exists r d',
    process_request (pump_request mode) d = (inr r, d') /\
    running d' = running d /\
    ((r = Failure "Pump mode must be 0-3" /\ d' = d /\ ~ in_range 0 3 mode)
     \/ (r = Failure "Not connected to device" /\ d' = d /\ in_range 0 3 mode)
     \/ (exists c, r = Report false c (fan_speed d) (pump_mode d) /\ same_store d d')
     \/ (r = Report true true (fan_speed d) mode /\
         pump_mode d' = mode /\ fan_speed d' = fan_speed d /\
         connected d' = true /\ in_range 0 3 mode)).
Proof.
  destruct (int_between 0 3 mode) eqn:Hval.
  2:{ exists (Failure "Pump mode must be 0-3"), d. split; [|split; [reflexivity | left]].
      - unfold pump_request. run_request. rewrite Hval. reflexivity.
      - repeat split. intros H. apply int_between_spec in H. congruence. }
  pose proof Hval as Hin. apply int_between_spec in Hin.
  destruct (connected d) eqn:Hco.
  2:{ exists (Failure "Not connected to device"), d.
      split; [|split; [reflexivity | right; now left]].
      unfold pump_request. run_request. rewrite Hval. cbn. rewrite Hco. reflexivity. }
  destruct (pump_request_sent [("cmd", JStr "pump"); ("value", mode)] d eq_refl Hin Hco)
    as (frame & r & s1 & Ef & E & Hreq).
  cbn [dict_get String.eqb Ascii.eqb Bool.eqb] in *.
  destruct (send_command_spec FromClient frame d)
    as (r' & s1' & E' & _ & _ & Hr & _ & Hst & _ & Hup & Hnone).
  rewrite E in E'. injection E' as <- <-.
  unfold pump_request. rewrite Hreq. destruct r.
  - destruct (save_state_fields (set_pump_mode mode s1))
      as (_ & Hco2 & Hr2 & _ & _ & Hf2 & Hp2 & _).
    cbn zeta in *. cbn in Hco2, Hr2, Hf2, Hp2.
    assert (Hco1 : connected s1 = true).
    { destruct (client d) eqn:Hcl.
      - destruct Hup as [(_ & H & _) | (H & _)]; trivial; discriminate.
      - destruct Hnone as (H & _); trivial. discriminate. }
    do 2 eexists. split; [reflexivity|]. split; [congruence|].
    right. right. right. rewrite Hco1. destruct Hst as (Hf & _). rewrite Hf.
    repeat split; trivial; congruence.
  - do 2 eexists. split; [reflexivity|]. split; [exact Hr|].
    right. right. left. exists (connected s1).
    destruct Hst as (Hf & Hp & Hrest). rewrite Hf, Hp. split; [reflexivity|].
    unfold same_store. tauto.
Qed.

(** One line from the client, as the handler of its connection sees it. *)
Lemma handle_one (kv : list (string * json)) (d d' : Daemon) (r : response) :
  process_request (JDict kv) d = (inr r, d') ->
  handle_client [Parsed (JDict kv)] d
  = if running d then ([r], PeerClosed, d') else ([], PeerClosed, d).
Proof.
  intros E. cbn [handle_client]. destruct (running d); cbn [negb]; [|reflexivity].
  rewrite answer_object, E. reflexivity.
Qed.

Lemma status_request_run (d : Daemon) :
  process_request status_request d
  = (inr (Report true (connected d) (fan_speed d) (pump_mode d)), d).
Proof. unfold status_request. run_request. reflexivity. Qed.




(** X21. Asking for the status never changes the daemon: a client with
    a socket gets ok=true with the daemon's connection flag and stored
    fan and pump values and keeps its socket, and daemon_running answers
    true exactly when the socket accepts and the daemon's handler loop is
    running; on a daemon that has stopped it answers false however the
    socket behaves. *)
Theorem status_probe (listening : bool) (w : Client.wire) (c : Client.LPPClient) (d : Daemon) :
  Client.daemon_running listening Client.Works d = (listening && running d, d)
  /\
  (running d = false -> Client.daemon_running listening w d = (false, d))
  /\
  (Client.sock c = true -> running d = true ->
   Client.get_status Client.Works c d
   = (Client.Answer (Report true (connected d) (fan_speed d) (pump_mode d)), c, d)).
Proof.
  pose proof (handle_one _ d d _ (status_request_run d)) as Hh.
  unfold status_request in Hh.
  repeat split.
  - unfold Client.daemon_running, Client.connect, Client.get_status, Client._send_request.
    cbn [Client.sock]. destruct listening; cbn [Client.sock negb andb]; [|reflexivity].
    rewrite Hh. destruct (running d); reflexivity.
  - intros Hr.
    unfold Client.daemon_running, Client.connect, Client.get_status, Client._send_request.
    cbn [Client.sock]. destruct listening; cbn [Client.sock negb andb]; [|reflexivity].
    rewrite Hh, Hr. destruct w; reflexivity.
  - intros Hs Hr. unfold Client.get_status, Client._send_request.
    rewrite Hs, Hh, Hr. reflexivity.
Qed.

Lemma status_probe_witness :
  Client.get_status Client.Works (Client.mkClient true) linked
  = (Client.Answer (Report true true (JInt 60) (JInt 0)), Client.mkClient true, linked)
  /\ Client.daemon_running true (Client.RecvFails "timed out") stopped = (false, stopped).
Proof.
  destruct (status_probe true (Client.RecvFails "timed out") (Client.mkClient true) linked)
    as (_ & _ & Hget).
  destruct (status_probe true (Client.RecvFails "timed out") (Client.mkClient true) stopped)
    as (_ & Hstop & _).
  split.
  - apply Hget; reflexivity.
  - apply Hstop. reflexivity.
Defined.



(** X23. The values the panel sends are values the daemon accepts.  From
    a slider value in [0,100] the fan-up and fan-down keys give a value
    in [0,100] again, and the slider handler's request for any such
    value, like the request of each of the four pump buttons, is never
    answered with the range error: when the answer has ok=true the
    daemon stores the value sent, and a daemon without a cooler answers
    "Not connected to device" and changes nothing.  While the panel
    believes the daemon is away the handlers send nothing. *)
Theorem panel_values_accepted
        (value : Z) (c : Client.LPPClient) (d : Daemon) :
  0 <= value <= 100 ->
  Client.sock c = true ->
  running d = true ->
  0 <= TUI.action_fan_up value <= 100 /\
  0 <= TUI.action_fan_down value <= 100 /\
  (exists r d',
     TUI.on_fan_slider_changed value true Client.Works c d
     = (Some (Client.Answer r), c, d') /\
     r <> Failure "Fan value must be 0-100" /\
     (ok_field r = true -> fan_speed d' = JInt value) /\
     (connected d = false -> r = Failure "Not connected to device" /\ d' = d)) /\
  (forall h, In h TUI.pump_handlers ->
     exists mode r d',
       h true Client.Works c d = (Some (Client.Answer r), c, d') /\
       r <> Failure "Pump mode must be 0-3" /\
       (ok_field r = true -> pump_mode d' = JInt mode) /\
       (connected d = false -> r = Failure "Not connected to device" /\ d' = d)) /\
  (forall w,
     TUI.on_fan_slider_changed value false w c d = (None, c, d) /\
     forall h, In h TUI.pump_handlers -> h false w c d = (None, c, d)).
Proof.
  intros Hv Hs Hr.
  assert (Hpump : forall mode, 0 <= mode <= 3 ->
            exists r d',
              TUI._set_pump mode true Client.Works c d = (Some (Client.Answer r), c, d') /\
              r <> Failure "Pump mode must be 0-3" /\
              (ok_field r = true -> pump_mode d' = JInt mode) /\
              (connected d = false -> r = Failure "Not connected to device" /\ d' = d)).
  { intros mode Hmode.
    assert (Hin : in_range 0 3 (JInt mode)) by (exists mode; split; [reflexivity | lia]).
    destruct (pump_request_outcomes (JInt mode) d) as (r & d1 & Ep & Hrun & Hcases).
    pose proof (handle_one _ _ _ _ Ep) as Hh. unfold pump_request in Hh.
    exists r, d1. unfold TUI._set_pump, Client.set_pump, Client._send_request.
    rewrite Hs, Hh, Hr. cbn [negb]. split; [reflexivity|].
    destruct Hcases as [(-> & -> & Hn) | [(-> & -> & _) | [(cn & -> & Hst) | (-> & Hp & Hf & Hco & _)]]].
    - contradiction.
    - split; [discriminate|]. split; [discriminate|]. intros _. split; reflexivity.
    - split; [discriminate|]. split; [discriminate|]. intros Hco.
      destruct (request_when_down (JInt mode) d Hco) as (_ & Hdown).
      rewrite (Hdown Hin) in Ep. discriminate.
    - split; [discriminate|]. split; [intros _; exact Hp|]. intros Hco0.
      destruct (request_when_down (JInt mode) d Hco0) as (_ & Hdown).
      rewrite (Hdown Hin) in Ep. discriminate. }
  split; [unfold TUI.action_fan_up; lia|].
  split; [unfold TUI.action_fan_down; lia|].
  split; [|split].
  - assert (Hin : in_range 0 100 (JInt value)) by (exists value; split; [reflexivity | lia]).
    destruct (fan_request_outcomes (JInt value) d) as (r & d1 & Ep & Hrun & Hcases).
    pose proof (handle_one _ _ _ _ Ep) as Hh. unfold fan_request in Hh.
    exists r, d1. unfold TUI.on_fan_slider_changed, Client.set_fan, Client._send_request.
    rewrite Hs, Hh, Hr. cbn [negb]. split; [reflexivity|].
    destruct Hcases as [(-> & -> & Hn) | [(-> & -> & _) | [(cn & -> & Hst) | (-> & Hf & Hp & Hco & _)]]].
    + contradiction.
    + split; [discriminate|]. split; [discriminate|]. intros _. split; reflexivity.
    + split; [discriminate|]. split; [discriminate|]. intros Hco.
      destruct (request_when_down (JInt value) d Hco) as (Hdown & _).
      rewrite (Hdown Hin) in Ep. discriminate.
    + split; [discriminate|]. split; [intros _; exact Hf|]. intros Hco0.
      destruct (request_when_down (JInt value) d Hco0) as (Hdown & _).
      rewrite (Hdown Hin) in Ep. discriminate.
  - intros h Hh. unfold TUI.pump_handlers in Hh. cbn [In] in Hh.
    destruct Hh as [<- | [<- | [<- | [<- | []]]]].
    + exists 0. apply Hpump. lia.
    + exists 1. apply Hpump. lia.
    + exists 2. apply Hpump. lia.
    + exists 3. apply Hpump. lia.
  - intros w. split; [reflexivity|].
    intros h Hh. unfold TUI.pump_handlers in Hh. cbn [In] in Hh.
    destruct Hh as [<- | [<- | [<- | [<- | []]]]]; reflexivity.
Qed.

Lemma panel_values_accepted_witness :
  0 <= TUI.action_fan_up 98 <= 100 /\ 0 <= TUI.action_fan_down 3 <= 100.
Proof.
  destruct (panel_values_accepted 98 (Client.mkClient true) linked) as (Hup & _);
    [lia | reflexivity | reflexivity |].
  destruct (panel_values_accepted 3 (Client.mkClient true) linked) as (_ & Hdown & _);
    [lia | reflexivity | reflexivity |].
  split; assumption.
Defined.

(** * The daemon with its tasks interleaved *)

(** ** The coroutines cut at their suspensions, run without a break *)

Lemma hand_over_spec (who : origin) (data : list byte) (s : Daemon) :
  exists p s',
    hand_over who data s = (inr p, s') /\
    client s' = client s /\
    connected s' = connected s /\
    running s' = running s /\
    reconnect_delay s' = reconnect_delay s /\
    reconnect_task s' = reconnect_task s /\
    keepalive_task s' = keepalive_task s /\
    same_store s s' /\
    match p with
    | Skipped => s' = s /\ (connected s = false \/ client s = None)
    | Pending true =>
        connected s = true /\ client s <> None /\ link s' = link s ++ [(who, data)]
    | Pending false =>
        connected s = true /\ client s <> None /\ link s' = link s
    end.
Proof.
  unfold hand_over, write_gatt_char, same_store, bind, get, ret.
  open_daemon s. destruct co; cbn.
  - destruct cl as [a|]; cbn.
    + destruct ws as [|[|] ws]; cbn;
        (do 2 eexists; split; [reflexivity|]; cbn; intuition (try discriminate)).
    + do 2 eexists. split; [reflexivity|]. cbn. intuition.
  - do 2 eexists. split; [reflexivity|]. cbn. intuition.
Qed.

Lemma settle_spec (ok : bool) (s : Daemon) :
  exists s',
    settle ok s = (inr ok, s') /\
    client s' = client s /\
    link s' = link s /\
    running s' = running s /\
    reconnect_delay s' = reconnect_delay s /\
    keepalive_task s' = keepalive_task s /\
    write_script s' = write_script s /\
    same_store s s' /\
    (ok = true -> s' = s) /\
    (ok = false ->
     connected s' = false /\ reconnect_task s' = (running s || reconnect_task s)).
Proof.
  unfold settle, _schedule_reconnect, same_store, modify, bind, get, ret.
  open_daemon s. destruct ok; cbn.
  - eexists. split; [reflexivity|]. cbn. intuition discriminate.
  - destruct ru; cbn; [destruct rt; cbn|];
      (eexists; split; [reflexivity|]; cbn; intuition discriminate).
Qed.

(** [send_command] is its two halves run back to back. *)
Lemma send_command_cut (who : origin) (data : list byte) (s : Daemon) :
  send_command who data s
  = (p <- hand_over who data ;;
     match p with
     | Skipped => ret false
     | Pending ok => settle ok
     end) s.
Proof.
  unfold send_command, hand_over, settle, write_gatt_char, try_except, bind, get, ret.
  open_daemon s. destruct co; cbn; [|reflexivity].
  destruct cl as [a|]; cbn; [|reflexivity].
  destruct ws as [|[|] ws]; reflexivity.
Qed.

Ltac unfold_all :=
  unfold send_fan_speed, send_pump_mode, begin_fan, finish_fan, begin_pump, finish_pump,
    send_command, hand_over, settle, write_gatt_char, _schedule_reconnect, _save_state,
    _start_keepalive, _stop_keepalive, report, py_get, lift,
    try_except, modify, bind, get, ret, raise in *.

Lemma send_fan_speed_cut (who : origin) (speed : json) (save : bool) (s : Daemon) :
  send_fan_speed who speed save s
  = (p <- begin_fan who speed ;;
     match p with
     | Skipped => ret false
     | Pending ok => finish_fan speed save ok
     end) s.
Proof.
  unfold_all. destruct (Codec.fan_frame speed) as [e|cmd]; [reflexivity|].
  open_daemon s. destruct co; cbn; [|reflexivity].
  destruct cl as [a|]; cbn; [|reflexivity].
  destruct ws as [|[|] ws]; cbn; try reflexivity;
    destruct ru; cbn; try reflexivity; destruct rt; reflexivity.
Qed.

Lemma send_pump_mode_cut (who : origin) (mode : json) (save : bool) (s : Daemon) :
  send_pump_mode who mode save s
  = (p <- begin_pump who mode ;;
     match p with
     | Skipped => ret false
     | Pending ok => finish_pump mode save ok
     end) s.
Proof.
  unfold_all. destruct (Codec.pump_frame mode) as [e|cmd]; [reflexivity|].
  open_daemon s. destruct co; cbn; [|reflexivity].
  destruct cl as [a|]; cbn; [|reflexivity].
  destruct ws as [|[|] ws]; cbn; try reflexivity;
    destruct ru; cbn; try reflexivity; destruct rt; reflexivity.
Qed.

(** [process_request] is [begin_process] followed, where it suspended,
    by [finish_process]. *)
Lemma process_request_cut (request : json) (s : Daemon) :
  process_request request s
  = (x <- begin_process request ;;
     match x with
     | inl p => finish_process p
     | inr r => ret r
     end) s.
Proof.
  destruct request; try reflexivity.
  cbv beta iota delta [process_request begin_process finish_process
                       bind ret py_get get report].
  repeat match goal with
         | |- context [if ?b then _ else _] => destruct b
         end;
    try reflexivity.
  - rewrite send_fan_speed_cut. cbv beta iota delta [bind ret].
    destruct (begin_fan FromClient _ s) as [[e|[|ok]] s3]; reflexivity.
  - rewrite send_pump_mode_cut. cbv beta iota delta [bind ret].
    destruct (begin_pump FromClient _ s) as [[e|[|ok]] s3]; reflexivity.
  - destruct (_schedule_reconnect s) as [[e|[]] s2]; reflexivity.
Qed.

(** ** The stored settings stay within range *)

Ltac crush :=
  repeat match goal with
         | H : (_, _) = (_, _) |- _ => injection H as <- <-
         | H : Some _ = Some _ |- _ => injection H as <-
         | H : inl _ = inl _ |- _ => injection H as <-
         | H : inr _ = inr _ |- _ => injection H as <-
         | H : _ /\ _ |- _ => destruct H
         | |- _ /\ _ => split
         | |- True => exact I
         end.

Lemma hand_over_settings (who : origin) (data : list byte) (s : Daemon) :
  fan_speed (snd (hand_over who data s)) = fan_speed s /\
  pump_mode (snd (hand_over who data s)) = pump_mode s /\
  exists p, fst (hand_over who data s) = inr p.
Proof.
  destruct (hand_over_spec who data s) as (p & s' & E & _ & _ & _ & _ & _ & _ & Hst & _).
  rewrite E. cbn. unfold same_store in Hst. intuition eauto.
Qed.

Ltac unfold_tasks :=
  unfold attempt_resume, attempt_body, next_send, finish_connect, mark_connected,
    transport_call, open_client, connect_failed,
    startup_resume, reconnect_resume, reconnect_loop, keepalive_resume, keepalive_loop,
    begin_answer, begin_process, finish_process, readline, json_loads,
    _on_disconnect in *.

(** Case analysis on everything the run recorded in [E] branches on. *)
Ltac plain x :=
  lazymatch x with
  | context [if _ then _ else _] => fail
  | context [match _ with _ => _ end] => fail
  | _ => idtac
  end.

Ltac split_run E :=
  repeat (cbn in E;
          match type of E with
          | context [if ?b then _ else _] => plain b; destruct b eqn:?
          | context [match ?x with _ => _ end] => plain x; destruct x eqn:?
          end).

Lemma attempt_resume_settings (DEVICE_ADDRESS : string) (a : attempt) (d d' : Daemon)
      (x : exn + (attempt + bool)) :
  settings_ok d ->
  attempt_values_ok a ->
  attempt_resume DEVICE_ADDRESS a d = (x, d') ->
  settings_ok d' /\
  match x with
  | inr (inl a') => attempt_values_ok a'
  | inr (inr _) => True
  | inl _ => False
  end.
Proof.
  intros Hok Ha E. unfold settings_ok in *.
  unfold_tasks. unfold_all. open_daemon d.
  destruct a as [env|env|env|ok todo|todo|ok speed| |ok mode]; cbn [attempt_values_ok] in Ha;
    split_run E; crush; cbn; auto.
Qed.

Lemma begin_answer_settings (l : line) (d d' : Daemon)
      (x : exn + (request_pt + response)) :
  settings_ok d ->
  begin_answer l d = (x, d') ->
  settings_ok d' /\
  match x with
  | inr (inl p) => request_values_ok p
  | _ => True
  end.
Proof.
  intros Hok E. unfold settings_ok in *.
  unfold_tasks. unfold_all. open_daemon d.
  destruct l as [| | | | |request]; [| | | | |destruct request];
    split_run E; crush; cbn; auto;
    match goal with
    | H : negb (int_between _ _ _) = false |- _ =>
        apply negb_false_iff, int_between_spec in H; exact H
    end.
Qed.

Lemma finish_process_settings (p : request_pt) (d : Daemon) :
  settings_ok d ->
  request_values_ok p ->
  settings_ok (exec (finish_process p) d).
Proof.
  intros Hok Hp. unfold settings_ok, exec in *.
  destruct (finish_process p d) as [x d'] eqn:E.
  unfold_tasks. unfold_all. open_daemon d.
  destruct p as [ok value|ok value]; cbn [request_values_ok] in Hp;
    split_run E; crush; cbn; auto.
Qed.

Lemma reconnect_resume_settings (DEVICE_ADDRESS : string) (env : ConnEnv)
      (r : reconnect_pt) (d d' : Daemon) (x : exn + option reconnect_pt) :
  settings_ok d ->
  match r with RAttempt a => attempt_values_ok a | _ => True end ->
  reconnect_resume DEVICE_ADDRESS env r d = (x, d') ->
  settings_ok d' /\
  match x with
  | inr (Some (RAttempt a')) => attempt_values_ok a'
  | inl _ => False
  | _ => True
  end.
Proof.
  intros Hok Hr E. destruct r as [| |a].
  - unfold settings_ok in *. unfold_tasks. unfold_all. open_daemon d.
    split_run E; crush; cbn; auto.
  - unfold reconnect_resume, ret in E. crush; cbn; auto.
  - unfold reconnect_resume in E. unfold bind at 1 in E.
    destruct (attempt_resume DEVICE_ADDRESS a d) as [y d1] eqn:Ea.
    destruct (attempt_resume_settings _ _ _ _ _ Hok Hr Ea) as (Hok1 & Hy).
    destruct y as [e|[a'|[|]]]; [contradiction| | |].
    + unfold ret in E. crush; auto.
    + unfold settings_ok in *. unfold_all. open_daemon d1. crush; cbn; auto.
    + unfold settings_ok in *. unfold_tasks. unfold_all. open_daemon d1.
      split_run E; crush; cbn; auto.
Qed.

Lemma startup_resume_settings (DEVICE_ADDRESS : string)
      (a : attempt) (d d' : Daemon) (x : exn + option attempt) :
  settings_ok d ->
  attempt_values_ok a ->
  startup_resume DEVICE_ADDRESS a d = (x, d') ->
  settings_ok d' /\
  match x with
  | inr (Some a') => attempt_values_ok a'
  | inl _ => False
  | _ => True
  end.
Proof.
  intros Hok Ha E. unfold startup_resume in E. unfold bind at 1 in E.
  destruct (attempt_resume DEVICE_ADDRESS a d) as [y d1] eqn:Ea.
  destruct (attempt_resume_settings _ _ _ _ _ Hok Ha Ea) as (Hok1 & Hy).
  destruct y as [e|[a'|[|]]]; [contradiction| | |].
  - unfold ret in E. crush; auto.
  - unfold ret in E. crush; auto.
  - unfold settings_ok in *. unfold_all. open_daemon d1.
    split_run E; crush; cbn; auto.
Qed.

Lemma keepalive_resume_settings (k : keepalive_pt) (d d' : Daemon)
      (x : exn + option keepalive_pt) :
  settings_ok d ->
  keepalive_resume k d = (x, d') ->
  settings_ok d' /\ match x with inl _ => False | _ => True end.
Proof.
  intros Hok E. unfold settings_ok in *. unfold_tasks. unfold_all. open_daemon d.
  destruct k as [| |ok]; split_run E; crush; cbn; auto.
Qed.

Lemma on_disconnect_settings (d : Daemon) :
  settings_ok d -> settings_ok (exec _on_disconnect d).
Proof.
  intros Hok. apply (same_store_settings_ok d); [|exact Hok].
  apply on_disconnect_same_store.
Qed.

Lemma Forall_remove_nth {A} (P : A -> Prop) (i : nat) (l : list A) :
  Forall P l -> Forall P (remove_nth i l).
Proof.
  revert i. induction l as [|x l IH]; intros i H; [destruct i; constructor|].
  inversion H; subst. destruct i; cbn; [assumption|]. constructor; auto.
Qed.

Lemma Forall_nth_error {A} (P : A -> Prop) (i : nat) (l : list A) (x : A) :
  Forall P l -> nth_error l i = Some x -> P x.
Proof.
  intros H E. apply nth_error_In in E. rewrite Forall_forall in H. auto.
Qed.

Lemma step_settings_inv (DEVICE_ADDRESS : string) (ev : event) (sys sys' : System) :
  settings_inv sys ->
  step DEVICE_ADDRESS ev sys = Some sys' ->
  settings_inv sys'.
Proof.
  destruct sys as [d st r k rq]. unfold settings_inv.
  cbn [daemon startup reconnecting keepalive requests].
  intros (Hok & Hst & Hr & Hrq) Hstep.
  assert (Hfin : forall d' st' r' k' rq',
            settings_ok d' ->
            match st' with Some a => attempt_values_ok a | None => True end ->
            match r' with RAttempt a => attempt_values_ok a | _ => True end ->
            Forall request_values_ok rq' ->
            settings_inv (tidy (mkSystem d' st' r' k' rq'))).
  { intros d' st' r' k' rq' H1 H2 H3 H4. unfold settings_inv, tidy. cbn.
    split; [exact H1|]. split; [exact H2|]. split; [|exact H4].
    destruct (reconnect_task d'); [exact H3 | exact I]. }
  destruct ev as [|env| |l|i|];
    cbn [step daemon startup reconnecting keepalive requests] in Hstep.
  - destruct st as [a|]; [|discriminate].
    destruct (startup_resume DEVICE_ADDRESS a d) as [x d'] eqn:E.
    destruct (startup_resume_settings _ _ _ _ _ Hok Hst E) as (Hok' & Hx).
    destruct x as [e|a']; [contradiction|]. injection Hstep as <-.
    apply Hfin; trivial.
  - destruct (reconnect_task d); [|discriminate].
    destruct (reconnect_resume DEVICE_ADDRESS env r d) as [x d'] eqn:E.
    destruct (reconnect_resume_settings _ _ _ _ _ _ Hok Hr E) as (Hok' & Hx).
    destruct x as [e|[r'|]]; [contradiction| |]; injection Hstep as <-;
      apply Hfin; trivial.
  - destruct (keepalive_task d); [|discriminate].
    destruct (keepalive_resume k d) as [x d'] eqn:E.
    destruct (keepalive_resume_settings _ _ _ _ Hok E) as (Hok' & Hx).
    destruct x as [e|[k'|]]; [contradiction| |]; injection Hstep as <-;
      apply Hfin; trivial.
  - destruct (begin_answer l d) as [x d'] eqn:E.
    destruct (begin_answer_settings _ _ _ _ Hok E) as (Hok' & Hx).
    destruct x as [e|[p|resp]]; injection Hstep as <-; apply Hfin; trivial.
    apply Forall_app. split; [exact Hrq | constructor; [exact Hx | constructor]].
  - destruct (nth_error rq i) as [p|] eqn:Ei; [|discriminate].
    injection Hstep as <-. apply Hfin; trivial.
    + apply finish_process_settings; [exact Hok|].
      eapply Forall_nth_error; eassumption.
    + now apply Forall_remove_nth.
  - injection Hstep as <-. apply Hfin; trivial. now apply on_disconnect_settings.
Qed.

Lemma run_events_settings_inv
      (DEVICE_ADDRESS : string) (evs : list event) (sys sys' : System) :
  settings_inv sys ->
  run_events DEVICE_ADDRESS evs sys = Some sys' ->
  settings_inv sys'.
Proof.
  revert sys. induction evs as [|ev evs IH]; intros sys H Hrun; cbn in Hrun.
  - injection Hrun as <-. exact H.
  - destruct (step DEVICE_ADDRESS ev sys) as [sys1|] eqn:E; [|discriminate].
    apply (IH sys1); [|exact Hrun]. eapply step_settings_inv; eassumption.
Qed.

(** Started on a state file that is missing, unreadable, not an object,
    or an object whose settings pass the guard of [process_request], the
    daemon keeps both stored settings within that guard in every state
    it can reach, whatever the clients send, whatever the link does and
    however the tasks interleave. *)
Lemma settings_invariant
      (DEVICE_ADDRESS : string) (f : file) (writes : list bool)
      (saves : list save_outcome) (sys : System) :
  file_ok f ->
  reachable_from (LPPDaemon f writes saves) DEVICE_ADDRESS sys ->
  settings_ok (daemon sys).
Proof.
  intros Hf (env & evs & Hrun).
  assert (H0 : settings_ok (LPPDaemon f writes saves)).
  { assert (Hdef : settings_ok (LPPDaemon Missing writes saves)).
    { split; [exists 60 | exists 0]; (split; [reflexivity | lia]). }
    destruct f as [| |content]; try exact Hdef.
    destruct content; try exact Hdef. exact Hf. }
  apply (run_events_settings_inv DEVICE_ADDRESS evs
           (boot (LPPDaemon f writes saves) env) sys); [|exact Hrun].
  split; [exact H0|]. cbn. repeat split. constructor.
Qed.

(** ** A daemon marked connected has a client *)

Ltac finish_client :=
  crush; cbn in *; unfold has_client in *; cbn in *;
  try solve [intuition (try discriminate; try congruence)].

Lemma attempt_resume_client (DEVICE_ADDRESS : string) (a : attempt) (d d' : Daemon)
      (x : exn + (attempt + bool)) :
  (opened a = true -> has_client d) ->
  attempt_resume DEVICE_ADDRESS a d = (x, d') ->
  keeps_client d d' /\
  match x with
  | inr (inl a') => opened a' = true -> has_client d'
  | inr (inr _) => True
  | inl _ => False
  end.
Proof.
  intros Ha E. unfold keeps_client.
  unfold_tasks. unfold_all. open_daemon d.
  destruct a as [env|env|env|ok todo|todo|ok speed| |ok mode]; cbn [opened] in Ha;
    split_run E; finish_client.
Qed.

Lemma bystander_keeps_client (d d' : Daemon) :
  client d' = client d ->
  (connected d' = true -> connected d = true) ->
  keeps_client d d'.
Proof.
  unfold keeps_client, has_client. intros -> H. split; auto.
Qed.

Lemma begin_answer_client (l : line) (d : Daemon) :
  keeps_client d (snd (begin_answer l d)).
Proof.
  destruct (begin_answer l d) as [x d'] eqn:E. cbn [snd].
  apply bystander_keeps_client;
    unfold_tasks; unfold_all; open_daemon d;
    (destruct l as [| | | | |request]; [| | | | |destruct request]);
    split_run E; finish_client.
Qed.

Lemma finish_process_client (p : request_pt) (d : Daemon) :
  keeps_client d (exec (finish_process p) d).
Proof.
  unfold exec. destruct (finish_process p d) as [x d'] eqn:E. cbn [snd].
  apply bystander_keeps_client;
    unfold_tasks; unfold_all; open_daemon d;
    destruct p as [ok value|ok value]; split_run E; finish_client.
Qed.

Lemma keepalive_resume_client (k : keepalive_pt) (d d' : Daemon)
      (x : exn + option keepalive_pt) :
  keepalive_resume k d = (x, d') ->
  keeps_client d d' /\ match x with inl _ => False | _ => True end.
Proof.
  intros E. split.
  - apply bystander_keeps_client;
      unfold_tasks; unfold_all; open_daemon d;
      destruct k as [| |ok]; split_run E; finish_client.
  - unfold_tasks; unfold_all; open_daemon d;
      destruct k as [| |ok]; split_run E; finish_client.
Qed.

Lemma on_disconnect_client (d : Daemon) : keeps_client d (exec _on_disconnect d).
Proof.
  unfold exec. destruct (_on_disconnect d) as [x d'] eqn:E. cbn [snd].
  apply bystander_keeps_client;
    unfold_tasks; unfold_all; open_daemon d; split_run E; finish_client.
Qed.

Lemma tail_keeps_client (m : M unit) (d : Daemon) :
  m = _schedule_reconnect \/ m = modify (set_reconnect_task false)
  \/ m = modify (fun s => set_reconnect_delay
                            (Z.min (reconnect_delay s * 2) RECONNECT_MAX_DELAY) s) ->
  client (snd (m d)) = client d /\ connected (snd (m d)) = connected d.
Proof.
  intros [-> | [-> | ->]]; unfold_all; open_daemon d;
    repeat match goal with |- context [if ?b then _ else _] => destruct b end;
    split; reflexivity.
Qed.

Lemma keeps_client_trans (d1 d2 d3 : Daemon) :
  keeps_client d1 d2 -> keeps_client d2 d3 -> keeps_client d1 d3.
Proof. unfold keeps_client. intuition. Qed.

Lemma startup_resume_client (DEVICE_ADDRESS : string)
      (a : attempt) (d d' : Daemon) (x : exn + option attempt) :
  (opened a = true -> has_client d) ->
  startup_resume DEVICE_ADDRESS a d = (x, d') ->
  keeps_client d d' /\
  match x with
  | inr (Some a') => opened a' = true -> has_client d'
  | inl _ => False
  | _ => True
  end.
Proof.
  intros Ha E. unfold startup_resume in E. unfold bind at 1 in E.
  destruct (attempt_resume DEVICE_ADDRESS a d) as [y d1] eqn:Ea.
  destruct (attempt_resume_client _ _ _ _ _ Ha Ea) as (Hk & Hy).
  destruct y as [e|[a'|[|]]]; [contradiction| | |].
  - unfold ret in E. crush; auto.
  - unfold ret in E. crush; auto.
  - split.
    + eapply keeps_client_trans; [exact Hk|].
      unfold bind in E. destruct (_schedule_reconnect d1) as [[e|[]] d2] eqn:E2.
      * unfold_all. open_daemon d1. split_run E2; discriminate.
      * unfold ret in E. injection E as <- <-.
        destruct (tail_keeps_client _schedule_reconnect d1) as (H1 & H2); [now left|].
        rewrite E2 in H1, H2. cbn in H1, H2.
        apply bystander_keeps_client; congruence.
    + unfold bind in E. destruct (_schedule_reconnect d1) as [[e|[]] d2] eqn:E2.
      * unfold_all. open_daemon d1. split_run E2; discriminate.
      * unfold ret in E. injection E as <- <-. exact I.
Qed.

Lemma reconnect_resume_client (DEVICE_ADDRESS : string) (env : ConnEnv)
      (r : reconnect_pt) (d d' : Daemon) (x : exn + option reconnect_pt) :
  (forall a, r = RAttempt a -> opened a = true -> has_client d) ->
  reconnect_resume DEVICE_ADDRESS env r d = (x, d') ->
  keeps_client d d' /\
  match x with
  | inr (Some (RAttempt a')) => opened a' = true -> has_client d'
  | inl _ => False
  | _ => True
  end.
Proof.
  intros Hr E. destruct r as [| |a].
  - split.
    + apply bystander_keeps_client;
        unfold_tasks; unfold_all; open_daemon d; split_run E; finish_client.
    + unfold_tasks; unfold_all; open_daemon d; split_run E; finish_client.
  - unfold reconnect_resume, ret in E. crush.
    + apply bystander_keeps_client; auto.
    + cbn. discriminate.
  - unfold reconnect_resume in E. unfold bind at 1 in E.
    destruct (attempt_resume DEVICE_ADDRESS a d) as [y d1] eqn:Ea.
    destruct (attempt_resume_client _ _ _ _ _ (Hr a eq_refl) Ea) as (Hk & Hy).
    destruct y as [e|[a'|[|]]]; [contradiction| | |].
    + unfold ret in E. crush; auto.
    + split; [|unfold_all; crush; exact I].
      eapply keeps_client_trans; [exact Hk|].
      apply bystander_keeps_client; unfold_all; crush; cbn; auto.
    + split.
      * eapply keeps_client_trans; [exact Hk|].
        apply bystander_keeps_client;
          unfold_tasks; unfold_all; open_daemon d1; split_run E; finish_client.
      * unfold_tasks; unfold_all; open_daemon d1; split_run E; finish_client.
Qed.

Lemma step_client_inv (DEVICE_ADDRESS : string) (ev : event) (sys sys' : System) :
  client_inv sys ->
  step DEVICE_ADDRESS ev sys = Some sys' ->
  client_inv sys'.
Proof.
  destruct sys as [d st r k rq]. unfold client_inv.
  cbn [daemon startup reconnecting keepalive requests].
  intros (Hco & Hst & Hr) Hstep.
  assert (Hfin : forall d' st' r' k' rq',
            keeps_client d d' ->
            (forall a, st' = Some a -> opened a = true ->
                       st = Some a \/ has_client d') ->
            (forall a, r' = RAttempt a -> opened a = true ->
                       r = RAttempt a \/ has_client d') ->
            client_inv (tidy (mkSystem d' st' r' k' rq'))).
  { intros d' st' r' k' rq' (Hk1 & Hk2) H2 H3. unfold client_inv, tidy. cbn.
    split; [apply Hk2; exact Hco|]. split.
    - intros a E Ho. destruct (H2 a E Ho) as [-> | H]; [|exact H].
      apply Hk1. apply (Hst a eq_refl Ho).
    - intros a E Ho. destruct (reconnect_task d'); [|discriminate].
      destruct (H3 a E Ho) as [-> | H]; [|exact H].
      apply Hk1. apply (Hr a eq_refl Ho). }
  destruct ev as [|env| |l|i|];
    cbn [step daemon startup reconnecting keepalive requests] in Hstep.
  - destruct st as [a|]; [|discriminate].
    destruct (startup_resume DEVICE_ADDRESS a d) as [x d'] eqn:E.
    destruct (startup_resume_client _ _ _ _ _ (Hst a eq_refl) E) as (Hk & Hx).
    destruct x as [e|a']; [contradiction|]. injection Hstep as <-.
    apply Hfin; trivial; [|intros; now left].
    intros a0 -> Ho. right. auto.
  - destruct (reconnect_task d); [|discriminate].
    destruct (reconnect_resume DEVICE_ADDRESS env r d) as [x d'] eqn:E.
    destruct (reconnect_resume_client _ _ _ _ _ _ Hr E) as (Hk & Hx).
    destruct x as [e|[r'|]]; [contradiction| |]; injection Hstep as <-;
      apply Hfin; trivial; try (intros; now left); try discriminate.
    intros a0 -> Ho. right. auto.
  - destruct (keepalive_task d); [|discriminate].
    destruct (keepalive_resume k d) as [x d'] eqn:E.
    destruct (keepalive_resume_client _ _ _ _ E) as (Hk & Hx).
    destruct x as [e|[k'|]]; [contradiction| |]; injection Hstep as <-;
      apply Hfin; trivial; intros; now left.
  - pose proof (begin_answer_client l d) as Hk.
    destruct (begin_answer l d) as [x d'] eqn:E. cbn [snd] in Hk.
    destruct x as [e|[p|resp]]; injection Hstep as <-;
      apply Hfin; trivial; intros; now left.
  - destruct (nth_error rq i) as [p|] eqn:Ei; [|discriminate].
    injection Hstep as <-. apply Hfin; try (intros; now left).
    apply finish_process_client.
  - injection Hstep as <-. apply Hfin; try (intros; now left).
    apply on_disconnect_client.
Qed.

Lemma run_events_client_inv
      (DEVICE_ADDRESS : string) (evs : list event) (sys sys' : System) :
  client_inv sys ->
  run_events DEVICE_ADDRESS evs sys = Some sys' ->
  client_inv sys'.
Proof.
  revert sys. induction evs as [|ev evs IH]; intros sys H Hrun; cbn in Hrun.
  - injection Hrun as <-. exact H.
  - destruct (step DEVICE_ADDRESS ev sys) as [sys1|] eqn:E; [|discriminate].
    apply (IH sys1); [|exact Hrun]. eapply step_client_inv; eassumption.
Qed.

(** ** Order of the frames on a link, with the tasks interleaved *)

Lemma bystander_refl (s : Daemon) : bystander s s.
Proof.
  repeat split; trivial. exists []. rewrite app_nil_r. repeat split.
Qed.

Lemma bystander_trans (s1 s2 s3 : Daemon) :
  bystander s1 s2 -> bystander s2 s3 -> bystander s1 s3.
Proof.
  intros (Hc1 & Hco1 & x1 & Hl1 & Hf1 & Hd1) (Hc2 & Hco2 & x2 & Hl2 & Hf2 & Hd2).
  split; [congruence|]. split; [auto|].
  exists (x1 ++ x2). split; [rewrite Hl2, Hl1, app_assoc; reflexivity|]. split.
  - rewrite filter_app, Hf1, Hf2. reflexivity.
  - intros H. rewrite (Hd1 H). cbn. apply Hd2.
    destruct (connected s2) eqn:E; [|reflexivity].
    specialize (Hco1 eq_refl). congruence.
Qed.

(** A change that leaves client and link alone and does not mark the
    daemon connected. *)
Lemma bystander_aside (s s' : Daemon) :
  client s' = client s ->
  (connected s' = true -> connected s = true) ->
  link s' = link s ->
  bystander s s'.
Proof.
  intros Hc Hco Hl. split; [exact Hc|]. split; [exact Hco|].
  exists []. rewrite app_nil_r. repeat split. exact Hl.
Qed.

Lemma hand_over_bystander (who : origin) (data : list byte) :
  own (who, data) = false -> effect bystander (hand_over who data).
Proof.
  intros Hown s.
  destruct (hand_over_spec who data s)
    as (p & s' & E & Hc & Hco & _ & _ & _ & _ & _ & Hp).
  rewrite E. cbn [snd].
  destruct p as [|[|]].
  - destruct Hp as (-> & _). apply bystander_refl.
  - destruct Hp as (Hup & _ & Hl).
    split; [exact Hc|]. split; [congruence|].
    exists [(who, data)]. split; [exact Hl|]. split; [|congruence].
    cbn [filter]. rewrite Hown. reflexivity.
  - destruct Hp as (_ & _ & Hl). apply bystander_aside; congruence.
Qed.

Lemma settle_bystander (ok : bool) : effect bystander (settle ok).
Proof.
  intros s. destruct (settle_spec ok s) as (s' & E & Hc & Hl & _ & _ & _ & _ & _ & Ht & Hf).
  rewrite E. cbn [snd]. destruct ok.
  - rewrite (Ht eq_refl). apply bystander_refl.
  - destruct (Hf eq_refl) as (Hco & _). apply bystander_aside; congruence.
Qed.

Ltac effects :=
  repeat first
    [ apply hand_over_bystander; reflexivity
    | apply settle_bystander
    | apply effect_ret; [apply bystander_refl]
    | apply effect_raise; [apply bystander_refl]
    | apply effect_get; [apply bystander_refl]
    | apply effect_lift; [apply bystander_refl]
    | apply effect_bind; [apply bystander_trans | | intro]
    | apply effect_try_except; [apply bystander_trans | | intro]
    | apply effect_modify; intro; apply bystander_aside;
      [reflexivity | cbn; congruence | reflexivity]
    | match goal with
      | |- effect _ (if ?b then _ else _) => destruct b
      | |- effect _ (match ?x with _ => _ end) => destruct x
      end ].

Lemma save_state_bystander : effect bystander _save_state.
Proof.
  intros s. unfold _save_state.
  destruct (save_script s) as [|[| |] rest]; apply bystander_aside; auto.
Qed.

Lemma schedule_reconnect_bystander : effect bystander _schedule_reconnect.
Proof. unfold _schedule_reconnect. effects. Qed.

Lemma begin_process_bystander (request : json) :
  effect bystander (begin_process request).
Proof.
  unfold begin_process, py_get, report, begin_fan, begin_pump.
  effects; apply schedule_reconnect_bystander.
Qed.

Lemma begin_answer_bystander (l : line) (s : Daemon) :
  bystander s (snd (begin_answer l s)).
Proof.
  unfold begin_answer, bind, readline, json_loads.
  destruct l as [| | | | |request]; try apply bystander_refl.
  unfold ret at 1 2.
  pose proof (begin_process_bystander request s) as H.
  destruct (begin_process request s) as [[[]|r] s']; exact H.
Qed.

Lemma finish_process_bystander (p : request_pt) (s : Daemon) :
  bystander s (exec (finish_process p) s).
Proof.
  assert (H : effect bystander (finish_process p)); [|apply H].
  unfold finish_process, finish_fan, finish_pump, report.
  effects; apply save_state_bystander.
Qed.

Lemma keepalive_resume_bystander (k : keepalive_pt) (s : Daemon) :
  bystander s (snd (keepalive_resume k s)).
Proof.
  assert (H : effect bystander (keepalive_resume k)); [|apply H].
  unfold keepalive_resume, keepalive_loop. effects.
Qed.

Lemma on_disconnect_bystander (s : Daemon) : bystander s (exec _on_disconnect s).
Proof.
  assert (H : effect bystander _on_disconnect); [|apply H].
  unfold _on_disconnect, _stop_keepalive. effects;
    try apply schedule_reconnect_bystander.
Qed.

Lemma reconnect_loop_bystander : effect bystander reconnect_loop.
Proof. unfold reconnect_loop. effects. Qed.

Lemma tagged_app (who : origin) (l1 l2 : list (list byte)) :
  tagged who (l1 ++ l2) = tagged who l1 ++ tagged who l2.
Proof. apply map_app. Qed.

Lemma handshake_prefix (done todo : list (list byte)) (ff pf : list byte) :
  Codec.init_sequence = done ++ todo ->
  tagged Handshake done = firstn (List.length done) (session_frames ff pf).
Proof.
  intros E. unfold session_frames. rewrite E, tagged_app, <- app_assoc.
  replace (List.length done) with (List.length (tagged Handshake done) + 0)%nat
    by (unfold tagged; rewrite length_map; lia).
  rewrite firstn_app_2. cbn [firstn]. now rewrite app_nil_r.
Qed.

(** Some fan frame and some pump frame exist. *)
Lemma frames_exist :
  exists speed mode ff pf,
    Codec.fan_frame speed = inr ff /\ Codec.pump_frame mode = inr pf.
Proof. exists (JInt 0), (JInt 0). do 2 eexists. split; reflexivity. Qed.

Lemma own_prefix_handshake (d : Daemon) (done todo : list (list byte)) :
  Codec.init_sequence = done ++ todo ->
  filter own (link d) = tagged Handshake done ->
  own_prefix d.
Proof.
  intros E H. destruct frames_exist as (speed & mode & ff & pf & Ef & Ep).
  exists speed, mode, ff, pf, (List.length done). repeat split; trivial.
  rewrite H. now apply handshake_prefix with (todo := todo).
Qed.

Lemma own_prefix_fan (d : Daemon) (speed : json) (ff : list byte) :
  Codec.fan_frame speed = inr ff ->
  filter own (link d) = tagged Handshake Codec.init_sequence ++ [(Resync, ff)] ->
  own_prefix d.
Proof.
  intros Ef H. destruct frames_exist as (_ & mode & _ & pf & _ & Ep).
  exists speed, mode, ff, pf, 10%nat. repeat split; trivial.
Qed.

Lemma own_whole_prefix (d : Daemon) : own_whole d -> own_prefix d.
Proof.
  intros (speed & mode & ff & pf & Ef & Ep & H).
  exists speed, mode, ff, pf, 11%nat. repeat split; trivial.
Qed.

Lemma own_prefix_empty (d : Daemon) : link d = [] -> own_prefix d.
Proof.
  intros H. destruct frames_exist as (speed & mode & ff & pf & Ef & Ep).
  exists speed, mode, ff, pf, 0%nat. repeat split; trivial. rewrite H. reflexivity.
Qed.

Lemma own_prefix_same (d d' : Daemon) :
  filter own (link d') = filter own (link d) -> own_prefix d -> own_prefix d'.
Proof.
  intros H (speed & mode & ff & pf & k & Ef & Ep & Hl).
  exists speed, mode, ff, pf, k. repeat split; trivial. congruence.
Qed.

Lemma bystander_own (d d' : Daemon) :
  bystander d d' -> filter own (link d') = filter own (link d).
Proof.
  intros (_ & _ & extra & Hl & Hf & _). rewrite Hl, filter_app, Hf, app_nil_r. reflexivity.
Qed.

Lemma bystander_attempt_ok (a : attempt) (d d' : Daemon) :
  bystander d d' -> attempt_ok a d -> attempt_ok a d'.
Proof.
  intros Hb Ha. pose proof (bystander_own _ _ Hb) as Hown.
  destruct Hb as (Hc & Hco & extra & Hl & Hf & Hdown).
  assert (Hstay : connected d = false -> connected d' = false).
  { intros H. destruct (connected d'); [|reflexivity]. rewrite Hco in H; congruence. }
  destruct a as [env|env|env|ok todo|todo|ok speed| |ok mode]; cbn [attempt_ok] in *.
  - auto.
  - destruct Ha as (H1 & H2). split; [auto|]. rewrite Hl, H2, (Hdown H1). reflexivity.
  - destruct Ha as (H1 & H2). split; [auto|]. rewrite Hl, H2, (Hdown H1). reflexivity.
  - destruct Ha as (done & cmd & E & H). exists done, cmd. split; [exact E|].
    intros Hup. rewrite Hown. auto.
  - destruct Ha as (done & E & H). exists done. split; [exact E|].
    intros Hup. rewrite Hown. auto.
  - intros Hup. rewrite Hown. auto.
  - intros Hup. rewrite Hown. auto.
  - intros Hup. rewrite Hown. auto.
Qed.

Lemma bystander_idle (d d' : Daemon) :
  bystander d d' ->
  (connected d = true -> own_whole d) ->
  connected d' = true -> own_whole d'.
Proof.
  intros Hb H Hup. pose proof (bystander_own _ _ Hb) as Hown.
  destruct Hb as (_ & Hco & _).
  destruct (H (Hco Hup)) as (speed & mode & ff & pf & Ef & Ep & Hl).
  exists speed, mode, ff, pf. repeat split; trivial. congruence.
Qed.

Lemma filter_own_snoc (l : list (origin * list byte)) (who : origin) (data : list byte) :
  own (who, data) = true ->
  filter own (l ++ [(who, data)]) = filter own l ++ [(who, data)].
Proof. intros H. rewrite filter_app. cbn [filter]. rewrite H. reflexivity. Qed.

Lemma bind_eval {A B} (m : M A) (k : A -> M B) (s s1 : Daemon) (a : A) :
  m s = (inr a, s1) -> bind m k s = k a s1.
Proof. intros E. unfold bind. rewrite E. reflexivity. Qed.

Lemma bind_raise {A B} (m : M A) (k : A -> M B) (s s1 : Daemon) (e : exn) :
  m s = (inl e, s1) -> bind m k s = (inl e, s1).
Proof. intros E. unfold bind. rewrite E. reflexivity. Qed.

Lemma bind_eval_pair {A B} (m : M A) (k : A -> M B) (s s1 : Daemon) (x : exn + A) :
  m s = (x, s1) ->
  bind m k s = match x with inl e => (inl e, s1) | inr a => k a s1 end.
Proof. intros E. unfold bind. rewrite E. reflexivity. Qed.

(** What the attempt's own sends keep, one step at a time. *)
Lemma attempt_resume_order (DEVICE_ADDRESS : string) (a : attempt) (d d' : Daemon)
      (x : exn + (attempt + bool)) :
  (connected d = true -> has_client d) ->
  (opened a = true -> has_client d) ->
  own_prefix d ->
  attempt_ok a d ->
  attempt_resume DEVICE_ADDRESS a d = (x, d') ->
  own_prefix d' /\
  match x with
  | inr (inl a') => attempt_ok a' d'
  | inr (inr _) => connected d' = true -> own_whole d'
  | inl _ => False
  end.
Proof.
  intros Hcl Hop Hpre Ha E.
  unfold attempt_resume, try_except in E.
  destruct a as [env|env|env|ok todo|todo|ok speed| |ok mode];
    cbn [attempt_body attempt_ok opened] in *.
  - (* Scanning *)
    unfold open_client, connect_failed in E. unfold_all.
    destruct (scan env) as [devices|]; cbn in E.
    2:{ injection E as <- <-. split; [exact Hpre|]. cbn. discriminate. }
    destruct (select_device _ _) as [addr|]; cbn in E.
    2:{ injection E as <- <-. split; [exact Hpre|]. congruence. }
    destruct (truthy addr); cbn in E.
    2:{ injection E as <- <-. split; [exact Hpre|]. congruence. }
    injection E as <- <-. split; [apply own_prefix_empty; reflexivity|].
    cbn. split; [exact Ha | reflexivity].
  - (* Connecting *)
    unfold transport_call, connect_failed in E. unfold_all.
    destruct (connect_ok env); cbn in E; injection E as <- <-.
    + split; [exact Hpre | exact Ha].
    + split; [exact Hpre|]. cbn. discriminate.
  - (* Subscribing *)
    destruct Ha as (Hdown & Hl).
    destruct (notify_ok env) eqn:En.
    2:{ unfold mark_connected, transport_call, connect_failed in E. rewrite En in E.
        unfold_all. cbn in E. injection E as <- <-.
        split; [exact Hpre|]. cbn. discriminate. }
    set (d1 := set_reconnect_delay RECONNECT_MIN_DELAY (set_connected true d)).
    assert (Em : mark_connected env d = (inr tt, d1)).
    { unfold mark_connected, transport_call, bind, modify, ret. rewrite En. reflexivity. }
    rewrite (bind_eval _ _ _ _ _ Em) in E.
    change Codec.init_sequence
      with (hd [] Codec.init_sequence :: tl Codec.init_sequence) in E.
    cbn [next_send] in E.
    destruct (hand_over_spec Handshake (hd [] Codec.init_sequence) d1)
      as (p & d2 & Eh & Hc2 & Hco2 & _ & _ & _ & _ & _ & Hp).
    rewrite (bind_eval _ _ _ _ _ Eh) in E.
    assert (Hl1 : link d1 = []) by exact Hl.
    destruct p as [|[|]]; unfold ret in E; injection E as <- <-.
    + destruct Hp as (_ & [H | H]); [discriminate|].
      exfalso. apply (Hop eq_refl). exact H.
    + destruct Hp as (_ & _ & Hl2). rewrite Hl1 in Hl2. cbn [app] in Hl2.
      assert (Hown : filter own (link d2)
                     = tagged Handshake ([] ++ [hd [] Codec.init_sequence])).
      { rewrite Hl2. reflexivity. }
      split.
      * apply own_prefix_handshake
          with (done := [hd [] Codec.init_sequence]) (todo := tl Codec.init_sequence);
          [reflexivity | exact Hown].
      * cbn [attempt_ok]. exists [], (hd [] Codec.init_sequence).
        split; [reflexivity | intros _; exact Hown].
    + destruct Hp as (_ & _ & Hl2). rewrite Hl1 in Hl2.
      split; [apply own_prefix_empty; exact Hl2|].
      cbn [attempt_ok]. exists [], (hd [] Codec.init_sequence).
      split; [reflexivity | intros _; rewrite Hl2; reflexivity].
  - (* ShakeWrite *)
    destruct Ha as (done & cmd & Einit & Hshape).
    destruct (settle_spec ok d) as (d1 & Es & _ & Hl1 & _ & _ & _ & _ & _ & Ht & Hf).
    unfold bind in E. rewrite Es in E. unfold ret in E. injection E as <- <-.
    split; [apply (own_prefix_same d); [congruence | exact Hpre]|].
    cbn [attempt_ok]. exists (done ++ [cmd]).
    split; [rewrite <- app_assoc; exact Einit|].
    intros Hup. destruct ok.
    + rewrite (Ht eq_refl) in *. auto.
    + destruct (Hf eq_refl) as (Hco1 & _). congruence.
  - (* ShakeSleep *)
    destruct Ha as (done & Einit & Hshape).
    destruct todo as [|cmd rest]; cbn [next_send] in E.
    + (* the sequence is sent: line 179 *)
      rewrite app_nil_r in Einit. subst done.
      unfold begin_fan, connect_failed in E. unfold bind at 1, get at 1 in E.
      unfold bind at 1 2 in E.
      destruct (Codec.fan_frame (fan_speed d)) as [e|ff] eqn:Ef; cbn [lift] in E.
      { unfold_all. cbn in E. injection E as <- <-.
        split; [exact Hpre|]. cbn. discriminate. }
      unfold ret at 1 in E.
      destruct (hand_over_spec Resync ff d)
        as (p & d2 & Eh & Hc2 & Hco2 & _ & _ & _ & _ & _ & Hp).
      rewrite Eh in E. unfold ret in E.
      destruct p as [|[|]]; injection E as <- <-.
      * destruct Hp as (-> & Hor). split; [exact Hpre|].
        cbn [attempt_ok]. intros Hup. exfalso.
        destruct Hor as [H | H]; [congruence | exact (Hcl Hup H)].
      * destruct Hp as (Hup & _ & Hl2).
        assert (Hown : filter own (link d2)
                       = tagged Handshake Codec.init_sequence ++ [(Resync, ff)]).
        { rewrite Hl2, filter_own_snoc by reflexivity. rewrite (Hshape Hup). reflexivity. }
        split; [apply (own_prefix_fan d2 (fan_speed d) ff Ef Hown)|].
        cbn [attempt_ok]. intros _. exists ff. split; [exact Ef | exact Hown].
      * destruct Hp as (Hup & _ & Hl2).
        split; [apply (own_prefix_same d); [congruence | exact Hpre]|].
        cbn [attempt_ok]. intros _. exists ff. split; [exact Ef|].
        rewrite Hl2, (Hshape Hup), app_nil_r. reflexivity.
    + unfold bind in E.
      destruct (hand_over_spec Handshake cmd d)
        as (p & d2 & Eh & Hc2 & Hco2 & _ & _ & _ & _ & _ & Hp).
      rewrite Eh in E. unfold ret in E.
      destruct p as [|[|]]; injection E as <- <-.
      * destruct Hp as (-> & Hor). split; [exact Hpre|].
        cbn [attempt_ok]. exists (done ++ [cmd]).
        split; [rewrite <- app_assoc; exact Einit|].
        intros Hup. exfalso.
        destruct Hor as [H | H]; [congruence | exact (Hcl Hup H)].
      * destruct Hp as (Hup & _ & Hl2).
        assert (Hown : filter own (link d2) = tagged Handshake (done ++ [cmd])).
        { rewrite Hl2, filter_own_snoc by reflexivity.
          rewrite (Hshape Hup), tagged_app. reflexivity. }
        split.
        -- apply own_prefix_handshake with (done := done ++ [cmd]) (todo := rest);
             [rewrite <- app_assoc; exact Einit | exact Hown].
        -- cbn [attempt_ok]. exists done, cmd. split; [exact Einit | intros _; exact Hown].
      * destruct Hp as (Hup & _ & Hl2).
        split; [apply (own_prefix_same d); [congruence | exact Hpre]|].
        cbn [attempt_ok]. exists done, cmd. split; [exact Einit|].
        intros _. rewrite Hl2. auto.
  - (* FanWrite *)
    unfold finish_fan, connect_failed in E. unfold_all. open_daemon d.
    split_run E; crush;
      try (apply (own_prefix_same _ _ eq_refl Hpre));
      cbn; try discriminate.
    intros Hup. destruct (Ha Hup) as (ff & Ef & Hown).
    exists speed, ff. split; [exact Ef | exact Hown].
  - (* FanSleep *)
    unfold begin_pump, finish_connect, connect_failed in E.
    unfold bind at 1, get at 1 in E. unfold bind at 1 2 in E.
    destruct (Codec.pump_frame (pump_mode d)) as [e|pf] eqn:Ep; cbn [lift] in E.
    { unfold_all. cbn in E. injection E as <- <-.
      split; [exact Hpre|]. cbn. discriminate. }
    unfold ret at 1 in E.
    destruct (hand_over_spec Resync pf d)
      as (p & d2 & Eh & Hc2 & Hco2 & _ & _ & _ & _ & _ & Hp).
    rewrite Eh in E.
    destruct p as [|[|]].
    + destruct Hp as (-> & Hor).
      assert (Hdown : connected d = false).
      { destruct (connected d) eqn:Hup; [|reflexivity]. exfalso.
        destruct Hor as [H | H]; [congruence | exact (Hcl eq_refl H)]. }
      unfold_all. destruct (keepalive_task d); cbn in E; injection E as <- <-;
        (split; [exact Hpre|]); cbn; congruence.
    + destruct Hp as (Hup & _ & Hl2). unfold ret in E. injection E as <- <-.
      destruct (Ha Hup) as (speed & ff & Ef & Hshape).
      assert (Hown : filter own (link d2)
                     = tagged Handshake Codec.init_sequence ++ [(Resync, ff); (Resync, pf)]).
      { rewrite Hl2, filter_own_snoc by reflexivity. rewrite Hshape, <- app_assoc.
        reflexivity. }
      split.
      * apply own_whole_prefix. exists speed, (pump_mode d), ff, pf. repeat split; trivial.
      * cbn [attempt_ok]. intros _. exists speed, ff, pf. repeat split; trivial.
    + destruct Hp as (Hup & _ & Hl2). unfold ret in E. injection E as <- <-.
      split; [apply (own_prefix_same d); [congruence | exact Hpre]|].
      cbn [attempt_ok]. intros _. destruct (Ha Hup) as (speed & ff & Ef & Hshape).
      exists speed, ff, pf. repeat split; trivial. rewrite Hl2. exact Hshape.
  - (* PumpWrite *)
    unfold finish_pump, finish_connect, connect_failed in E. unfold_all. open_daemon d.
    split_run E; crush;
      try (apply (own_prefix_same _ _ eq_refl Hpre));
      cbn; try discriminate;
      intros Hup; destruct (Ha Hup) as (speed & ff & pf & Ef & Ep & Hown);
      exists speed, mode, ff, pf; repeat split; trivial.
Qed.

(** No task but the reconnect task itself clears its flag. *)
Lemma attempt_resume_flag (DEVICE_ADDRESS : string) (a : attempt) (d : Daemon) :
  reconnect_task d = true ->
  reconnect_task (snd (attempt_resume DEVICE_ADDRESS a d)) = true.
Proof.
  intros H. destruct (attempt_resume DEVICE_ADDRESS a d) as [x d'] eqn:E. cbn [snd].
  unfold_tasks. unfold_all. open_daemon d. subst rt.
  destruct a as [env|env|env|ok todo|todo|ok speed| |ok mode];
    split_run E; crush; reflexivity.
Qed.

Lemma startup_resume_flag (DEVICE_ADDRESS : string) (a : attempt) (d : Daemon) :
  reconnect_task d = true ->
  reconnect_task (snd (startup_resume DEVICE_ADDRESS a d)) = true.
Proof.
  intros H. pose proof (attempt_resume_flag DEVICE_ADDRESS a d H) as H1.
  unfold startup_resume, bind.
  destruct (attempt_resume DEVICE_ADDRESS a d) as [[e|[a'|[|]]] d1]; cbn [snd] in *; trivial.
  unfold_all. open_daemon d1. subst rt. destruct ru; reflexivity.
Qed.

Lemma begin_answer_flag (l : line) (d : Daemon) :
  reconnect_task d = true -> reconnect_task (snd (begin_answer l d)) = true.
Proof.
  intros H. destruct (begin_answer l d) as [x d'] eqn:E. cbn [snd].
  unfold_tasks. unfold_all. open_daemon d. subst rt.
  destruct l as [| | | | |request]; [| | | | |destruct request];
    split_run E; crush; reflexivity.
Qed.

Lemma finish_process_flag (p : request_pt) (d : Daemon) :
  reconnect_task d = true -> reconnect_task (exec (finish_process p) d) = true.
Proof.
  intros H. unfold exec. destruct (finish_process p d) as [x d'] eqn:E. cbn [snd].
  unfold_tasks. unfold_all. open_daemon d. subst rt.
  destruct p as [ok value|ok value]; split_run E; crush; reflexivity.
Qed.

Lemma keepalive_resume_flag (k : keepalive_pt) (d : Daemon) :
  reconnect_task d = true -> reconnect_task (snd (keepalive_resume k d)) = true.
Proof.
  intros H. destruct (keepalive_resume k d) as [x d'] eqn:E. cbn [snd].
  unfold_tasks. unfold_all. open_daemon d. subst rt.
  destruct k as [| |ok]; split_run E; crush; reflexivity.
Qed.

Lemma on_disconnect_flag (d : Daemon) :
  reconnect_task d = true -> reconnect_task (exec _on_disconnect d) = true.
Proof.
  intros H. unfold exec. destruct (_on_disconnect d) as [x d'] eqn:E. cbn [snd].
  unfold_tasks. unfold_all. open_daemon d. subst rt.
  split_run E; crush; reflexivity.
Qed.

(** A step of a task other than [connect_ble] keeps the order. *)
Lemma bystander_apart_inv (d d' : Daemon) (st : option attempt) (r : reconnect_pt)
      (k k' : keepalive_pt) (rq rq' : list request_pt) :
  bystander d d' ->
  (reconnect_task d = true -> reconnect_task d' = true) ->
  apart_inv (mkSystem d st r k rq) ->
  client_inv (tidy (mkSystem d' st r k' rq')) ->
  apart_inv (tidy (mkSystem d' st r k' rq')).
Proof.
  intros Hb Hflag (_ & Hpre & Hra & Hpt) Hci.
  cbn [daemon startup reconnecting] in *.
  split; [exact Hci|]. unfold tidy. cbn [daemon startup reconnecting keepalive requests].
  split; [apply (own_prefix_same d); [now apply bystander_own | exact Hpre]|].
  split.
  { intros a E. destruct (reconnect_task d'); [reflexivity | discriminate]. }
  destruct st as [a|].
  - destruct r as [| |a']; [| |contradiction];
      destruct (reconnect_task d'); now apply (bystander_attempt_ok a d).
  - destruct r as [| |a'].
    + destruct (reconnect_task d'); now apply (bystander_idle d).
    + destruct (reconnect_task d'); now apply (bystander_idle d).
    + rewrite (Hflag (Hra a' eq_refl)). now apply (bystander_attempt_ok a' d).
Qed.

Lemma schedule_reconnect_run (d : Daemon) :
  exists d', _schedule_reconnect d = (inr tt, d') /\ bystander d d'.
Proof.
  pose proof (schedule_reconnect_bystander d) as H.
  destruct (_schedule_reconnect d) as [[e|[]] d'] eqn:E; cbn [snd] in H.
  - exfalso. unfold_all. open_daemon d. split_run E; discriminate.
  - now exists d'.
Qed.

Lemma reconnect_loop_run (d : Daemon) :
  exists r d',
    reconnect_loop d = (inr r, d') /\ bystander d d' /\
    (r = Some RSleeping \/ r = None).
Proof.
  pose proof (reconnect_loop_bystander d) as H.
  destruct (reconnect_loop d) as [[e|r] d'] eqn:E; cbn [snd] in H.
  - exfalso. unfold_tasks. unfold_all. open_daemon d. split_run E; discriminate.
  - exists r, d'. repeat split; try apply H.
    unfold_tasks. unfold_all. open_daemon d. split_run E; crush; auto.
Qed.

Lemma step_apart_inv (DEVICE_ADDRESS : string) (ev : event) (sys sys' : System) :
  apart_inv sys ->
  apart ev sys = true ->
  step DEVICE_ADDRESS ev sys = Some sys' ->
  apart_inv sys'.
Proof.
  intros Hinv Hap Hstep.
  assert (Hci' : client_inv sys').
  { eapply step_client_inv; [apply Hinv | exact Hstep]. }
  destruct sys as [d st r k rq].
  pose proof Hinv as (Hci & Hpre & Hra & Hpt).
  cbn [daemon startup reconnecting keepalive requests] in *.
  destruct Hci as (Hcl & Hst & Hr).
  cbn [daemon startup reconnecting keepalive requests] in *.
  destruct ev as [|env| |l|i|];
    cbn [step daemon startup reconnecting keepalive requests] in Hstep.
  - (* the attempt of run() *)
    destruct st as [a|]; [|discriminate].
    assert (Hnot : forall a', r <> RAttempt a').
    { intros a' ->. exact Hpt. }
    assert (Ha : attempt_ok a d) by (destruct r; trivial; contradiction).
    unfold startup_resume in Hstep.
    destruct (attempt_resume DEVICE_ADDRESS a d) as [x d1] eqn:E.
    destruct (attempt_resume_order _ _ _ _ _ Hcl (Hst a eq_refl) Hpre Ha E) as (Hpre1 & Hx).
    rewrite (bind_eval_pair _ _ _ _ _ E) in Hstep.
    destruct x as [e|[a'|[|]]]; [contradiction| | |].
    + unfold ret in Hstep. injection Hstep as <-.
      split; [exact Hci'|]. unfold tidy. cbn. split; [exact Hpre1|]. split.
      { intros a0 E0. destruct (reconnect_task d1); [reflexivity | discriminate]. }
      destruct (reconnect_task d1); [|exact Hx].
      destruct r; trivial; contradiction.
    + unfold ret in Hstep. injection Hstep as <-.
      split; [exact Hci'|]. unfold tidy. cbn. split; [exact Hpre1|]. split.
      { intros a0 E0. destruct (reconnect_task d1); [reflexivity | discriminate]. }
      destruct (reconnect_task d1); [|exact Hx].
      destruct r; trivial; contradiction.
    + destruct (schedule_reconnect_run d1) as (d2 & E2 & Hb2).
      rewrite (bind_eval _ _ _ _ _ E2) in Hstep. unfold ret in Hstep.
      injection Hstep as <-.
      split; [exact Hci'|]. unfold tidy. cbn.
      split; [apply (own_prefix_same d1); [now apply bystander_own | exact Hpre1]|].
      split.
      { intros a0 E0. destruct (reconnect_task d2); [reflexivity | discriminate]. }
      assert (Hidle : connected d2 = true -> own_whole d2)
        by now apply (bystander_idle d1).
      destruct (reconnect_task d2); [|exact Hidle].
      destruct r; trivial; contradiction.
  - (* the reconnect task *)
    destruct (reconnect_task d) eqn:Hflag; [|discriminate].
    destruct r as [| |a]; cbn [reconnect_resume] in Hstep.
    + destruct (reconnect_loop_run d) as (r' & d1 & E1 & Hb1 & Hr').
      rewrite E1 in Hstep.
      assert (Hgoal : forall r0, (r0 = RSleeping \/ r0 = RStarting) ->
                apart_inv (tidy (mkSystem d1 st r0 k rq))).
      { intros r0 Hr0. split.
        - destruct Hr' as [-> | ->]; destruct Hr0 as [-> | ->];
            injection Hstep as <-; try exact Hci'.
          all: destruct Hci' as (H1 & H2 & H3); unfold tidy in *; cbn in *;
            repeat split; trivial; intros a E0;
            destruct (reconnect_task d1); discriminate.
        - unfold tidy. cbn.
          split; [apply (own_prefix_same d); [now apply bystander_own | exact Hpre]|].
          split.
          { intros a E0. destruct (reconnect_task d1); [reflexivity|discriminate]. }
          destruct st as [a|].
          + assert (Ha : attempt_ok a d1) by now apply (bystander_attempt_ok a d).
            destruct Hr0 as [-> | ->]; destruct (reconnect_task d1); exact Ha.
          + assert (Hidle : connected d1 = true -> own_whole d1)
              by now apply (bystander_idle d).
            destruct Hr0 as [-> | ->]; destruct (reconnect_task d1); exact Hidle. }
      destruct Hr' as [-> | ->]; injection Hstep as <-; apply Hgoal; auto.
    + (* the sleep ends: connect_ble is entered *)
      cbn [apart reconnecting startup daemon] in Hap.
      apply andb_true_iff in Hap. destruct Hap as (Hnone & Hdown).
      apply negb_true_iff in Hdown. destruct st as [a|]; [discriminate|].
      unfold ret in Hstep. injection Hstep as <-.
      split; [exact Hci'|]. unfold tidy. cbn. rewrite Hflag.
      split; [exact Hpre|]. split; [reflexivity|]. exact Hdown.
    + (* inside connect_ble *)
      destruct st as [a0|]; [contradiction|].
      destruct (attempt_resume DEVICE_ADDRESS a d) as [x d1] eqn:E.
      destruct (attempt_resume_order _ _ _ _ _ Hcl (Hr a eq_refl) Hpre Hpt E) as (Hpre1 & Hx).
      pose proof (attempt_resume_flag DEVICE_ADDRESS a d Hflag) as Hflag1.
      rewrite E in Hflag1. cbn [snd] in Hflag1.
      rewrite (bind_eval_pair _ _ _ _ _ E) in Hstep.
      destruct x as [e|[a'|[|]]]; [contradiction| | |].
      * unfold ret in Hstep. injection Hstep as <-.
        split; [exact Hci'|]. unfold tidy. cbn. rewrite Hflag1.
        split; [exact Hpre1|]. split; [reflexivity | exact Hx].
      * unfold_all. cbn in Hstep. injection Hstep as <-.
        split; [exact Hci'|]. unfold tidy. cbn.
        split; [apply (own_prefix_same d1); [reflexivity | exact Hpre1]|].
        split; [discriminate|].
        intros Hup. destruct (Hx Hup) as (speed & mode & ff & pf & Ef & Ep & Hown).
        exists speed, mode, ff, pf. repeat split; trivial.
      * set (d2 := set_reconnect_delay
                     (Z.min (reconnect_delay d1 * 2) RECONNECT_MAX_DELAY) d1) in *.
        assert (E2 : modify (fun s => set_reconnect_delay
                                        (Z.min (reconnect_delay s * 2) RECONNECT_MAX_DELAY) s) d1
                     = (inr tt, d2)) by reflexivity.
        rewrite (bind_eval _ _ _ _ _ E2) in Hstep.
        destruct (reconnect_loop_run d2) as (r' & d3 & E3 & Hb3 & Hr').
        rewrite E3 in Hstep.
        assert (Hidle2 : connected d2 = true -> own_whole d2).
        { intros Hup. destruct (Hx Hup) as (speed & mode & ff & pf & Ef & Ep & Hown).
          exists speed, mode, ff, pf. repeat split; trivial. }
        assert (Hidle3 : connected d3 = true -> own_whole d3)
          by now apply (bystander_idle d2).
        assert (Hpre3 : own_prefix d3).
        { apply (own_prefix_same d1); [|exact Hpre1].
          rewrite (bystander_own d2 d3 Hb3). reflexivity. }
        destruct Hr' as [-> | ->]; injection Hstep as <-;
          (split; [exact Hci'|]); unfold tidy; cbn;
          (split; [exact Hpre3|]);
          (split; [intros a0 E0; destruct (reconnect_task d3); discriminate|]);
          destruct (reconnect_task d3); exact Hidle3.
  - (* keepalive *)
    destruct (keepalive_task d); [|discriminate].
    pose proof (keepalive_resume_bystander k d) as Hb.
    pose proof (keepalive_resume_flag k d) as Hf.
    destruct (keepalive_resume k d) as [[e|[k'|]] d1]; cbn [snd] in *;
      [discriminate| |]; injection Hstep as <-.
    + apply (bystander_apart_inv d d1 st r k k' rq rq); trivial.
    + apply (bystander_apart_inv d d1 st r k KStarting rq rq); trivial.
  - (* a request arrives *)
    pose proof (begin_answer_bystander l d) as Hb.
    pose proof (begin_answer_flag l d) as Hf.
    destruct (begin_answer l d) as [[e|[p|resp]] d1]; cbn [snd] in *;
      injection Hstep as <-.
    + apply (bystander_apart_inv d d1 st r k k rq rq); trivial.
    + apply (bystander_apart_inv d d1 st r k k rq (rq ++ [p])); trivial.
    + apply (bystander_apart_inv d d1 st r k k rq rq); trivial.
  - (* a request goes on *)
    destruct (nth_error rq i) as [p|]; [|discriminate]. injection Hstep as <-.
    apply (bystander_apart_inv d _ st r k k rq (remove_nth i rq)); trivial.
    + apply finish_process_bystander.
    + apply finish_process_flag.
  - injection Hstep as <-.
    apply (bystander_apart_inv d _ st r k k rq rq); trivial.
    + apply on_disconnect_bystander.
    + apply on_disconnect_flag.
Qed.

Lemma run_apart_events (DEVICE_ADDRESS : string) (evs : list event) (sys sys' : System) :
  run_apart DEVICE_ADDRESS evs sys = Some sys' ->
  run_events DEVICE_ADDRESS evs sys = Some sys'.
Proof.
  revert sys. induction evs as [|ev evs IH]; intros sys H; cbn in *; trivial.
  destruct (apart ev sys); [|discriminate].
  destruct (step DEVICE_ADDRESS ev sys) as [sys1|]; [|discriminate]. now apply IH.
Qed.

Lemma reachable_apart_reachable (DEVICE_ADDRESS : string) (sys : System) :
  reachable_apart DEVICE_ADDRESS sys -> reachable DEVICE_ADDRESS sys.
Proof.
  intros (f & writes & saves & env & evs & H).
  exists f, writes, saves, env, evs. now apply run_apart_events.
Qed.

Lemma run_apart_inv (DEVICE_ADDRESS : string) (evs : list event) (sys sys' : System) :
  apart_inv sys ->
  run_apart DEVICE_ADDRESS evs sys = Some sys' ->
  apart_inv sys'.
Proof.
  revert sys. induction evs as [|ev evs IH]; intros sys H Hrun; cbn in Hrun.
  - injection Hrun as <-. exact H.
  - destruct (apart ev sys) eqn:Ha; [|discriminate].
    destruct (step DEVICE_ADDRESS ev sys) as [sys1|] eqn:E; [|discriminate].
    apply (IH sys1); [|exact Hrun]. eapply step_apart_inv; eassumption.
Qed.

Lemma fresh_daemon_down (f : file) (writes : list bool) (saves : list save_outcome) :
  connected (LPPDaemon f writes saves) = false /\
  link (LPPDaemon f writes saves) = [] /\
  client (LPPDaemon f writes saves) = None.
Proof.
  unfold LPPDaemon, _load_state. unfold_all.
  destruct f as [| |content]; cbn; auto.
  destruct content; cbn; auto.
Qed.

Lemma boot_client_inv (f : file) (writes : list bool) (saves : list save_outcome)
      (env : ConnEnv) :
  client_inv (boot (LPPDaemon f writes saves) env).
Proof.
  destruct (fresh_daemon_down f writes saves) as (Hco & Hl & Hc).
  unfold client_inv, boot. cbn. rewrite Hco. repeat split; try discriminate.
  intros a E. injection E as <-. discriminate.
Qed.

Lemma boot_apart_inv (f : file) (writes : list bool) (saves : list save_outcome)
      (env : ConnEnv) :
  apart_inv (boot (LPPDaemon f writes saves) env).
Proof.
  destruct (fresh_daemon_down f writes saves) as (Hco & Hl & Hc).
  split; [apply boot_client_inv|]. unfold boot. cbn.
  split; [now apply own_prefix_empty|]. split; [discriminate | exact Hco].
Qed.

(** C1 (amended). While the calls of [connect_ble] do not overlap, in
    every state the daemon can reach, however its tasks interleave:
    the frames [connect_ble] itself has written on the current link are
    a leading part of the initialization sequence, in order, followed by
    one fan frame and one pump frame; a [connect_ble] in flight has
    written exactly what its point says -- nothing is on the new link
    before it marks the daemon connected, and no fan or pump frame of
    its own before the whole sequence; and with no [connect_ble] in
    flight a daemon marked connected has the whole sequence, the fan
    frame and the pump frame on its link.  Frames of clients and of the
    keepalive task are not constrained: they may stand anywhere behind
    the point where the daemon was marked connected. *)
Theorem handshake_order (DEVICE_ADDRESS : string) (sys : System) :
  reachable_apart DEVICE_ADDRESS sys ->
  own_prefix (daemon sys) /\
  (forall a, In a (in_flight sys) -> attempt_ok a (daemon sys)) /\
  (in_flight sys = [] -> connected (daemon sys) = true -> own_whole (daemon sys)).
Proof.
  intros (f & writes & saves & env & evs & Hrun).
  assert (Hinv : apart_inv sys).
  { apply (run_apart_inv DEVICE_ADDRESS evs (boot (LPPDaemon f writes saves) env)); trivial.
    apply boot_apart_inv. }
  destruct Hinv as (_ & Hpre & Hra & Hpt). split; [exact Hpre|].
  unfold in_flight.
  destruct (startup sys) as [a0|]; destruct (reconnecting sys) as [| |a1];
    try contradiction; cbn [app].
  - split; [|discriminate]. intros a [<- | []]. exact Hpt.
  - split; [|discriminate]. intros a [<- | []]. exact Hpt.
  - split; [intros a []|]. intros _. exact Hpt.
  - split; [intros a []|]. intros _. exact Hpt.
  - rewrite (Hra a1 eq_refl). split; [|discriminate]. intros a [<- | []]. exact Hpt.
Qed.

Lemma handshake_order_witness :
  link (daemon (after early_fan_request))
  = [(Handshake, hd [] Codec.init_sequence);
     (FromClient, [xfe; x1b; x01; x32; x00; x00; x00; xef])]
  /\ own_prefix (daemon (after early_fan_request))
  /\ (forall a, In a (in_flight (after early_fan_request)) ->
                attempt_ok a (daemon (after early_fan_request)))
  /\ (in_flight (after early_fan_request) = [] ->
      connected (daemon (after early_fan_request)) = true ->
      own_whole (daemon (after early_fan_request))).
Proof.
  split; [vm_compute; reflexivity|].
  apply (handshake_order "" (after early_fan_request)).
  exists Missing, [], [], cooler_found, early_fan_request. vm_compute. reflexivity.
Defined.

(** C1 (as stated) does not hold, even while the calls of [connect_ble]
    do not overlap: a fan request that arrives after the first frame of
    the handshake was handed to the link is written to the link there
    and then, in front of the rest of the initialization sequence. *)
Lemma client_frame_inside_handshake :
  ~ (forall sys, reachable_apart "" sys ->
                 client_waits_for_handshake (link (daemon sys))).
Proof.
  intros H.
  assert (Hr : reachable_apart "" (after early_fan_request)).
  { exists Missing, [], [], cooler_found, early_fan_request. vm_compute. reflexivity. }
  specialize (H _ Hr [(Handshake, hd [] Codec.init_sequence)]
                [xfe; x1b; x01; x32; x00; x00; x00; xef] []).
  assert (E : link (daemon (after early_fan_request))
              = [(Handshake, hd [] Codec.init_sequence)]
                ++ [(FromClient, [xfe; x1b; x01; x32; x00; x00; x00; xef])])
    by (vm_compute; reflexivity).
  specialize (H E). vm_compute in H. discriminate.
Qed.

(** Two calls of [connect_ble] can overlap, and then the order is lost
    altogether.  A reconnect request that arrives while [run] still
    scans creates the reconnect task; its [connect_ble] replaces the
    client while the one of [run] has marked the daemon connected and
    waits in the write of the first handshake frame.  The new link has
    seen no handshake frame, and a client's fan frame is the first frame
    written on it. *)
Lemma overlap_breaks_order :
  reachable "" (after overlapping_attempts) /\
  run_apart "" overlapping_attempts (boot idle cooler_found) = None /\
  in_flight (after overlapping_attempts)
  = [ShakeWrite true (tl Codec.init_sequence); Connecting cooler_found] /\
  connected (daemon (after overlapping_attempts)) = true /\
  link (daemon (after overlapping_attempts))
  = [(FromClient, [xfe; x1b; x01; x32; x00; x00; x00; xef])].
Proof.
  split.
  { exists Missing, [], [], cooler_found, overlapping_attempts. vm_compute. reflexivity. }
  repeat split; vm_compute; reflexivity.
Qed.

(** X11. Started on a state file that is missing, unreadable, not an
    object, or an object whose settings pass the guard of
    [process_request], the daemon keeps, in every state it can reach --
    whatever the clients send, whatever the link does, however the tasks
    interleave, calls of [connect_ble] that overlap included -- a stored
    fan speed that is an integer of [0,100] or a JSON boolean, and a
    stored pump mode that is an integer of 0..3 or a JSON boolean. *)
Theorem settings_stay_in_range
      (DEVICE_ADDRESS : string) (f : file) (writes : list bool)
      (saves : list save_outcome) (sys : System) :
  file_ok f ->
  reachable_from (LPPDaemon f writes saves) DEVICE_ADDRESS sys ->
  (whole_in 0 100 (fan_speed (daemon sys)) \/ exists b, fan_speed (daemon sys) = JBool b) /\
  (whole_in 0 3 (pump_mode (daemon sys)) \/ exists b, pump_mode (daemon sys) = JBool b).
Proof.
  intros Hf Hr. destruct (settings_invariant _ _ _ _ _ Hf Hr) as (Hfan & Hpump).
  apply in_range_whole in Hfan. apply in_range_whole in Hpump.
  split.
  - destruct Hfan as [H | (b & E & _)]; [now left | right; now exists b].
  - destruct Hpump as [H | (b & E & _)]; [now left | right; now exists b].
Qed.

Lemma settings_stay_in_range_witness :
  (whole_in 0 100 (fan_speed (daemon (after overlapping_attempts)))
   \/ exists b, fan_speed (daemon (after overlapping_attempts)) = JBool b) /\
  (whole_in 0 3 (pump_mode (daemon (after overlapping_attempts)))
   \/ exists b, pump_mode (daemon (after overlapping_attempts)) = JBool b).
Proof.
  apply (settings_stay_in_range "" Missing [] [] (after overlapping_attempts)).
  - exact I.
  - exists cooler_found, overlapping_attempts. vm_compute. reflexivity.
Defined.

(** X19. In every state the daemon can reach, however its tasks
    interleave and whether or not calls of [connect_ble] overlap, a
    daemon marked connected holds a client: [send_command] never finds
    [self.connected] set and [self.client] None. *)
Theorem connected_has_client (DEVICE_ADDRESS : string) (sys : System) :
  reachable DEVICE_ADDRESS sys ->
  connected (daemon sys) = true ->
  client (daemon sys) <> None.
Proof.
  intros (f & writes & saves & env & evs & Hrun) Hco.
  assert (Hinv : client_inv sys).
  { apply (run_events_client_inv DEVICE_ADDRESS evs
             (boot (LPPDaemon f writes saves) env)); trivial.
    apply boot_client_inv. }
  destruct Hinv as (H & _). exact (H Hco).
Qed.

Lemma connected_has_client_witness :
  client (daemon (after overlapping_attempts)) <> None.
Proof.
  apply (connected_has_client "" (after overlapping_attempts)).
  - exists Missing, [], [], cooler_found, overlapping_attempts. vm_compute. reflexivity.
  - vm_compute. reflexivity.
Defined.
